(** * KubAI: issue detection and prioritisation engine

    A shallow embedding of the decision logic of the analyzers
    ([src/agents/base_agent.py], [src/agents/devops_agent.py],
    [src/agents/mlops_agent.py]) and of the correlator
    ([src/monitors/issue_detector.py]), with the properties of the
    specification proved about it; then of the suggestions the two
    agents make, of the serialisation and the summaries, of the
    collectors' factory ([src/collectors/pipeline_collectors.py]) and of
    the orchestrator ([src/orchestrator.py]), with further properties
    read off the code.

    Conventions of the embedding.
    - Metric batches are JSON-like Python data: they are values of the
      dynamic universe [Py.value]; an object is an association list in
      insertion order.
    - A Python [float] is modelled by the rational number it denotes and
      float arithmetic by exact rational arithmetic. A decimal literal
      such as [0.15] is the rational [15/100]. Infinities and NaN have no
      counterpart in [Py.value]. A comparison or a maximum of numbers of
      a batch comes out in Python as it does here, and so does the
      comparison of a quotient of two counts with a threshold; a sum, a
      mean or a difference of numbers of a batch is rounded in Python.
      The properties that speak of such a result are stated for numbers
      of magnitude at most [10^6], where no conversion to a float
      overflows, and they determine the result up to a tolerance of
      [10^-6], which exceeds the rounding error of the code by orders of
      magnitude; where the numbers are integers and the threshold is
      one, the decision is exact. The overflow of the conversion of an
      integer is modelled where a property depends on it, in
      [_calculate_confidence].
    - A Python [str] is a string of 8-bit characters, compared
      character by character; [lower] and [title] act on the ASCII
      letters.
    - A Python exception is a [Py.Raise] result; every function that can
      raise returns a [Py.result].
    - Logging and the [async] scheduling of the sub-checks (which are
      awaited one after the other) have no influence on the returned
      lists and are not modelled.
    - The collectors simulate their data with random numbers: the data
      they return is an input of the orchestrator here. *)

From stdpp Require Import gmap strings list pretty.
From Stdlib Require Import Ascii QArith Qabs Lqa Permutation Sorted OrderedTypeEx.

Local Open Scope string_scope.
Local Open Scope list_scope.
Local Open Scope Z_scope.

(** * Python values and the builtins the analyzers use *)

Module Py.

Inductive exn :=
| TypeError
| AttributeError
| IndexError
| StatisticsError
| ValueError
| ZeroDivisionError
| OverflowError.

Inductive result (A : Type) :=
| Ok (a : A)
| Raise (e : exn).
Arguments Ok {A} a.
Arguments Raise {A} e.

#[global] Instance result_ret : MRet result := λ A a, Ok a.
#[global] Instance result_bind : MBind result :=
  λ A B f m, match m with Ok a => f a | Raise e => Raise e end.

Definition is_ok {A} (r : result A) : bool :=
  match r with Ok _ => true | Raise _ => false end.

#[warnings="-register-all"]
Inductive value :=
| VNone
| VBool (b : bool)
| VInt (n : Z)
| VFloat (x : Q)
| VStr (s : string)
| VList (l : list value)
| VDict (d : list (string * value)).

Abbreviation dict := (list (string * value)).

(** [bool(v)]: the truth value used by [if v:] and [if not v:]. *)
Definition truthy (v : value) : bool :=
  match v with
  | VNone => false
  | VBool b => b
  | VInt n => negb (n =? 0)
  | VFloat x => negb (Qeq_bool x 0)
  | VStr s => negb (String.eqb s "")
  | VList l => match l with [] => false | _ => true end
  | VDict d => match d with [] => false | _ => true end
  end.

Fixpoint lookup_key (k : string) (d : dict) : option value :=
  match d with
  | [] => None
  | (k', v) :: d' => if String.eqb k k' then Some v else lookup_key k d'
  end.

(** [d.get(k, dflt)] on a dict. *)
Definition dict_get (d : dict) (k : string) (dflt : value) : value :=
  default dflt (lookup_key k d).

(** [v.get(k, dflt)] on an arbitrary value: only dicts have the method. *)
Definition get (v : value) (k : string) (dflt : value) : result value :=
  match v with
  | VDict d => Ok (dict_get d k dflt)
  | _ => Raise AttributeError
  end.

(** The elements a [for] loop or a comprehension draws from [v]. *)
Definition iter (v : value) : result (list value) :=
  match v with
  | VList l => Ok l
  | VStr s => Ok (map (λ c, VStr (String c "")) (String.list_ascii_of_string s))
  | VDict d => Ok (map (λ kv, VStr kv.1) d)
  | _ => Raise TypeError
  end.

(** [len(v)] of something already known to be truthy or iterated. *)
Definition len {A} (l : list A) : Z := Z.of_nat (length l).

(** Numbers: [bool] is a subclass of [int]. *)
Definition as_int (v : value) : option Z :=
  match v with
  | VBool b => Some (if b then 1 else 0)
  | VInt n => Some n
  | _ => None
  end.

Definition as_num (v : value) : option Q :=
  match v with
  | VBool b => Some (if b then 1 else 0)%Q
  | VInt n => Some (inject_Z n)
  | VFloat x => Some x
  | _ => None
  end.

(** The number an ordering comparison with a number literal, or
    arithmetic with a number, needs; anything else is a [TypeError]. *)
Definition number (v : value) : result Q :=
  match as_num v with
  | Some x => Ok x
  | None => Raise TypeError
  end.

Definition Qltb (x y : Q) : bool := negb (Qle_bool y x).

(** The integers that convert to a float are those below
    [2^1024 - 2^970] in magnitude: from there on the nearest float would
    be [2^1024]. *)
Definition float_range : Z := 2 ^ 1024 - 2 ^ 970.


(** [v == "literal"]: equality with a string never raises. *)
Definition eq_str (v : value) (s : string) : bool :=
  match v with
  | VStr s' => String.eqb s' s
  | _ => false
  end.

(** [a + b] with a numeric left operand, as [sum] performs it. *)
Definition num_add (a b : value) : result value :=
  match as_int a, as_int b with
  | Some x, Some y => Ok (VInt (x + y))
  | _, _ =>
      match as_num a, as_num b with
      | Some x, Some y => Ok (VFloat (x + y))
      | _, _ => Raise TypeError
      end
  end.

(** [sum(l)], starting from the integer [0]. *)
Fixpoint sum_from (acc : value) (l : list value) : result value :=
  match l with
  | [] => Ok acc
  | v :: l' => acc' ← num_add acc v; sum_from acc' l'
  end.

Definition sum (l : list value) : result value := sum_from (VInt 0) l.

(** [a / n] (true division) of a number by a length. *)
Definition truediv (a : value) (n : Z) : result Q :=
  x ← number a;
  if n =? 0 then Raise ZeroDivisionError else Ok (x / inject_Z n)%Q.

(** [max(l)] on a non-empty list: the first of the greatest elements.
    The analyzers only call it on a list that [sum] or [statistics.mean]
    has accepted, that is on numbers. *)
Fixpoint max_from (best : value) (l : list value) : result value :=
  match l with
  | [] => Ok best
  | v :: l' =>
      b ← number best;
      x ← number v;
      max_from (if Qltb b x then v else best) l'
  end.

Definition max (l : list value) : result value :=
  match l with
  | [] => Raise ValueError
  | v :: l' => _ ← number v; max_from v l'
  end.

Fixpoint total_of (l : list value) : result Q :=
  match l with
  | [] => Ok 0%Q
  | v :: l' => x ← number v; t ← total_of l'; Ok (x + t)%Q
  end.

Definition is_integral (x : Q) : bool := (Zpos (Qden (Qred x)) =? 1).

(** [statistics.mean(l)]: the exact mean; an [int] when every datum is an
    integer and the mean is integral, a [float] otherwise. *)
Definition mean (l : list value) : result value :=
  match l with
  | [] => Raise StatisticsError
  | _ =>
      t ← total_of l;
      let m := (t / inject_Z (len l))%Q in
      if forallb (λ v, bool_decide (is_Some (as_int v))) l && is_integral m
      then Ok (VInt (Qnum (Qred m)))
      else Ok (VFloat m)
  end.

(** ** Strings *)

Definition is_upper (c : ascii) : bool :=
  let n := nat_of_ascii c in (65 <=? n)%nat && (n <=? 90)%nat.
Definition is_lower (c : ascii) : bool :=
  let n := nat_of_ascii c in (97 <=? n)%nat && (n <=? 122)%nat.
Definition to_lower (c : ascii) : ascii :=
  if is_upper c then ascii_of_nat (nat_of_ascii c + 32) else c.
Definition to_upper (c : ascii) : ascii :=
  if is_lower c then ascii_of_nat (nat_of_ascii c - 32) else c.

(** [s.lower()], on the ASCII letters. *)
Fixpoint str_lower (s : string) : string :=
  match s with
  | EmptyString => EmptyString
  | String c s' => String (to_lower c) (str_lower s')
  end.

(** [s.title()]: a letter that follows a letter is lowered, any other
    letter is raised. *)
Fixpoint title_from (prev_cased : bool) (s : string) : string :=
  match s with
  | EmptyString => EmptyString
  | String c s' =>
      if is_lower c then
        String (if prev_cased then c else to_upper c) (title_from true s')
      else if is_upper c then
        String (if prev_cased then to_lower c else c) (title_from true s')
      else String c (title_from false s')
  end.

Definition str_title (s : string) : string := title_from false s.

(** [needle in hay]. *)
Fixpoint str_contains (needle hay : string) : bool :=
  String.prefix needle hay ||
  match hay with
  | EmptyString => false
  | String _ hay' => str_contains needle hay'
  end.

(** [sep.join(l)] on strings. *)
Fixpoint str_join (sep : string) (l : list string) : string :=
  match l with
  | [] => ""
  | [s] => s
  | s :: l' => s +:+ sep +:+ str_join sep l'
  end.

(** [sep.join(l)] on values: every item must be a [str]. *)
Fixpoint strings_of (l : list value) : result (list string) :=
  match l with
  | [] => Ok []
  | VStr s :: l' => ss ← strings_of l'; Ok (s :: ss)
  | _ :: _ => Raise TypeError
  end.

Definition join (sep : string) (l : list value) : result string :=
  ss ← strings_of l; Ok (str_join sep ss).

(** ** Number formatting *)

(** The integer nearest to [x >= 0], ties going to the even one. *)
Definition round_half_even (x : Q) : Z :=
  let n := Qnum x in
  let d := Zpos (Qden x) in
  let fl := n `div` d in
  let r := n `mod` d in
  if 2 * r <? d then fl
  else if d <? 2 * r then fl + 1
  else if Z.even fl then fl else fl + 1.

Fixpoint pad_zeros (width : nat) (s : string) : string :=
  match width with
  | O => s
  | S w => if (String.length s <? width)%nat then pad_zeros w ("0" +:+ s) else s
  end.

(** [format(x, ".<digits>f")]. *)
Definition format_fixed (digits : nat) (x : Q) : string :=
  let p := 10 ^ Z.of_nat digits in
  let m := round_half_even (Qabs x * inject_Z p) in
  (if Qltb x 0 then "-" else "") +:+ pretty (m `div` p) +:+
  match digits with
  | O => ""
  | _ => "." +:+ pad_zeros digits (pretty (m `mod` p))
  end.

(** [format(x, ".<digits>%")]. *)
Definition format_percent (digits : nat) (x : Q) : string :=
  format_fixed digits (x * 100) +:+ "%".

(** ** Comprehensions *)

(** A list comprehension [[expr(v) for v in l if cond(v)]]: for each
    element in turn the condition is evaluated, then the expression. *)
Fixpoint comprehension {B} (expr : value → result B)
    (cond : value → result bool) (l : list value) : result (list B) :=
  match l with
  | [] => Ok []
  | v :: l' =>
      c ← cond v;
      if c : bool then
        x ← expr v; xs ← comprehension expr cond l'; Ok (x :: xs)
      else comprehension expr cond l'
  end.

Definition always (v : value) : result bool := Ok true.

(** [v.get("status") == s] *)
Definition status_is (s : string) (v : value) : result bool :=
  st ← get v "status" VNone; Ok (eq_str st s).

(** [v.get(field) == s] and [v.get(field)] as a condition. *)
Definition field_is (field s : string) (v : value) : result bool :=
  x ← get v field VNone; Ok (eq_str x s).

Definition field_truthy (field : string) (v : value) : result bool :=
  x ← get v field VNone; Ok (truthy x).

Definition ratio (a b : Z) : Q := (inject_Z a / inject_Z b)%Q.

End Py.

Import Py.

(** * The shared analyzer capability ([src/agents/base_agent.py]) *)

Module BaseAgent.

(** The [Issue] dataclass. Its text fields are annotated [str] and its
    confidence [float]; the metadata is an open mapping. *)
Record Issue := {
  severity : string;
  category : string;
  title : string;
  description : string;
  affected_component : string;
  impact : string;
  recommendation : string;
  confidence : Q;
  metadata : value
}.





Definition severity_order : gmap string Z :=
  {[ "critical" := 4; "high" := 3; "medium" := 2; "low" := 1 ]}.

(** The first component of the sort key,
    [severity_order.get(x.severity, 0)]. *)
Definition severity_rank (x : Issue) : Z :=
  default 0 (severity_order !! severity x).

(** [key(x) < key(y)] on the tuples [(rank, confidence)]: the first
    components decide unless they are equal. *)
Definition key_lt (x y : Issue) : bool :=
  if severity_rank x =? severity_rank y
  then Qltb (confidence x) (confidence y)
  else severity_rank x <? severity_rank y.

(** [sorted(issues, key=..., reverse=True)]. Python's sort is stable, and
    with [reverse=True] elements with equal keys keep their original
    order; a list has exactly one stable arrangement in descending key
    order, which insertion from the right computes: an element moves
    behind those that follow it with a strictly greater key. *)
Fixpoint insert_desc (x : Issue) (l : list Issue) : list Issue :=
  match l with
  | [] => [x]
  | y :: l' => if key_lt x y then y :: insert_desc x l' else x :: l
  end.

Definition _prioritize_issues (issues : list Issue) : list Issue :=
  foldr insert_desc [] issues.

(** ** Serialisation and summaries *)

(** [Issue.to_dict]: the fields under their names; a metadata that is
    [None] or empty is written as the empty dict. *)
Definition to_dict (i : Issue) : dict :=
  [("severity", VStr (severity i));
   ("category", VStr (category i));
   ("title", VStr (title i));
   ("description", VStr (description i));
   ("affected_component", VStr (affected_component i));
   ("impact", VStr (impact i));
   ("recommendation", VStr (recommendation i));
   ("confidence", VFloat (confidence i));
   ("metadata", if truthy (metadata i) then metadata i else VDict [])].

(** An instance as the constructor [Issue] builds it from keyword
    arguments: a dataclass stores its arguments as they come, whatever
    their types. *)
Module IssueObject.
Record t := {
  severity : value;
  category : value;
  title : value;
  description : value;
  affected_component : value;
  impact : value;
  recommendation : value;
  confidence : value;
  metadata : value
}.
End IssueObject.

Definition Issue_fields : list string :=
  ["severity"; "category"; "title"; "description"; "affected_component";
   "impact"; "recommendation"; "confidence"; "metadata"].

(** A required keyword argument: its absence is a [TypeError]. *)
Definition argument (kwargs : dict) (name : string) : result value :=
  match lookup_key name kwargs with
  | Some v => Ok v
  | None => Raise TypeError
  end.

(** The constructor applied to the keyword arguments [kwargs]: a
    keyword that is not a field is a [TypeError], and so is the absence
    of a field other than [metadata], whose default is [None]. *)
Definition Issue_init (kwargs : dict) : result IssueObject.t :=
  if forallb (λ kv, bool_decide (kv.1 ∈ Issue_fields)) kwargs then
    s ← argument kwargs "severity";
    c ← argument kwargs "category";
    t ← argument kwargs "title";
    d ← argument kwargs "description";
    a ← argument kwargs "affected_component";
    i ← argument kwargs "impact";
    r ← argument kwargs "recommendation";
    f ← argument kwargs "confidence";
    Ok {| IssueObject.severity := s;
          IssueObject.category := c;
          IssueObject.title := t;
          IssueObject.description := d;
          IssueObject.affected_component := a;
          IssueObject.impact := i;
          IssueObject.recommendation := r;
          IssueObject.confidence := f;
          IssueObject.metadata := dict_get kwargs "metadata" VNone |}
  else Raise TypeError.

(** The [Optimization] dataclass, its serialisation, and the ordering
    [sorted(optimizations, key=lambda x: x.priority)] both agents end
    with: the sort is stable, so that suggestions of equal priority keep
    the order in which they were appended. *)
Module Optimization.

Record t := {
  type : string;
  title : string;
  description : string;
  estimated_impact : string;
  implementation_effort : string;
  priority : Z;
  steps : list string;
  metrics_impact : list (string * Q)
}.

Definition to_dict (o : t) : dict :=
  [("type", VStr (type o));
   ("title", VStr (title o));
   ("description", VStr (description o));
   ("estimated_impact", VStr (estimated_impact o));
   ("implementation_effort", VStr (implementation_effort o));
   ("priority", VInt (priority o));
   ("steps", VList (map VStr (steps o)));
   ("metrics_impact", VDict (map (λ kx, (kx.1, VFloat kx.2)) (metrics_impact o)))].

Fixpoint insert_by_priority (x : t) (l : list t) : list t :=
  match l with
  | [] => [x]
  | y :: l' =>
      if priority y <? priority x then y :: insert_by_priority x l' else x :: l
  end.

Definition sorted_by_priority (optimizations : list t) : list t :=
  foldr insert_by_priority [] optimizations.

End Optimization.

(** [counts[k] = counts.get(k, 0) + 1] on a dict kept in insertion
    order. *)
Fixpoint increment (k : string) (counts : list (string * Z))
    : list (string * Z) :=
  match counts with
  | [] => [(k, 1)]
  | (k', n) :: counts' =>
      if String.eqb k' k then (k', n + 1) :: counts'
      else (k', n) :: increment k counts'
  end.

Definition counts_dict (counts : list (string * Z)) : value :=
  VDict (map (λ kn, (kn.1, VInt kn.2)) counts).

(** [_generate_summary]: the number of issues and the number of issues
    of each severity and of each category. *)
Definition _generate_summary (issues : list Issue) : dict :=
  match issues with
  | [] => [("total", VInt 0); ("by_severity", VDict []); ("by_category", VDict [])]
  | _ =>
      let '(by_severity, by_category) :=
        foldl (λ '(by_severity, by_category) issue,
                 (increment (severity issue) by_severity,
                  increment (category issue) by_category))
              ([], []) issues in
      [("total", VInt (len issues));
       ("by_severity", counts_dict by_severity);
       ("by_category", counts_dict by_category)]
  end.

End BaseAgent.

Import BaseAgent.

(** * The delivery-pipeline analyzer ([src/agents/devops_agent.py]) *)

Module DevOpsAgent.

(** [self.issue_patterns["slow_builds"]["threshold"]]; the other
    entries of the pattern table are never read by the analysis. *)
Definition slow_builds_threshold : Q := 600.

Definition slow_builds_issue (avg_duration : Q) (sample_size : Z) : Issue := {|
  severity := "medium";
  category := "performance";
  title := "Slow Build Times";
  description := "Average build time is " +:+ format_fixed 0 avg_duration +:+
    " seconds, exceeding recommended threshold";
  affected_component := "CI/CD Pipeline";
  impact := "Delayed feedback cycles, reduced developer productivity. Average delay: " +:+
    format_fixed 0 (avg_duration - 300) +:+ "s per build";
  recommendation := "Consider: 1) Enable build caching, 2) Parallelize test execution, 3) Use faster build agents, 4) Optimize dependency resolution";
  confidence := 0.9;
  metadata := VDict [("avg_duration", VFloat avg_duration);
                     ("sample_size", VInt sample_size)]
|}.

Definition build_failure_issue (failure_rate : Q) (failed_builds total_builds : Z)
    : Issue := {|
  severity := "high";
  category := "reliability";
  title := "High Build Failure Rate";
  description := "Build failure rate is " +:+ format_percent 1 failure_rate +:+
    ", indicating instability";
  affected_component := "Build Process";
  impact := pretty failed_builds +:+ " out of " +:+ pretty total_builds +:+
    " builds failed. This blocks deployments and wastes resources";
  recommendation := "Investigate common failure patterns, improve test stability, add pre-commit hooks, review recent code changes";
  confidence := 0.95;
  metadata := VDict [("failure_rate", VFloat failure_rate);
                     ("failed_count", VInt failed_builds);
                     ("total_count", VInt total_builds)]
|}.

Definition _analyze_build_performance (builds : value) : result (list Issue) :=
  if negb (truthy builds) then Ok [] else
  bs ← iter builds;
  (* Calculate average build time *)
  durations ← comprehension (λ b, get b "duration" (VInt 0))
                            (status_is "success") bs;
  slow ← match durations with
         | [] => Ok []
         | _ =>
             total ← sum durations;
             avg_duration ← truediv total (len durations);
             if Qltb slow_builds_threshold avg_duration
             then Ok [slow_builds_issue avg_duration (len durations)]
             else Ok []
         end;
  (* Analyze build failure rate *)
  let total_builds := len bs in
  failed ← comprehension Ok (status_is "failed") bs;
  let failed_builds := len failed in
  let failure_rate :=
    if 0 <? total_builds then ratio failed_builds total_builds else 0%Q in
  if Qltb 0.15 failure_rate
  then Ok (slow ++ [build_failure_issue failure_rate failed_builds total_builds])
  else Ok slow.

(** ** Test reliability *)

(** The keys of [test_results]: a dict key must be hashable, and two
    keys are the same when they are equal ([1 == 1.0 == True]). *)
Definition hashable (v : value) : result unit :=
  match v with
  | VList _ | VDict _ => Raise TypeError
  | _ => Ok ()
  end.

Definition key_eq (a b : value) : bool :=
  match a, b with
  | VStr s, VStr t => String.eqb s t
  | VNone, VNone => true
  | _, _ =>
      match as_num a, as_num b with
      | Some x, Some y => Qeq_bool x y
      | _, _ => false
      end
  end.

(** [test_results]: test name to [{"passed": p, "failed": f}], in
    insertion order. *)
Abbreviation results_table := (list (value * (Z * Z))).

(** One execution of [test_name] recorded in the table. *)
Fixpoint record_result (test_name : value) (passed : bool)
    (table : results_table) : results_table :=
  match table with
  | [] => [(test_name, if passed then (1, 0) else (0, 1))]
  | (n, (p, f)) :: table' =>
      if key_eq n test_name
      then (n, if passed then (p + 1, f) else (p, f + 1)) :: table'
      else (n, (p, f)) :: record_result test_name passed table'
  end.

(** The loop [for test in tests]. *)
Fixpoint tally (table : results_table) (tests : list value)
    : result results_table :=
  match tests with
  | [] => Ok table
  | test :: tests' =>
      test_name ← get test "name" VNone;
      if truthy test_name then
        _ ← hashable test_name;
        status ← get test "status" VNone;
        tally (record_result test_name (eq_str status "passed") table) tests'
      else tally table tests'
  end.

(** The condition under which a test is appended to [flaky_tests]. *)
Definition is_flaky (passed failed : Z) : bool :=
  let total := passed + failed in
  (1 <? total) && (0 <? failed) && (0 <? passed) &&
  (Qltb 0.1 (ratio failed total) && Qltb (ratio failed total) 0.9).

Fixpoint flaky_of (table : results_table) : list (value * Q) :=
  match table with
  | [] => []
  | (test_name, (passed, failed)) :: table' =>
      if is_flaky passed failed
      then (test_name, ratio failed (passed + failed)) :: flaky_of table'
      else flaky_of table'
  end.

Definition flaky_tests_issue (flaky_tests : list (value * Q)) (names : string)
    : Issue := {|
  severity := "high";
  category := "reliability";
  title := "Flaky Tests Detected";
  description := "Found " +:+ pretty (len flaky_tests) +:+
    " flaky tests with intermittent failures";
  affected_component := "Test Suite";
  impact := "Flaky tests reduce confidence in test results, waste time investigating false failures, and may mask real issues";
  recommendation := "Investigate and fix flaky tests: " +:+ names +:+
    (if 3 <? len flaky_tests then "..." else "") +:+
    ". Common causes: timing issues, shared state, external dependencies";
  confidence := 0.85;
  metadata := VDict [("flaky_tests",
    VList (map (λ t, VDict [("name", t.1); ("failure_rate", VFloat t.2)])
               flaky_tests))]
|}.

Definition _analyze_test_reliability (tests : value) : result (list Issue) :=
  ts ← iter tests;
  test_results ← tally [] ts;
  let flaky_tests := flaky_of test_results in
  match flaky_tests with
  | [] => Ok []
  | _ =>
      names ← join ", " (map fst (take 3 flaky_tests));
      Ok [flaky_tests_issue flaky_tests names]
  end.

(** ** Deployments *)

Definition deployment_failure_issue (failure_rate : Q) (failed total : Z)
    : Issue := {|
  severity := "critical";
  category := "reliability";
  title := "High Deployment Failure Rate";
  description := "Deployment failure rate is " +:+ format_percent 1 failure_rate;
  affected_component := "Deployment Pipeline";
  impact := "Failed deployments cause service disruptions, rollbacks, and delayed feature releases";
  recommendation := "Review deployment process, implement better pre-deployment testing, add automated rollback mechanisms, improve deployment scripts";
  confidence := 0.92;
  metadata := VDict [("failure_rate", VFloat failure_rate);
                     ("failed_count", VInt failed);
                     ("total_count", VInt total)]
|}.

Definition _analyze_deployments (deployments : value) : result (list Issue) :=
  if negb (truthy deployments) then Ok [] else
  ds ← iter deployments;
  recent_deployments ← comprehension Ok (field_truthy "timestamp") ds;
  failed_deployments ← comprehension Ok (status_is "failed") recent_deployments;
  match failed_deployments with
  | [] => Ok []
  | _ =>
      let failure_rate := ratio (len failed_deployments) (len recent_deployments) in
      if Qltb 0.1 failure_rate
      then Ok [deployment_failure_issue failure_rate
                 (len failed_deployments) (len recent_deployments)]
      else Ok []
  end.

(** ** Resource usage *)

Definition high_cpu_issue (max_cpu : value) (max_q avg_cpu : Q) : Issue := {|
  severity := "high";
  category := "performance";
  title := "High CPU Usage";
  description := "CPU usage reached " +:+ format_fixed 1 max_q +:+
    "% (average: " +:+ format_fixed 1 avg_cpu +:+ "%)";
  affected_component := "Build Infrastructure";
  impact := "High CPU usage causes build slowdowns, potential timeouts, and resource contention";
  recommendation := "Scale build agents, optimize build processes, distribute workload, investigate CPU-intensive operations";
  confidence := 0.88;
  metadata := VDict [("max_cpu", max_cpu); ("avg_cpu", VFloat avg_cpu)]
|}.

Definition high_memory_issue (max_memory : value) (max_q avg_memory : Q)
    : Issue := {|
  severity := "high";
  category := "performance";
  title := "High Memory Usage";
  description := "Memory usage reached " +:+ format_fixed 1 max_q +:+
    "% (average: " +:+ format_fixed 1 avg_memory +:+ "%)";
  affected_component := "Build Infrastructure";
  impact := "High memory usage can cause OOM errors, build failures, and system instability";
  recommendation := "Increase memory allocation, optimize memory-intensive processes, investigate memory leaks, add memory monitoring";
  confidence := 0.87;
  metadata := VDict [("max_memory", max_memory); ("avg_memory", VFloat avg_memory)]
|}.

(** One of the two blocks of [_analyze_resource_usage]: the samples
    stored under [field], their average and maximum, and the issue when
    the maximum exceeds [limit]. *)
Definition usage_check (resources : value) (field : string) (limit : Q)
    (issue : value → Q → Q → Issue) : result (list Issue) :=
  usage ← get resources field (VList []);
  if truthy usage then
    samples ← iter usage;
    total ← sum samples;
    avg ← truediv total (len samples);
    max_v ← max samples;
    max_q ← number max_v;
    if Qltb limit max_q then Ok [issue max_v max_q avg] else Ok []
  else Ok [].

Definition _analyze_resource_usage (resources : value) : result (list Issue) :=
  cpu ← usage_check resources "cpu_usage" 90 high_cpu_issue;
  memory ← usage_check resources "memory_usage" 85 high_memory_issue;
  Ok (cpu ++ memory).

(** ** Security scans *)

Definition critical_vulnerabilities_issue (critical_vulns : list value)
    (cves : string) : Issue := {|
  severity := "critical";
  category := "security";
  title := "Critical Security Vulnerabilities Detected";
  description := "Found " +:+ pretty (len critical_vulns) +:+
    " critical security vulnerabilities";
  affected_component := "Dependencies/Code";
  impact := "Critical vulnerabilities pose immediate security risks and must be addressed urgently";
  recommendation := "Update vulnerable dependencies immediately. CVEs: " +:+ cves;
  confidence := 0.98;
  metadata := VDict [("critical_count", VInt (len critical_vulns));
                     ("vulnerabilities", VList critical_vulns)]
|}.

Definition high_vulnerabilities_issue (high_vulns : list value) : Issue := {|
  severity := "high";
  category := "security";
  title := "Multiple High-Severity Vulnerabilities";
  description := "Found " +:+ pretty (len high_vulns) +:+
    " high-severity security vulnerabilities";
  affected_component := "Dependencies/Code";
  impact := "High-severity vulnerabilities require prompt attention to prevent potential security breaches";
  recommendation := "Review and update vulnerable dependencies, implement security scanning in CI/CD";
  confidence := 0.95;
  metadata := VDict [("high_count", VInt (len high_vulns))]
|}.

(** The body of the loop [for scan in security_scans], followed by the
    remaining iterations. *)
Fixpoint scan_security (scans : list value) : result (list Issue) :=
  match scans with
  | [] => Ok []
  | scan :: scans' =>
      vulnerabilities ← get scan "vulnerabilities" (VList []);
      vs ← iter vulnerabilities;
      critical_vulns ← comprehension Ok (field_is "severity" "critical") vs;
      high_vulns ← comprehension Ok (field_is "severity" "high") vs;
      critical ← match critical_vulns with
                 | [] => Ok []
                 | _ =>
                     ids ← comprehension (λ v, get v "cve" (VStr "Unknown"))
                                         always (take 3 critical_vulns);
                     cves ← join ", " ids;
                     Ok [critical_vulnerabilities_issue critical_vulns cves]
                 end;
      let high := if 5 <? len high_vulns
                  then [high_vulnerabilities_issue high_vulns] else [] in
      later ← scan_security scans';
      Ok (critical ++ high ++ later)
  end.

Definition _analyze_security (security_scans : value) : result (list Issue) :=
  scans ← iter security_scans;
  scan_security scans.

(** ** Cluster health *)

Section Kubernetes.

(** [str(v)] of a float, a list or a dict is the interpreter's [repr];
    it only reaches the text of one recommendation. *)
Variable repr_other : value → string.

Definition str (v : value) : string :=
  match v with
  | VStr s => s
  | VNone => "None"
  | VBool true => "True"
  | VBool false => "False"
  | VInt n => pretty n
  | _ => repr_other v
  end.

Definition names_of (l : list value) : result (list value) :=
  comprehension (λ p, get p "name" VNone) always l.

Definition pod_failures_issue (failed_pods names : list value) : Issue := {|
  severity := "critical";
  category := "reliability";
  title := "Kubernetes Pod Failures";
  description := pretty (len failed_pods) +:+ " pods are in failed state";
  affected_component := "Kubernetes Cluster";
  impact := "Failed pods indicate application crashes, configuration errors, or resource issues. Services may be degraded or unavailable";
  recommendation := "Investigate pod logs with 'kubectl logs <pod-name>'. Common causes: image pull errors, OOM kills, liveness probe failures, misconfigured environment variables";
  confidence := 0.95;
  metadata := VDict [("failed_pods", VList names);
                     ("failed_count", VInt (len failed_pods))]
|}.

Definition pending_pods_issue (pending_pods : list value) : Issue := {|
  severity := "high";
  category := "reliability";
  title := "Multiple Pods Stuck in Pending State";
  description := pretty (len pending_pods) +:+ " pods cannot be scheduled";
  affected_component := "Kubernetes Scheduler";
  impact := "Pending pods indicate resource constraints or scheduling issues, preventing services from scaling or deploying";
  recommendation := "Check node resources with 'kubectl describe nodes'. Verify resource requests/limits, node selectors, taints/tolerations, and cluster autoscaling configuration";
  confidence := 0.90;
  metadata := VDict [("pending_count", VInt (len pending_pods))]
|}.

Definition check_pods (k8s_data : value) : result (list Issue) :=
  pods ← get k8s_data "pods" (VList []);
  if truthy pods then
    ps ← iter pods;
    failed_pods ← comprehension Ok
      (λ p, st ← get p "status" VNone;
            Ok (existsb (eq_str st) ["CrashLoopBackOff"; "Error"; "Failed"])) ps;
    pending_pods ← comprehension Ok (status_is "Pending") ps;
    failed ← match failed_pods with
             | [] => Ok []
             | _ =>
                 names ← names_of (take 5 failed_pods);
                 Ok [pod_failures_issue failed_pods names]
             end;
    Ok (failed ++
        if 3 <? len pending_pods then [pending_pods_issue pending_pods] else [])
  else Ok [].

Definition unhealthy_nodes_issue (unhealthy_nodes names : list value)
    (total_nodes : Z) : Issue := {|
  severity := "critical";
  category := "reliability";
  title := "Unhealthy Kubernetes Nodes";
  description := pretty (len unhealthy_nodes) +:+ " nodes are not in Ready state";
  affected_component := "Kubernetes Nodes";
  impact := "Unhealthy nodes reduce cluster capacity and may cause pod evictions or scheduling failures";
  recommendation := "Investigate node conditions with 'kubectl describe node <node-name>'. Check for disk pressure, memory pressure, network issues, or kubelet problems";
  confidence := 0.96;
  metadata := VDict [("unhealthy_nodes", VList names);
                     ("unhealthy_count", VInt (len unhealthy_nodes));
                     ("total_nodes", VInt total_nodes)]
|}.

Definition check_nodes (k8s_data : value) : result (list Issue) :=
  nodes ← get k8s_data "nodes" (VList []);
  if truthy nodes then
    ns ← iter nodes;
    unhealthy_nodes ← comprehension Ok
      (λ n, st ← get n "status" VNone; Ok (negb (eq_str st "Ready"))) ns;
    match unhealthy_nodes with
    | [] => Ok []
    | _ =>
        names ← names_of unhealthy_nodes;
        Ok [unhealthy_nodes_issue unhealthy_nodes names (len ns)]
    end
  else Ok [].

(** The loop [for deploy in deployments] that fills [failed_deployments]
    and [underscaled]. *)
Fixpoint scan_replicas (failed_deployments underscaled : list value)
    (deployments : list value) : result (list value * list value) :=
  match deployments with
  | [] => Ok (failed_deployments, underscaled)
  | deploy :: deployments' =>
      desired ← get deploy "desired_replicas" (VInt 0);
      available ← get deploy "available_replicas" (VInt 0);
      d ← number desired;
      if Qltb 0 d then
        a ← number available;
        if Qltb a d then
          name ← get deploy "name" VNone;
          if Qeq_bool a 0
          then scan_replicas (failed_deployments ++ [name]) underscaled deployments'
          else scan_replicas failed_deployments (underscaled ++ [name]) deployments'
        else scan_replicas failed_deployments underscaled deployments'
      else scan_replicas failed_deployments underscaled deployments'
  end.

Definition zero_availability_issue (failed_deployments : list value) : Issue := {|
  severity := "critical";
  category := "reliability";
  title := "Kubernetes Deployments with Zero Availability";
  description := pretty (len failed_deployments) +:+
    " deployments have no available replicas";
  affected_component := "Kubernetes Deployments";
  impact := "Services are completely unavailable, causing outages and service disruptions";
  recommendation := "Check deployment status: 'kubectl describe deployment " +:+
    match failed_deployments with
    | name :: _ => str name
    | [] => "<name>"
    end +:+
    "'. Review pod events, resource limits, and image availability";
  confidence := 0.98;
  metadata := VDict [("failed_deployments", VList failed_deployments)]
|}.

Definition underscaled_issue (underscaled : list value) : Issue := {|
  severity := "high";
  category := "reliability";
  title := "Under-Scaled Kubernetes Deployments";
  description := pretty (len underscaled) +:+
    " deployments running below desired replica count";
  affected_component := "Kubernetes Deployments";
  impact := "Reduced capacity and redundancy, potential performance degradation and single points of failure";
  recommendation := "Investigate why replicas aren't starting. Check resource availability, HPA configuration, and pod scheduling constraints";
  confidence := 0.88;
  metadata := VDict [("underscaled_deployments", VList underscaled)]
|}.

Definition check_deployments (k8s_data : value) : result (list Issue) :=
  deployments ← get k8s_data "deployments" (VList []);
  if truthy deployments then
    ds ← iter deployments;
    '(failed_deployments, underscaled) ← scan_replicas [] [] ds;
    Ok ((match failed_deployments with
         | [] => []
         | _ => [zero_availability_issue failed_deployments]
         end) ++
        (match underscaled with
         | [] => []
         | _ => [underscaled_issue underscaled]
         end))
  else Ok [].

Definition cluster_cpu_issue (cpu_usage_pct : value) (pct : Q) : Issue := {|
  severity := "high";
  category := "performance";
  title := "High Kubernetes Cluster CPU Usage";
  description := "Cluster CPU usage at " +:+ format_fixed 1 pct +:+ "%";
  affected_component := "Kubernetes Cluster Resources";
  impact := "High CPU usage may cause throttling, slow response times, and pod scheduling failures";
  recommendation := "Scale cluster nodes, optimize pod resource requests/limits, identify CPU-intensive workloads, consider horizontal pod autoscaling";
  confidence := 0.92;
  metadata := VDict [("cpu_usage_percent", cpu_usage_pct)]
|}.

Definition cluster_memory_issue (memory_usage_pct : value) (pct : Q) : Issue := {|
  severity := "high";
  category := "performance";
  title := "High Kubernetes Cluster Memory Usage";
  description := "Cluster memory usage at " +:+ format_fixed 1 pct +:+ "%";
  affected_component := "Kubernetes Cluster Resources";
  impact := "High memory usage may trigger OOM kills, pod evictions, and prevent new pods from scheduling";
  recommendation := "Scale cluster nodes, review memory requests/limits, investigate memory leaks, enable cluster autoscaling";
  confidence := 0.92;
  metadata := VDict [("memory_usage_percent", memory_usage_pct)]
|}.

Definition check_resource_usage (k8s_data : value) : result (list Issue) :=
  resource_usage ← get k8s_data "resource_usage" (VDict []);
  if truthy resource_usage then
    cpu_usage_pct ← get resource_usage "cpu_usage_percent" (VInt 0);
    memory_usage_pct ← get resource_usage "memory_usage_percent" (VInt 0);
    cpu ← number cpu_usage_pct;
    let cpu_issues :=
      if Qltb 85 cpu then [cluster_cpu_issue cpu_usage_pct cpu] else [] in
    memory ← number memory_usage_pct;
    Ok (cpu_issues ++
        if Qltb 85 memory then [cluster_memory_issue memory_usage_pct memory] else [])
  else Ok [].

Definition pending_pvcs_issue (pending_pvcs names : list value) : Issue := {|
  severity := "high";
  category := "reliability";
  title := "Pending Persistent Volume Claims";
  description := pretty (len pending_pvcs) +:+ " PVCs unable to bind to volumes";
  affected_component := "Kubernetes Storage";
  impact := "Applications requiring persistent storage cannot start, blocking deployments and causing data access issues";
  recommendation := "Check storage class availability, verify volume provisioner is working, ensure sufficient storage capacity in cluster";
  confidence := 0.87;
  metadata := VDict [("pending_pvcs", VList names)]
|}.

Definition check_pvcs (k8s_data : value) : result (list Issue) :=
  pvcs ← get k8s_data "pvcs" (VList []);
  if truthy pvcs then
    ps ← iter pvcs;
    pending_pvcs ← comprehension Ok (status_is "Pending") ps;
    match pending_pvcs with
    | [] => Ok []
    | _ =>
        names ← names_of pending_pvcs;
        Ok [pending_pvcs_issue pending_pvcs names]
    end
  else Ok [].

Definition service_mesh_issue (error_rate : value) (rate : Q) : Issue := {|
  severity := "high";
  category := "reliability";
  title := "High Service Mesh Error Rate";
  description := "Service mesh reporting " +:+ format_percent 1 rate +:+
    " error rate";
  affected_component := "Service Mesh";
  impact := "High error rates indicate service communication failures, impacting application reliability";
  recommendation := "Review service mesh metrics, check for misconfigured routes, verify mTLS settings, investigate failing services";
  confidence := 0.85;
  metadata := VDict [("error_rate", error_rate)]
|}.

Definition check_service_mesh (k8s_data : value) : result (list Issue) :=
  service_mesh ← get k8s_data "service_mesh" (VDict []);
  if truthy service_mesh then
    error_rate ← get service_mesh "error_rate" (VInt 0);
    rate ← number error_rate;
    Ok (if Qltb 0.05 rate then [service_mesh_issue error_rate rate] else [])
  else Ok [].

Definition _analyze_kubernetes (k8s_data : value) : result (list Issue) :=
  if negb (truthy k8s_data) then Ok [] else
  pod_issues ← check_pods k8s_data;
  node_issues ← check_nodes k8s_data;
  deployment_issues ← check_deployments k8s_data;
  usage_issues ← check_resource_usage k8s_data;
  pvc_issues ← check_pvcs k8s_data;
  mesh_issues ← check_service_mesh k8s_data;
  Ok (pod_issues ++ node_issues ++ deployment_issues ++ usage_issues ++
      pvc_issues ++ mesh_issues).

(** [analyze]: the six sub-checks in turn on the sections of the batch,
    an absent section being replaced by the empty list or dict, and the
    collected issues prioritised. *)
Definition analyze (data : dict) : result (list Issue) :=
  build_issues ← _analyze_build_performance (dict_get data "builds" (VList []));
  test_issues ← _analyze_test_reliability (dict_get data "tests" (VList []));
  deployment_issues ← _analyze_deployments (dict_get data "deployments" (VList []));
  resource_issues ← _analyze_resource_usage (dict_get data "resources" (VDict []));
  security_issues ← _analyze_security (dict_get data "security_scans" (VList []));
  k8s_issues ← _analyze_kubernetes (dict_get data "kubernetes" (VDict []));
  Ok (_prioritize_issues
        (build_issues ++ test_issues ++ deployment_issues ++ resource_issues ++
         security_issues ++ k8s_issues)).

End Kubernetes.

(** ** Optimization suggestions *)

Definition build_caching (avg_duration : Q) : Optimization.t := {|
  Optimization.type := "time";
  Optimization.title := "Implement Build Caching";
  Optimization.description := "Reduce build times by caching dependencies and build artifacts";
  Optimization.estimated_impact := "Potential 30-50% reduction in build time (estimated saving: " +:+
    format_fixed 0 (avg_duration * 0.4) +:+
    "s per build)";
  Optimization.implementation_effort := "medium";
  Optimization.priority := 1;
  Optimization.steps :=
    ["Enable dependency caching in CI/CD system";
     "Implement Docker layer caching for containerized builds";
     "Cache compiled artifacts between builds";
     "Use distributed caching for multi-stage builds"];
  Optimization.metrics_impact :=
    [("build_time_reduction", 0.4%Q);
     ("resource_usage_reduction", 0.2%Q)]
|}.

Definition test_suite_reliability : Optimization.t := {|
  Optimization.type := "reliability";
  Optimization.title := "Improve Test Suite Reliability";
  Optimization.description := "Fix flaky tests and improve test infrastructure";
  Optimization.estimated_impact := "Increase confidence in test results, reduce false positives by 80%";
  Optimization.implementation_effort := "high";
  Optimization.priority := 2;
  Optimization.steps :=
    ["Identify and isolate flaky tests";
     "Add proper test isolation and cleanup";
     "Implement retry logic for genuinely flaky external dependencies";
     "Use test containers for consistent test environments";
     "Add better error reporting and logging"];
  Optimization.metrics_impact :=
    [("test_reliability", 0.8%Q);
     ("false_positive_rate", (-0.8)%Q)]
|}.

Definition blue_green_deployments : Optimization.t := {|
  Optimization.type := "reliability";
  Optimization.title := "Implement Blue-Green Deployments";
  Optimization.description := "Reduce deployment risks with zero-downtime deployment strategy";
  Optimization.estimated_impact := "Near-zero downtime deployments, instant rollback capability";
  Optimization.implementation_effort := "high";
  Optimization.priority := 1;
  Optimization.steps :=
    ["Set up parallel production environments (blue/green)";
     "Implement health checks and automated validation";
     "Configure load balancer for traffic switching";
     "Add automated rollback triggers";
     "Implement comprehensive deployment monitoring"];
  Optimization.metrics_impact :=
    [("deployment_success_rate", 0.3%Q);
     ("rollback_time", (-0.9)%Q)]
|}.

Definition resource_allocation : Optimization.t := {|
  Optimization.type := "cost";
  Optimization.title := "Optimize Resource Allocation";
  Optimization.description := "Right-size build agents and optimize resource usage";
  Optimization.estimated_impact := "20-40% reduction in infrastructure costs";
  Optimization.implementation_effort := "medium";
  Optimization.priority := 2;
  Optimization.steps :=
    ["Analyze actual resource usage patterns";
     "Implement autoscaling for build agents";
     "Use spot instances for non-critical builds";
     "Optimize container resource limits";
     "Schedule resource-intensive jobs during off-peak hours"];
  Optimization.metrics_impact :=
    [("cost_reduction", 0.3%Q);
     ("resource_efficiency", 0.35%Q)]
|}.

Definition kubernetes_best_practices : Optimization.t := {|
  Optimization.type := "reliability";
  Optimization.title := "Implement Kubernetes Best Practices";
  Optimization.description := "Apply production-ready Kubernetes configurations and observability";
  Optimization.estimated_impact := "50% reduction in pod failures, improved cluster stability";
  Optimization.implementation_effort := "medium";
  Optimization.priority := 2;
  Optimization.steps :=
    ["Configure proper resource requests and limits for all pods";
     "Implement liveness and readiness probes";
     "Set up Horizontal Pod Autoscaler (HPA) for dynamic scaling";
     "Configure Pod Disruption Budgets (PDB) for high availability";
     "Implement network policies for security";
     "Set up cluster monitoring with Prometheus/Grafana";
     "Configure log aggregation (ELK/Loki)";
     "Implement pod security policies/standards"];
  Optimization.metrics_impact :=
    [("pod_failure_rate", (-0.5)%Q);
     ("availability", 0.3%Q);
     ("recovery_time", (-0.6)%Q)]
|}.

Definition kubernetes_resource_utilization : Optimization.t := {|
  Optimization.type := "cost";
  Optimization.title := "Optimize Kubernetes Resource Utilization";
  Optimization.description := "Right-size pods and implement efficient autoscaling strategies";
  Optimization.estimated_impact := "30-40% reduction in infrastructure costs";
  Optimization.implementation_effort := "medium";
  Optimization.priority := 2;
  Optimization.steps :=
    ["Analyze actual resource usage vs requests using metrics server";
     "Right-size pod resource requests and limits based on actual usage";
     "Implement Vertical Pod Autoscaler (VPA) for automatic sizing";
     "Use cluster autoscaler for node-level scaling";
     "Implement pod priority classes for critical workloads";
     "Use spot/preemptible nodes for non-critical workloads";
     "Schedule batch jobs during off-peak hours";
     "Implement resource quotas per namespace"];
  Optimization.metrics_impact :=
    [("cost_reduction", 0.35%Q);
     ("resource_waste", (-0.45)%Q)]
|}.

Definition kubernetes_deployment_speed : Optimization.t := {|
  Optimization.type := "performance";
  Optimization.title := "Improve Kubernetes Deployment Speed and Reliability";
  Optimization.description := "Optimize container images and deployment strategies";
  Optimization.estimated_impact := "50% faster deployments, zero-downtime updates";
  Optimization.implementation_effort := "medium";
  Optimization.priority := 3;
  Optimization.steps :=
    ["Optimize container images (multi-stage builds, minimize layers)";
     "Implement image caching strategies";
     "Use rolling updates with proper readiness checks";
     "Configure appropriate terminationGracePeriodSeconds";
     "Implement blue-green or canary deployment strategies";
     "Use init containers for setup tasks";
     "Optimize image pull policy (IfNotPresent)";
     "Set up local container registry cache"];
  Optimization.metrics_impact :=
    [("deployment_time", (-0.5)%Q);
     ("deployment_success_rate", 0.25%Q)]
|}.

(** The generator [sum(b.get("duration", 0) for b in builds)]: each
    duration is read and added before the next build is looked at. *)
Fixpoint sum_durations (acc : value) (builds : list value) : result value :=
  match builds with
  | [] => Ok acc
  | b :: builds' =>
      duration ← get b "duration" (VInt 0);
      acc' ← num_add acc duration;
      sum_durations acc' builds'
  end.

(** [s in i.title.lower()] and [s in i.affected_component.lower()] *)
Definition title_has (s : string) (i : Issue) : bool :=
  str_contains s (str_lower (title i)).

Definition component_has (s : string) (i : Issue) : bool :=
  str_contains s (str_lower (affected_component i)).

Definition is_test_issue (i : Issue) : bool :=
  String.eqb (category i) "reliability" && title_has "test" i.

Definition is_performance_issue (i : Issue) : bool :=
  String.eqb (category i) "performance".

(** [optimize]: the suggestions the batch and the issues call for, by
    ascending priority. The build average is taken over all builds,
    whatever their status. *)
Definition optimize (data : dict) (issues : list Issue)
    : result (list Optimization.t) :=
  let builds := dict_get data "builds" (VList []) in
  build_optimizations ←
    (if truthy builds then
       bs ← iter builds;
       total ← sum_durations (VInt 0) bs;
       avg_duration ← truediv total (len bs);
       if Qltb 300 avg_duration then Ok [build_caching avg_duration] else Ok []
     else Ok []);
  let test_issues := List.filter is_test_issue issues in
  let deployment_issues := List.filter (title_has "deployment") issues in
  let resource_issues := List.filter is_performance_issue issues in
  let k8s_issues := List.filter (component_has "kubernetes") issues in
  Ok (Optimization.sorted_by_priority
        (build_optimizations ++
         (match test_issues with [] => [] | _ => [test_suite_reliability] end) ++
         (match deployment_issues with
          | [] => []
          | _ => [blue_green_deployments]
          end) ++
         (match resource_issues with [] => [] | _ => [resource_allocation] end) ++
         (match k8s_issues with
          | [] => []
          | _ => [kubernetes_best_practices;
                  kubernetes_resource_utilization;
                  kubernetes_deployment_speed]
          end))).

End DevOpsAgent.

Import DevOpsAgent.

(** * The ML-pipeline analyzer ([src/agents/mlops_agent.py]) *)

Module MLOpsAgent.

(** The table of [_load_metric_thresholds]. *)
Definition accuracy_drop_threshold : Q := 0.05.
Definition f1_score_threshold : Q := 0.7.
Definition max_duration_threshold : Q := 3600 * 4.
Definition gpu_utilization_min : Q := 0.6.
Definition drift_threshold : Q := 0.1.
Definition quality_threshold : Q := 0.95.
Definition missing_values_threshold : Q := 0.05.
Definition latency_p95_threshold : Q := 100.
Definition throughput_min : Q := 100.
Definition error_rate_max : Q := 0.01.

(** [len(v)] of an arbitrary value. *)
Definition py_len (v : value) : result Z :=
  match v with
  | VList l => Ok (len l)
  | VStr s => Ok (Z.of_nat (String.length s))
  | VDict d => Ok (len d)
  | _ => Raise TypeError
  end.

(** ** Sorting by timestamp

    The sort keys [x.get("timestamp", "")] are ordered by [<], which is
    defined between two strings and between two numbers. Keys of any other
    kind make the comparison a [TypeError] here (of these, Python can
    order some lists; timestamps are strings or numbers). *)
Inductive sort_key :=
| KStr (s : string)
| KNum (x : Q).

Definition sort_key_of (v : value) : result sort_key :=
  match v with
  | VStr s => Ok (KStr s)
  | _ => x ← number v; Ok (KNum x)
  end.

Definition key_ltb (a b : sort_key) : result bool :=
  match a, b with
  | KStr s, KStr t => Ok (String.ltb s t)
  | KNum x, KNum y => Ok (Qltb x y)
  | _, _ => Raise TypeError
  end.

(** The stable ascending arrangement, by insertion from the right: an
    element moves behind those that follow it with a strictly smaller
    key. *)
Fixpoint insert_asc (x : sort_key * value) (l : list (sort_key * value))
    : result (list (sort_key * value)) :=
  match l with
  | [] => Ok [x]
  | y :: l' =>
      c ← key_ltb y.1 x.1;
      if c : bool then r ← insert_asc x l'; Ok (y :: r) else Ok (x :: l)
  end.

Fixpoint sort_asc (l : list (sort_key * value))
    : result (list (sort_key * value)) :=
  match l with
  | [] => Ok []
  | x :: l' => s ← sort_asc l'; insert_asc x s
  end.

Fixpoint with_keys (items : list value) : result (list (sort_key * value)) :=
  match items with
  | [] => Ok []
  | x :: items' =>
      ts ← get x "timestamp" (VStr "");
      k ← sort_key_of ts;
      r ← with_keys items';
      Ok ((k, x) :: r)
  end.

(** [sorted(model_metrics, key=lambda x: x.get("timestamp", ""))] *)
Definition sorted_by_timestamp (items : list value) : result (list value) :=
  keyed ← with_keys items;
  s ← sort_asc keyed;
  Ok (map snd s).

(** The slices [l[-n:]], [l[:-n]] and [l[-10:-5]]. *)
Definition last_n {A} (n : nat) (l : list A) : list A := drop (length l - n) l.
Definition but_last_n {A} (n : nat) (l : list A) : list A := take (length l - n) l.
Definition slice_10_5 {A} (l : list A) : list A := take 5 (drop (length l - 10) l).

(** [a - b] on two numbers. *)
Definition num_sub (a b : value) : result value :=
  match as_int a, as_int b with
  | Some x, Some y => Ok (VInt (x - y))
  | _, _ =>
      match as_num a, as_num b with
      | Some x, Some y => Ok (VFloat (x - y))
      | _, _ => Raise TypeError
      end
  end.

(** [statistics.mean([m.get("accuracy", 0) for m in metrics])] *)
Definition mean_accuracy (metrics : list value) : result value :=
  accuracies ← comprehension (λ m, get m "accuracy" (VInt 0)) always metrics;
  mean accuracies.

Definition degradation_issue (accuracy_drop older_accuracy recent_accuracy : value)
    (drop older recent : Q) : Issue := {|
  severity := "high";
  category := "quality";
  title := "Model Performance Degradation Detected";
  description := "Model accuracy dropped by " +:+ format_percent 1 drop +:+
    " from " +:+ format_percent 2 older +:+ " to " +:+ format_percent 2 recent;
  affected_component := "ML Model";
  impact := "Degraded model performance affects prediction quality and business outcomes";
  recommendation := "Investigate data drift, retrain model with recent data, review feature engineering, check for concept drift";
  confidence := 0.88;
  metadata := VDict [("recent_accuracy", recent_accuracy);
                     ("older_accuracy", older_accuracy);
                     ("drop", accuracy_drop)]
|}.

Definition low_f1_issue (f1_score accuracy : value) (f1 : Q) : Issue := {|
  severity := "medium";
  category := "quality";
  title := "Low Model F1 Score";
  description := "Current F1 score is " +:+ format_fixed 2 f1 +:+
    ", below threshold of " +:+ "0.7";
  affected_component := "ML Model";
  impact := "Low F1 score indicates poor balance between precision and recall";
  recommendation := "Review class imbalance, adjust decision threshold, improve feature selection, collect more training data for underrepresented classes";
  confidence := 0.85;
  metadata := VDict [("f1_score", f1_score); ("accuracy", accuracy)]
|}.

(** The block guarded by [if len(sorted_metrics) >= 2]. *)
Definition degradation_check (sorted_metrics : list value) : result (list Issue) :=
  if 2 <=? len sorted_metrics then
    let recent_metrics := last_n 5 sorted_metrics in
    let older_metrics :=
      if 10 <=? len sorted_metrics
      then slice_10_5 sorted_metrics
      else but_last_n 5 sorted_metrics in
    match older_metrics, recent_metrics with
    | _ :: _, _ :: _ =>
        recent_accuracy ← mean_accuracy recent_metrics;
        older_accuracy ← mean_accuracy older_metrics;
        accuracy_drop ← num_sub older_accuracy recent_accuracy;
        drop ← number accuracy_drop;
        older ← number older_accuracy;
        recent ← number recent_accuracy;
        if Qltb accuracy_drop_threshold drop
        then Ok [degradation_issue accuracy_drop older_accuracy recent_accuracy
                   drop older recent]
        else Ok []
    | _, _ => Ok []
    end
  else Ok [].

(** The block under [# Check latest model performance]. *)
Definition latest_check (sorted_metrics : list value) : result (list Issue) :=
  match last sorted_metrics with
  | None => Raise IndexError
  | Some latest_metrics =>
      accuracy ← get latest_metrics "accuracy" (VInt 0);
      f1_score ← get latest_metrics "f1_score" (VInt 0);
      f1 ← number f1_score;
      if Qltb f1 f1_score_threshold
      then Ok [low_f1_issue f1_score accuracy f1]
      else Ok []
  end.

Definition _analyze_model_performance (model_metrics : value)
    : result (list Issue) :=
  if negb (truthy model_metrics) then Ok [] else
  n ← py_len model_metrics;
  if n <? 2 then Ok [] else
  items ← iter model_metrics;
  sorted_metrics ← sorted_by_timestamp items;
  degradation ← degradation_check sorted_metrics;
  latest ← latest_check sorted_metrics;
  Ok (degradation ++ latest).

(** ** Training *)

Definition long_training_issue (avg_duration max_duration : value) (avg : Q)
    : Issue := {|
  severity := "medium";
  category := "performance";
  title := "Long Training Times";
  description := "Average training time is " +:+ format_fixed 1 (avg / 3600) +:+
    " hours";
  affected_component := "Training Pipeline";
  impact := "Long training times slow down model iteration and increase costs";
  recommendation := "Optimize training code, use mixed precision training, implement gradient accumulation, consider distributed training, profile training loop for bottlenecks";
  confidence := 0.82;
  metadata := VDict [("avg_duration", avg_duration); ("max_duration", max_duration)]
|}.

Definition low_gpu_issue (avg_gpu_util : value) (util : Q) : Issue := {|
  severity := "medium";
  category := "cost";
  title := "Low GPU Utilization";
  description := "Average GPU utilization is " +:+ format_percent 1 util;
  affected_component := "Training Infrastructure";
  impact := "Underutilized GPUs waste " +:+ format_fixed 0 ((1 - util) * 100) +:+
    "% of compute resources and increase training costs";
  recommendation := "Increase batch size, optimize data loading pipeline, use data prefetching, profile GPU bottlenecks, consider mixed precision training";
  confidence := 0.90;
  metadata := VDict [("avg_gpu_utilization", avg_gpu_util)]
|}.

Definition training_failure_issue (failure_rate : Q) (failed_count : Z) : Issue := {|
  severity := "high";
  category := "reliability";
  title := "High Training Failure Rate";
  description := "Training failure rate is " +:+ format_percent 1 failure_rate;
  affected_component := "Training Pipeline";
  impact := "Training failures waste resources and delay model development";
  recommendation := "Add robust error handling, implement checkpointing, validate data before training, add memory monitoring, review training logs for common errors";
  confidence := 0.87;
  metadata := VDict [("failure_rate", VFloat failure_rate);
                     ("failed_count", VInt failed_count)]
|}.

(** The loop that collects the mean GPU utilisation of every run that
    reports one. *)
Fixpoint gpu_means (runs : list value) : result (list value) :=
  match runs with
  | [] => Ok []
  | run :: runs' =>
      gpu_util ← get run "gpu_utilization" (VList []);
      if truthy gpu_util then
        samples ← iter gpu_util;
        avg_gpu ← mean samples;
        later ← gpu_means runs';
        Ok (avg_gpu :: later)
      else gpu_means runs'
  end.

Definition _analyze_training (training_runs : value) : result (list Issue) :=
  if negb (truthy training_runs) then Ok [] else
  runs ← iter training_runs;
  durations ← comprehension (λ run, get run "duration" (VInt 0))
                            (status_is "completed") runs;
  long ← match durations with
         | [] => Ok []
         | _ =>
             avg_duration ← mean durations;
             max_duration ← max durations;
             avg ← number avg_duration;
             if Qltb max_duration_threshold avg
             then Ok [long_training_issue avg_duration max_duration avg]
             else Ok []
         end;
  gpu_utilizations ← gpu_means runs;
  gpu ← match gpu_utilizations with
        | [] => Ok []
        | _ =>
            avg_gpu_util ← mean gpu_utilizations;
            util ← number avg_gpu_util;
            if Qltb util gpu_utilization_min
            then Ok [low_gpu_issue avg_gpu_util util]
            else Ok []
        end;
  failed_runs ← comprehension Ok (status_is "failed") runs;
  let failure_rate := ratio (len failed_runs) (len runs) in
  Ok (long ++ gpu ++
      if Qltb 0.1 failure_rate
      then [training_failure_issue failure_rate (len failed_runs)] else []).

(** ** Data quality *)

Definition data_drift_issue (drift_score : value) (drift : Q) : Issue := {|
  severity := "high";
  category := "quality";
  title := "Data Drift Detected";
  description := "Data drift score is " +:+ format_fixed 2 drift +:+
    ", exceeding threshold";
  affected_component := "Input Data";
  impact := "Data drift causes model performance degradation and unreliable predictions";
  recommendation := "Retrain model with recent data, implement continuous monitoring, set up automated retraining pipeline, investigate root cause of drift";
  confidence := 0.92;
  metadata := VDict [("drift_score", drift_score)]
|}.

Definition low_quality_issue (quality_score : value) (quality : Q) : Issue := {|
  severity := "medium";
  category := "quality";
  title := "Low Data Quality";
  description := "Data quality score is " +:+ format_percent 2 quality;
  affected_component := "Input Data";
  impact := "Low data quality leads to poor model performance and unreliable predictions";
  recommendation := "Implement data validation rules, add data quality checks in pipeline, investigate and fix data collection issues, add data cleaning steps";
  confidence := 0.85;
  metadata := VDict [("quality_score", quality_score)]
|}.

Definition missing_values_issue (missing_rate : value) (rate : Q) : Issue := {|
  severity := "medium";
  category := "quality";
  title := "High Missing Value Rate";
  description := "Missing value rate is " +:+ format_percent 1 rate;
  affected_component := "Input Data";
  impact := "High missing value rate reduces model training effectiveness and prediction coverage";
  recommendation := "Implement proper imputation strategies, investigate data collection issues, consider dropping features with excessive missing values, add data validation";
  confidence := 0.80;
  metadata := VDict [("missing_rate", missing_rate)]
|}.

Definition _analyze_data_quality (data_metrics : value) : result (list Issue) :=
  drift_score ← get data_metrics "drift_score" (VInt 0);
  drift ← number drift_score;
  let drift_issues :=
    if Qltb drift_threshold drift then [data_drift_issue drift_score drift] else [] in
  quality_score ← get data_metrics "quality_score" (VFloat 1.0);
  quality ← number quality_score;
  let quality_issues :=
    if Qltb quality quality_threshold
    then [low_quality_issue quality_score quality] else [] in
  missing_rate ← get data_metrics "missing_value_rate" (VInt 0);
  rate ← number missing_rate;
  Ok (drift_issues ++ quality_issues ++
      if Qltb missing_values_threshold rate
      then [missing_values_issue missing_rate rate] else []).

(** ** Inference serving *)

Definition high_latency_issue (latency_p95 : value) (latency : Q) : Issue := {|
  severity := "high";
  category := "performance";
  title := "High Inference Latency";
  description := "P95 inference latency is " +:+ format_fixed 0 latency +:+ "ms";
  affected_component := "Model Serving";
  impact := "High latency degrades user experience and may violate SLAs";
  recommendation := "Optimize model (quantization, pruning), use model serving optimizations (batching, caching), scale horizontally, consider lighter model architecture";
  confidence := 0.88;
  metadata := VDict [("latency_p95", latency_p95)]
|}.

Definition low_throughput_issue (throughput : value) (rate : Q) : Issue := {|
  severity := "medium";
  category := "performance";
  title := "Low Inference Throughput";
  description := "Inference throughput is " +:+ format_fixed 0 rate +:+ " req/s";
  affected_component := "Model Serving";
  impact := "Low throughput limits system capacity and may require overprovisioning";
  recommendation := "Enable request batching, optimize preprocessing, use GPU inference, implement model parallelism, review resource allocation";
  confidence := 0.83;
  metadata := VDict [("throughput", throughput)]
|}.

Definition inference_errors_issue (error_rate : value) (rate : Q) : Issue := {|
  severity := "critical";
  category := "reliability";
  title := "High Inference Error Rate";
  description := "Inference error rate is " +:+ format_percent 1 rate;
  affected_component := "Model Serving";
  impact := "High error rate indicates serving instability and affects user experience";
  recommendation := "Investigate error logs, add input validation, implement fallback mechanisms, improve error handling, monitor model serving health";
  confidence := 0.95;
  metadata := VDict [("error_rate", error_rate)]
|}.

Definition _analyze_inference (inference_metrics : value) : result (list Issue) :=
  latency_p95 ← get inference_metrics "latency_p95" (VInt 0);
  latency ← number latency_p95;
  let latency_issues :=
    if Qltb latency_p95_threshold latency
    then [high_latency_issue latency_p95 latency] else [] in
  throughput ← get inference_metrics "throughput" (VInt 0);
  rate ← number throughput;
  let throughput_issues :=
    if Qltb rate throughput_min then [low_throughput_issue throughput rate] else [] in
  error_rate ← get inference_metrics "error_rate" (VInt 0);
  errors ← number error_rate;
  Ok (latency_issues ++ throughput_issues ++
      if Qltb error_rate_max errors
      then [inference_errors_issue error_rate errors] else []).

(** ** Experiments *)

Definition untagged_issue (untagged_count total_count : Z) : Issue := {|
  severity := "low";
  category := "quality";
  title := "Poor Experiment Organization";
  description := pretty untagged_count +:+ " out of " +:+ pretty total_count +:+
    " experiments lack proper tagging";
  affected_component := "Experiment Tracking";
  impact := "Poor organization makes it difficult to track progress and reproduce results";
  recommendation := "Implement consistent tagging strategy, add metadata to experiments, use meaningful names, document experiment purpose";
  confidence := 0.75;
  metadata := VDict [("untagged_count", VInt untagged_count);
                     ("total_count", VInt total_count)]
|}.

Definition _analyze_experiments (experiments : value) : result (list Issue) :=
  if negb (truthy experiments) then Ok [] else
  es ← iter experiments;
  untagged ← comprehension Ok
    (λ e, tags ← get e "tags" VNone; Ok (negb (truthy tags))) es;
  Ok (if Qltb 0.3 (ratio (len untagged) (len es))
      then [untagged_issue (len untagged) (len es)] else []).

Definition analyze (data : dict) : result (list Issue) :=
  performance_issues ←
    _analyze_model_performance (dict_get data "model_metrics" (VList []));
  training_issues ← _analyze_training (dict_get data "training_runs" (VList []));
  data_issues ← _analyze_data_quality (dict_get data "data_metrics" (VDict []));
  inference_issues ←
    _analyze_inference (dict_get data "inference_metrics" (VDict []));
  experiment_issues ← _analyze_experiments (dict_get data "experiments" (VList []));
  Ok (_prioritize_issues
        (performance_issues ++ training_issues ++ data_issues ++
         inference_issues ++ experiment_issues)).

(** ** Optimization suggestions *)

Definition distributed_training : Optimization.t := {|
  Optimization.type := "performance";
  Optimization.title := "Implement Distributed Training";
  Optimization.description := "Speed up training with data-parallel or model-parallel distributed training";
  Optimization.estimated_impact := "50-70% reduction in training time for large models";
  Optimization.implementation_effort := "high";
  Optimization.priority := 2;
  Optimization.steps :=
    ["Evaluate distributed training frameworks (PyTorch DDP, Horovod, DeepSpeed)";
     "Refactor training code for distributed execution";
     "Set up multi-GPU or multi-node infrastructure";
     "Optimize data loading for distributed training";
     "Implement gradient accumulation for effective large batch training";
     "Test and validate distributed training convergence"];
  Optimization.metrics_impact :=
    [("training_time_reduction", 0.6%Q);
     ("throughput_increase", 2.5%Q)]
|}.

Definition model_for_inference : Optimization.t := {|
  Optimization.type := "performance";
  Optimization.title := "Optimize Model for Inference";
  Optimization.description := "Apply model optimization techniques to reduce latency and improve throughput";
  Optimization.estimated_impact := "30-50% latency reduction, 2-3x throughput improvement";
  Optimization.implementation_effort := "medium";
  Optimization.priority := 1;
  Optimization.steps :=
    ["Apply model quantization (INT8 or mixed precision)";
     "Prune unnecessary weights and connections";
     "Use ONNX Runtime or TensorRT for optimized serving";
     "Implement dynamic batching";
     "Enable model caching for repeated inputs";
     "Profile and optimize preprocessing pipeline"];
  Optimization.metrics_impact :=
    [("latency_reduction", 0.4%Q);
     ("throughput_increase", 2.0%Q);
     ("cost_reduction", 0.3%Q)]
|}.

Definition data_quality_monitoring : Optimization.t := {|
  Optimization.type := "quality";
  Optimization.title := "Implement Automated Data Quality Monitoring";
  Optimization.description := "Set up continuous data quality monitoring and alerting";
  Optimization.estimated_impact := "Early detection of data issues, 80% reduction in data-related model failures";
  Optimization.implementation_effort := "medium";
  Optimization.priority := 1;
  Optimization.steps :=
    ["Define data quality metrics and thresholds";
     "Implement automated data validation pipeline";
     "Set up data drift detection monitors";
     "Create alerting for quality violations";
     "Build data profiling dashboard";
     "Implement automated data quality reports"];
  Optimization.metrics_impact :=
    [("data_issue_detection", 0.8%Q);
     ("model_reliability", 0.3%Q)]
|}.

Definition automated_retraining : Optimization.t := {|
  Optimization.type := "reliability";
  Optimization.title := "Implement Automated Model Retraining Pipeline";
  Optimization.description := "Set up automated retraining triggered by performance degradation or data drift";
  Optimization.estimated_impact := "Maintain model performance automatically, reduce manual intervention by 90%";
  Optimization.implementation_effort := "high";
  Optimization.priority := 2;
  Optimization.steps :=
    ["Define retraining triggers (drift, performance drop, schedule)";
     "Implement automated data preparation pipeline";
     "Set up automated training with hyperparameter optimization";
     "Implement automated model validation and testing";
     "Create automated deployment with A/B testing";
     "Set up rollback mechanisms for failed deployments";
     "Implement continuous monitoring and alerting"];
  Optimization.metrics_impact :=
    [("model_freshness", 0.9%Q);
     ("manual_effort", (-0.9)%Q);
     ("downtime", (-0.5)%Q)]
|}.

Definition training_and_inference_costs : Optimization.t := {|
  Optimization.type := "cost";
  Optimization.title := "Optimize Training and Inference Costs";
  Optimization.description := "Reduce cloud costs through resource optimization and efficient scheduling";
  Optimization.estimated_impact := "25-40% reduction in ML infrastructure costs";
  Optimization.implementation_effort := "medium";
  Optimization.priority := 3;
  Optimization.steps :=
    ["Use spot instances for training workloads";
     "Implement auto-scaling for inference";
     "Optimize model size and complexity";
     "Schedule training during off-peak hours";
     "Use reserved instances for baseline capacity";
     "Implement resource usage monitoring and alerts"];
  Optimization.metrics_impact :=
    [("cost_reduction", 0.35%Q);
     ("resource_efficiency", 0.4%Q)]
|}.

Definition is_inference_issue (i : Issue) : bool :=
  String.eqb (category i) "performance" &&
  str_contains "inference" (str_lower (title i)).

Definition is_quality_issue (i : Issue) : bool :=
  String.eqb (category i) "quality".

(** [optimize]: two suggestions are always made; the others depend on
    the presence of training runs and on the issues. *)
Definition optimize (data : dict) (issues : list Issue) : list Optimization.t :=
  let training_runs := dict_get data "training_runs" (VList []) in
  let performance_issues := List.filter is_inference_issue issues in
  let data_issues := List.filter is_quality_issue issues in
  Optimization.sorted_by_priority
    ((if truthy training_runs then [distributed_training] else []) ++
     (match performance_issues with [] => [] | _ => [model_for_inference] end) ++
     (match data_issues with [] => [] | _ => [data_quality_monitoring] end) ++
     [automated_retraining; training_and_inference_costs]).

End MLOpsAgent.

(** * The correlator ([src/monitors/issue_detector.py]) *)

Module IssueDetector.

(** [s in i.title.lower()] *)
Definition title_mentions (s : string) (i : Issue) : bool :=
  str_contains s (str_lower (title i)).

Definition is_build_failure (i : Issue) : bool :=
  title_mentions "build" i &&
  existsb (String.eqb (severity i)) ["high"; "critical"].

Definition is_deployment_failure (i : Issue) : bool :=
  title_mentions "deployment" i.

Definition cascading_issue (build_failures deployment_failures : Z) : Issue := {|
  severity := "critical";
  category := "reliability";
  title := "Cascading Failures Detected";
  description := "Build failures (" +:+ pretty build_failures +:+
    ") are likely causing deployment issues (" +:+ pretty deployment_failures +:+ ")";
  affected_component := "CI/CD Pipeline";
  impact := "Build failures block deployments, creating a bottleneck in the release process";
  recommendation := "Fix build issues first: address test failures, resolve dependency conflicts, improve build stability";
  confidence := 0.85;
  metadata := VDict [("build_failures", VInt build_failures);
                     ("deployment_failures", VInt deployment_failures)]
|}.

Definition _detect_cascading_failures (issues : list Issue) : list Issue :=
  let build_failures := List.filter is_build_failure issues in
  let deployment_failures := List.filter is_deployment_failure issues in
  match build_failures, deployment_failures with
  | _ :: _, _ :: _ =>
      [cascading_issue (len build_failures) (len deployment_failures)]
  | _, _ => []
  end.

Definition is_resource_issue (i : Issue) : bool :=
  String.eqb (category i) "performance" &&
  existsb (λ keyword, title_mentions keyword i) ["cpu"; "memory"; "resource"; "gpu"].

Definition bottleneck_issue (resource_issue_count : Z) : Issue := {|
  severity := "high";
  category := "performance";
  title := "System-Wide Resource Constraints";
  description := "Multiple pipelines experiencing resource constraints (" +:+
    pretty resource_issue_count +:+ " issues)";
  affected_component := "Infrastructure";
  impact := "Resource constraints are creating bottlenecks across DevOps and MLOps pipelines";
  recommendation := "Scale infrastructure, optimize resource allocation, implement resource quotas, investigate resource leaks";
  confidence := 0.80;
  metadata := VDict [("resource_issue_count", VInt resource_issue_count)]
|}.

Definition _detect_resource_bottlenecks (issues : list Issue) : list Issue :=
  let resource_issues := List.filter is_resource_issue issues in
  if 2 <=? len resource_issues
  then [bottleneck_issue (len resource_issues)]
  else [].

(** [category_counts[c] = category_counts.get(c, 0) + 1] on the dict
    kept in insertion order. *)
Fixpoint bump (c : string) (counts : list (string * Z)) : list (string * Z) :=
  match counts with
  | [] => [(c, 1)]
  | (c', n) :: counts' =>
      if String.eqb c' c then (c', n + 1) :: counts'
      else (c', n) :: bump c counts'
  end.

(** The loop [for issue in issues] over the dict built so far. *)
Definition category_counts (issues : list Issue) : list (string * Z) :=
  foldl (λ counts issue, bump (category issue) counts) [] issues.

Definition systemic_issue (c : string) (count : Z) : Issue := {|
  severity := "high";
  category := c;
  title := "Systemic " +:+ str_title c +:+ " Issues";
  description := "Detected " +:+ pretty count +:+ " " +:+ c +:+
    " issues across pipelines";
  affected_component := "Platform-Wide";
  impact := "Multiple " +:+ c +:+
    " issues indicate a systemic problem requiring platform-level attention";
  recommendation := "Conduct root cause analysis for " +:+ c +:+
    " issues, implement platform-level improvements, review " +:+ c +:+
    " best practices";
  confidence := 0.75;
  metadata := VDict [("issue_count", VInt count); ("category", VStr c)]
|}.

Definition _detect_systemic_issues (issues : list Issue) : list Issue :=
  omap (λ '(c, count), if 5 <=? count then Some (systemic_issue c count) else None)
       (category_counts issues).

Definition detect_cross_pipeline_issues (issues : list Issue) : list Issue :=
  _detect_cascading_failures issues ++
  _detect_resource_bottlenecks issues ++
  _detect_systemic_issues issues.

End IssueDetector.

Import MLOpsAgent.
Import IssueDetector.

(** * The collectors' factory ([src/collectors/pipeline_collectors.py]) *)

Module CollectorFactory.

Inductive collector_class :=
| JenkinsCollector
| GitHubActionsCollector
| MLflowCollector
| KubernetesCollector
| DataQualityCollector.

Definition _collectors : list (string * collector_class) :=
  [("jenkins", JenkinsCollector);
   ("github", GitHubActionsCollector);
   ("mlflow", MLflowCollector);
   ("kubernetes", KubernetesCollector);
   ("k8s", KubernetesCollector);
   ("data_quality", DataQualityCollector)].

(** [create_collector]: the class registered under the lower-cased
    type, and the Jenkins collector for a type that is not registered. *)
Definition create_collector (collector_type : string) : collector_class :=
  default JenkinsCollector
    ((list_to_map _collectors : gmap string collector_class) !!
       str_lower collector_type).

Definition get_available_collectors : list string := map fst _collectors.

End CollectorFactory.

(** * The orchestrator ([src/orchestrator.py]) *)

Module PipelineOrchestrator.

(** [_determine_collector_type]: [None] and the empty string are both
    falsy. *)
Definition _determine_collector_type (source : option string) : string :=
  match source with
  | None => "jenkins"
  | Some source =>
      if String.eqb source "" then "jenkins" else
      let source_lower := str_lower source in
      if str_contains "jenkins" source_lower then "jenkins"
      else if str_contains "github" source_lower then "github"
      else if str_contains "gitlab" source_lower then "gitlab"
      else "jenkins"
  end.

(** The collector [_collect_devops_data] asks the factory for. *)
Definition devops_collector (source : option string)
    : CollectorFactory.collector_class :=
  CollectorFactory.create_collector (_determine_collector_type source).

(** What [analyze_pipelines] stores for one pipeline: the collected
    data, the issues as dicts and their summary. *)
Record section := {
  data : dict;
  issues : list dict;
  summary : dict
}.

Record results := {
  pipeline_type : string;
  devops : option section;
  mlops : option section;
  cross_pipeline_issues : list dict
}.

Definition report (data : dict) (found : list Issue) : section := {|
  data := data;
  issues := map to_dict found;
  summary := _generate_summary found
|}.

Section Analysis.

Variable repr_other : value → string.

(** [analyze_pipelines] on the data the collectors returned: the
    analyses the pipeline type asks for, then the correlator on the
    issues of the analyses that ran. The time stamp of the result is
    not modelled. *)
Definition analyze_pipelines (pipeline_type : string)
    (devops_data mlops_data : dict) : result results :=
  devops_issues ←
    (if existsb (String.eqb pipeline_type) ["devops"; "both"]
     then found ← DevOpsAgent.analyze repr_other devops_data; Ok (Some found)
     else Ok None);
  mlops_issues ←
    (if existsb (String.eqb pipeline_type) ["mlops"; "both"]
     then found ← MLOpsAgent.analyze mlops_data; Ok (Some found)
     else Ok None);
  let all_issues := default [] devops_issues ++ default [] mlops_issues in
  let cross_issues := detect_cross_pipeline_issues all_issues in
  Ok {| pipeline_type := pipeline_type;
        devops := report devops_data <$> devops_issues;
        mlops := report mlops_data <$> mlops_issues;
        cross_pipeline_issues := map to_dict cross_issues |}.

End Analysis.

(** The issues [_check_and_alert] collects from a result: those of the
    two analyses whose severity is critical or high. *)
Definition is_urgent (i : dict) : bool :=
  existsb (eq_str (dict_get i "severity" VNone)) ["critical"; "high"].

Definition critical_issues (r : results) : list dict :=
  List.filter is_urgent (default [] (issues <$> devops r)) ++
  List.filter is_urgent (default [] (issues <$> mlops r)).

End PipelineOrchestrator.

(** * The vocabulary of the specification

    The predicates and functions in which the properties are stated, and
    the concrete inputs they are tried on. *)

(** ** Prioritisation *)

(** [precedes x y]: the key of [x] is at least the key of [y] in the
    lexicographic order on (severity rank, confidence). *)
Definition precedes (x y : Issue) : Prop :=
  severity_rank y < severity_rank x ∨
  (severity_rank x = severity_rank y ∧ (confidence y <= confidence x)%Q).

(** An exact tie: equal rank and equal confidence. *)
Definition same_key (x y : Issue) : bool :=
  (severity_rank x =? severity_rank y) && Qeq_bool (confidence x) (confidence y).

Definition recognized (x : Issue) : bool :=
  bool_decide (severity x ∈ ["critical"; "high"; "medium"; "low"]).

(** The rank table as the specification writes it. *)
Definition spec_rank (s : string) : Z :=
  if decide (s = "critical") then 4
  else if decide (s = "high") then 3
  else if decide (s = "medium") then 2
  else if decide (s = "low") then 1
  else 0.

(** ** Rounding *)



(** A number of moderate size, and an integer of moderate size. *)
Definition moderate (v : value) : Prop :=
  ∃ x, as_num v = Some x ∧ (Qabs x <= 1000000)%Q.



(** ** Confidence scoring *)




(** A number a float can hold: a float, or an integer within the range
    of floats. *)
Definition finite (v : value) : Prop :=
  match v with
  | VBool _ | VFloat _ => True
  | VInt n => Z.abs n < float_range
  | _ => False
  end.



(** ** The builtins on well-formed data *)

Definition Qsum (l : list Q) : Q := foldr Qplus 0%Q l.

(** The number a numeric value denotes ([0] for anything else). *)
Definition num (v : value) : Q := default 0%Q (as_num v).

Definition numeric (v : value) : Prop := is_Some (as_num v).

(** ** Build performance *)

Definition status_of (d : dict) : value := dict_get d "status" VNone.
Definition succeeded (d : dict) : bool := eq_str (status_of d) "success".
Definition has_failed (d : dict) : bool := eq_str (status_of d) "failed".
Definition duration_of (d : dict) : value := dict_get d "duration" (VInt 0).

(** Build records are well formed when the duration of every successful
    build is a number. *)
Definition well_formed_builds (builds : list dict) : Prop :=
  Forall (λ d, succeeded d = true → numeric (duration_of d)) builds.

(** The durations of the successful builds, and the mean of a list. *)
Definition successful_durations (builds : list dict) : list Q :=
  map (λ d, num (duration_of d)) (List.filter succeeded builds).

Definition average (l : list Q) : Q := (Qsum l / inject_Z (len l))%Q.

Definition failed_count (builds : list dict) : Z :=
  len (List.filter has_failed builds).

Definition build_failure_rate (builds : list dict) : Q :=
  ratio (failed_count builds) (len builds).




(** ** Test flakiness *)

Definition name_of (d : dict) : value := dict_get d "name" VNone.
Definition passed (d : dict) : bool := eq_str (status_of d) "passed".

(** Test records are well formed when every name that counts (every
    truthy name) is a string. *)
Definition string_named (tests : list dict) : Prop :=
  Forall (λ d, truthy (name_of d) = true → ∃ s, name_of d = VStr s) tests.

(** The name under which an execution is recorded, if any. *)
Definition recorded_name (d : dict) : option string :=
  match name_of d with
  | VStr s => if String.eqb s "" then None else Some s
  | _ => None
  end.

Definition named (s : string) (d : dict) : bool :=
  bool_decide (recorded_name d = Some s).

(** The executions of test [s], and how many of them passed and failed
    (any status other than passed counts as a failure). *)
Definition runs_of (s : string) (tests : list dict) : list dict :=
  List.filter (named s) tests.

Definition passes (s : string) (tests : list dict) : Z :=
  len (List.filter passed (runs_of s tests)).

Definition failures (s : string) (tests : list dict) : Z :=
  len (List.filter (λ d, negb (passed d)) (runs_of s tests)).

(** The distinct elements of a list, in order of first occurrence. *)
Fixpoint distinct (l : list string) : list string :=
  match l with
  | [] => []
  | s :: l' => s :: List.filter (λ s', negb (String.eqb s' s)) (distinct l')
  end.

Definition test_names (tests : list dict) : list string :=
  distinct (omap recorded_name tests).

(** The flaky tests, in order of first occurrence in the history. *)
Definition flaky_names (tests : list dict) : list string :=
  List.filter (λ s, is_flaky (passes s tests) (failures s tests))
              (test_names tests).

Definition failure_ratio (tests : list dict) (s : string) : Q :=
  ratio (failures s tests) (passes s tests + failures s tests).

Definition entries (cnt : string → Z * Z) (ns : list string) : results_table :=
  map (λ s, (VStr s, cnt s)) ns.

Definition counts (tests : list dict) (s : string) : Z * Z :=
  (passes s tests, failures s tests).

(** The table the loop has built after the executions [tests]. *)
Definition spec_table (tests : list dict) : results_table :=
  entries (counts tests) (test_names tests).

Definition bump_count (b : bool) (c : Z * Z) : Z * Z :=
  if b then (c.1 + 1, c.2) else (c.1, c.2 + 1).

(** One test name with six passing and four failing executions, and one
    with ten passing executions. *)
Definition execution (name status : string) : dict :=
  [("name", VStr name); ("status", VStr status)].

Definition six_four : list dict :=
  replicate 6 (execution "test_login" "passed") ++
  replicate 4 (execution "test_login" "failed").

Definition ten_zero : list dict :=
  replicate 10 (execution "test_login" "passed").

(** ** The correlator *)

(** A build-titled issue of high or critical severity, and a
    deployment-titled issue; the title is searched in lower case, so the
    letter case of the title does not matter. *)
Definition build_kind (i : Issue) : Prop :=
  str_contains "build" (str_lower (title i)) = true ∧
  (severity i = "high" ∨ severity i = "critical").

Definition deployment_kind (i : Issue) : Prop :=
  str_contains "deployment" (str_lower (title i)) = true.

(** The number of issues of category [c], and the categories in order
    of first occurrence. *)
Definition count_in (c : string) (issues : list Issue) : Z :=
  len (List.filter (λ i, String.eqb (category i) c) issues).

Definition categories (issues : list Issue) : list string :=
  distinct (map category issues).

Definition counted (cnt : string → Z) (cs : list string) : list (string * Z) :=
  map (λ c, (c, cnt c)) cs.

Definition five_performance : list Issue :=
  replicate 5 (slow_builds_issue 650 20).

(** ** Model performance *)

Definition is_degradation (i : Issue) : Prop :=
  title i = "Model Performance Degradation Detected".

(** The issues a call hands back: none when it raises. *)
Definition emitted (r : result (list Issue)) : list Issue :=
  match r with
  | Ok issues => issues
  | Raise _ => []
  end.

(** A metric point, points whose accuracy falls from 0.9 to 0.1, and
    the same history behind one more point. *)
Definition point (timestamp : string) (accuracy f1_score : Q) : dict :=
  [("timestamp", VStr timestamp); ("accuracy", VFloat accuracy);
   ("f1_score", VFloat f1_score)].

Definition five_points : list value :=
  map VDict [point "2024-01-01" 0.9 0.8; point "2024-01-02" 0.9 0.8;
             point "2024-01-03" 0.1 0.8; point "2024-01-04" 0.1 0.8;
             point "2024-01-05" 0.1 0.8].

Definition six_points : list value :=
  VDict (point "2023-12-31" 0.9 0.8) :: five_points.

(** *** The latest point *)

Definition timestamp_of (d : dict) : value := dict_get d "timestamp" (VStr "").
Definition accuracy_of (d : dict) : value := dict_get d "accuracy" (VInt 0).
Definition f1_of (d : dict) : value := dict_get d "f1_score" (VInt 0).

(** The timestamp as a string (the empty string when there is none). *)
Definition ts (d : dict) : string :=
  match timestamp_of d with
  | VStr s => s
  | _ => ""
  end.

(** Metric points are well formed when their timestamps are strings and
    their accuracy and F1 score are numbers (an absent field has its
    default). *)
Definition well_formed_point (d : dict) : Prop :=
  (∃ s, timestamp_of d = VStr s) ∧ numeric (accuracy_of d) ∧ numeric (f1_of d).

(** [a] is not later than [b]. *)
Definition not_later (a b : dict) : Prop := String.leb (ts a) (ts b) = true.

(** The stable ascending arrangement by timestamp. *)
Fixpoint insert_ts (x : dict) (l : list dict) : list dict :=
  match l with
  | [] => [x]
  | y :: l' => if String.ltb (ts y) (ts x) then y :: insert_ts x l' else x :: l
  end.

Definition sort_ts (l : list dict) : list dict := foldr insert_ts [] l.

Definition keyed (d : dict) : sort_key * value := (KStr (ts d), VDict d).





(** ** Malformed and missing input *)

(** A section is a list of records that satisfy [P]. *)
Definition records (P : dict → Prop) (v : value) : Prop :=
  ∃ l, v = VList (map VDict l) ∧ Forall P l.

(** A section is a list of numeric samples. *)
Definition samples (v : value) : Prop :=
  ∃ l, v = VList l ∧ Forall numeric l.


(** *** Resource usage *)


(** *** Security scans *)

Definition cve_of (d : dict) : value := dict_get d "cve" (VStr "Unknown").

Definition is_critical (d : dict) : bool :=
  eq_str (dict_get d "severity" VNone) "critical".

Definition is_high (d : dict) : bool :=
  eq_str (dict_get d "severity" VNone) "high".

(** The identifier of a critical vulnerability is a string. *)
Definition well_formed_vulnerability (d : dict) : Prop :=
  is_critical d = true → ∃ s, cve_of d = VStr s.

Definition well_formed_scan (d : dict) : Prop :=
  records well_formed_vulnerability (dict_get d "vulnerabilities" (VList [])).

(** *** Cluster health *)

Definition well_formed_replicas (d : dict) : Prop :=
  numeric (dict_get d "desired_replicas" (VInt 0)) ∧
  numeric (dict_get d "available_replicas" (VInt 0)).


Definition pod_failed (p : dict) : bool :=
  existsb (eq_str (status_of p)) ["CrashLoopBackOff"; "Error"; "Failed"].

Definition is_pending (p : dict) : bool := eq_str (status_of p) "Pending".

Definition not_ready (n : dict) : bool := negb (eq_str (status_of n) "Ready").

(** *** The whole batch *)








(** ** Deployment reliability *)

(** A deployment record counts when it carries a timestamp. *)
Definition timestamped (d : dict) : bool :=
  truthy (dict_get d "timestamp" VNone).

Definition recent_deployments (l : list dict) : list dict :=
  List.filter timestamped l.

Definition failed_recent (l : list dict) : list dict :=
  List.filter has_failed (recent_deployments l).

(** ** Resource pressure *)

(** What a usage block returns on the samples [l]: nothing when no
    sample exceeds the limit, and otherwise one issue that reports a
    greatest sample and the mean of the samples. *)
Definition usage_outcome (l : list value) (limit : Q)
    (issue : value → Q → Q → Issue) (issues : list Issue) : Prop :=
  (issues = [] ∧ Forall (λ x, (num x <= limit)%Q) l) ∨
  (∃ m avg, issues = [issue m (num m) avg] ∧
            m ∈ l ∧ (limit < num m)%Q ∧
            Forall (λ x, (num x <= num m)%Q) l ∧
            (avg == average (map num l))%Q).


(** ** Security scans *)

(** The records among the elements of a list value. *)
Definition records_of (v : value) : list dict :=
  match v with
  | VList l => omap (λ x, match x with VDict d => Some d | _ => None end) l
  | _ => []
  end.

Definition vulnerabilities_of (scan : dict) : list dict :=
  records_of (dict_get scan "vulnerabilities" (VList [])).

Definition critical_of (scan : dict) : list dict :=
  List.filter is_critical (vulnerabilities_of scan).

Definition high_of (scan : dict) : list dict :=
  List.filter is_high (vulnerabilities_of scan).

(** The identifier of a vulnerability, as text. *)
Definition cve_text (d : dict) : string :=
  match cve_of d with
  | VStr s => s
  | _ => ""
  end.

(** What one scan contributes: an issue for its critical
    vulnerabilities when there is one or more, naming the first three,
    then an issue for its high-severity vulnerabilities when there are
    more than five. *)
Definition scan_issues (scan : dict) : list Issue :=
  (match critical_of scan with
   | [] => []
   | _ => [critical_vulnerabilities_issue (map VDict (critical_of scan))
             (str_join ", " (map cve_text (take 3 (critical_of scan))))]
   end) ++
  (if 5 <? len (high_of scan)
   then [high_vulnerabilities_issue (map VDict (high_of scan))]
   else []).

Definition sample_vulnerabilities : list dict :=
  [[("cve", VStr "CVE-2024-1234"); ("severity", VStr "critical")];
   [("cve", VStr "CVE-2024-5678"); ("severity", VStr "high")]].

Definition sample_scan : dict :=
  [("vulnerabilities", VList (map VDict sample_vulnerabilities))].

(** ** Cluster health *)

Definition desired_of (d : dict) : Q := num (dict_get d "desired_replicas" (VInt 0)).
Definition available_of (d : dict) : Q := num (dict_get d "available_replicas" (VInt 0)).

(** A deployment that wants replicas and has none, and one that has some
    but fewer than it wants. *)
Definition unavailable (d : dict) : bool :=
  Qltb 0 (desired_of d) && Qltb (available_of d) (desired_of d) &&
  Qeq_bool (available_of d) 0.

Definition underscaled (d : dict) : bool :=
  Qltb 0 (desired_of d) && Qltb (available_of d) (desired_of d) &&
  negb (Qeq_bool (available_of d) 0).

Definition names (l : list dict) : list value :=
  map (λ d, dict_get d "name" VNone) l.

Definition sample_deployments : list dict :=
  [[("name", VStr "api"); ("desired_replicas", VInt 3); ("available_replicas", VInt 0)];
   [("name", VStr "web"); ("desired_replicas", VInt 3); ("available_replicas", VInt 2)];
   [("name", VStr "batch"); ("desired_replicas", VInt 0)]].

(** What the pod check and the node check report on the records [l]. *)
Definition pod_issues (l : list dict) : list Issue :=
  (match List.filter pod_failed l with
   | [] => []
   | _ => [pod_failures_issue (map VDict (List.filter pod_failed l))
             (names (take 5 (List.filter pod_failed l)))]
   end) ++
  (if 3 <? len (List.filter is_pending l)
   then [pending_pods_issue (map VDict (List.filter is_pending l))]
   else []).

Definition node_issues (l : list dict) : list Issue :=
  match List.filter not_ready l with
  | [] => []
  | _ => [unhealthy_nodes_issue (map VDict (List.filter not_ready l))
            (names (List.filter not_ready l)) (len l)]
  end.

Definition pod (name status : string) : dict :=
  [("name", VStr name); ("status", VStr status)].

Definition sample_cluster : dict :=
  [("pods", VList (map VDict [pod "a" "Running"; pod "b" "Error";
                              pod "c" "Pending"]));
   ("nodes", VList (map VDict [pod "n1" "Ready"; pod "n2" "NotReady"]))].

(** An issue of the cluster check names Kubernetes in its affected
    component, unless it is the service-mesh issue. *)
Definition cluster_issue (i : Issue) : Prop :=
  str_contains "kubernetes" (str_lower (affected_component i)) = true ∨
  title i = "High Service Mesh Error Rate".

(** ** The accuracy trend *)

Definition accuracies (l : list dict) : list Q :=
  map (λ d, num (accuracy_of d)) l.

(** The two windows the trend compares: the most recent five points and
    the points before them, five at most. *)
Definition recent_window (sorted : list dict) : list dict := last_n 5 sorted.

Definition older_window (sorted : list dict) : list dict :=
  if 10 <=? len sorted then slice_10_5 sorted else but_last_n 5 sorted.

Definition accuracy_drop (sorted : list dict) : Q :=
  average (accuracies (older_window sorted)) -
  average (accuracies (recent_window sorted)).

(** Ten points whose accuracy goes from 0.90 to 0.80. *)
Definition falling_history : list dict :=
  [point "2024-01-01" 0.9 0.8; point "2024-01-02" 0.9 0.8;
   point "2024-01-03" 0.9 0.8; point "2024-01-04" 0.9 0.8;
   point "2024-01-05" 0.9 0.8; point "2024-01-06" 0.8 0.8;
   point "2024-01-07" 0.8 0.8; point "2024-01-08" 0.8 0.8;
   point "2024-01-09" 0.8 0.8; point "2024-01-10" 0.8 0.8].


(** ** Model serving *)





(** ** Data quality *)

Definition drift_of (m : dict) : value := dict_get m "drift_score" (VInt 0).
Definition quality_of (m : dict) : value :=
  dict_get m "quality_score" (VFloat 1.0).
Definition missing_rate_of (m : dict) : value :=
  dict_get m "missing_value_rate" (VInt 0).


Definition data_issues (m : dict) : list Issue :=
  (if Qltb 0.1 (num (drift_of m))
   then [data_drift_issue (drift_of m) (num (drift_of m))] else []) ++
  (if Qltb (num (quality_of m)) 0.95
   then [low_quality_issue (quality_of m) (num (quality_of m))] else []) ++
  (if Qltb 0.05 (num (missing_rate_of m))
   then [missing_values_issue (missing_rate_of m) (num (missing_rate_of m))]
   else []).


(** ** Experiment tracking *)

Definition untagged (e : dict) : bool := negb (truthy (dict_get e "tags" VNone)).

Definition untagged_experiments (es : list dict) : list dict :=
  List.filter untagged es.

(** ** Training runs *)














(** ** Correlation across pipelines *)

(** A performance issue whose title names a resource. *)
Definition resource_kind (i : Issue) : Prop :=
  category i = "performance" ∧
  Exists (λ keyword, str_contains keyword (str_lower (title i)) = true)
         ["cpu"; "memory"; "resource"; "gpu"].

Definition total_count (cs : list string) (issues : list Issue) : Z :=
  foldr (λ c acc, count_in c issues + acc) 0 cs.

(** ** From the analysis to the correlator *)

Definition build (status : string) (duration : Z) : dict :=
  [("status", VStr status); ("duration", VInt duration)].

Definition deployment (status timestamp : string) : dict :=
  [("status", VStr status); ("timestamp", VStr timestamp)].

(** A batch with one failed build out of four and one failed
    deployment out of two, and a batch whose CPU and memory samples
    exceed their limits. *)
Definition failing_builds : list dict :=
  [build "success" 100; build "failed" 100; build "success" 100;
   build "success" 100].

Definition failing_deployments : list dict :=
  [deployment "failed" "2024-01-01"; deployment "success" "2024-01-02"].

Definition failing_batch : dict :=
  [("builds", VList (map VDict failing_builds));
   ("deployments", VList (map VDict failing_deployments))].

Definition loaded_resources : dict :=
  [("cpu_usage", VList [VInt 95; VInt 50]);
   ("memory_usage", VList [VInt 60; VInt 90])].

Definition loaded_batch : dict := [("resources", VDict loaded_resources)].

(** ** Serialisation of issues *)

(** The instance that holds the fields of an issue, and the issue with
    an absent or empty metadata replaced by the empty dict. *)
Definition object_of (i : Issue) : IssueObject.t := {|
  IssueObject.severity := VStr (severity i);
  IssueObject.category := VStr (category i);
  IssueObject.title := VStr (title i);
  IssueObject.description := VStr (description i);
  IssueObject.affected_component := VStr (affected_component i);
  IssueObject.impact := VStr (impact i);
  IssueObject.recommendation := VStr (recommendation i);
  IssueObject.confidence := VFloat (confidence i);
  IssueObject.metadata := metadata i
|}.

Definition normalised (i : Issue) : Issue := {|
  severity := severity i;
  category := category i;
  title := title i;
  description := description i;
  affected_component := affected_component i;
  impact := impact i;
  recommendation := recommendation i;
  confidence := confidence i;
  metadata := if truthy (metadata i) then metadata i else VDict []
|}.

(** ** Summaries *)

(** What the report reads in a summary:
    [summary.get(table, {}).get(key, 0)]. *)
Definition read_count (summary : dict) (table key : string) : value :=
  match dict_get summary table (VDict []) with
  | VDict counts => dict_get counts key (VInt 0)
  | _ => VNone
  end.

Definition with_severity (s : string) (issues : list Issue) : list Issue :=
  List.filter (λ i, String.eqb (severity i) s) issues.

Definition with_category (c : string) (issues : list Issue) : list Issue :=
  List.filter (λ i, String.eqb (category i) c) issues.

(** The count stored under a key, 0 when the key is absent. *)
Fixpoint stored (k : string) (counts : list (string * Z)) : Z :=
  match counts with
  | [] => 0
  | (k', n) :: counts' => if String.eqb k k' then n else stored k counts'
  end.

(** ** Optimization suggestions *)

Definition by_priority (a b : Optimization.t) : Prop :=
  Optimization.priority a <= Optimization.priority b.

Definition same_priority (p : Z) (o : Optimization.t) : bool :=
  Optimization.priority o =? p.

(** A suggestion that is made under a condition. *)
Definition when (b : bool) (l : list Optimization.t) : list Optimization.t :=
  if b then l else [].



(** The suggestions of the ML pipeline, in the order in which they are
    returned. *)
Definition mlops_plan (data : dict) (issues : list Issue)
    : list Optimization.t :=
  when (existsb is_inference_issue issues) [model_for_inference] ++
  when (existsb is_quality_issue issues) [data_quality_monitoring] ++
  when (truthy (dict_get data "training_runs" (VList [])))
       [distributed_training] ++
  [automated_retraining; training_and_inference_costs].



(** ** From the analysis to the suggestions *)

Definition failed_pod_batch : dict :=
  [("kubernetes",
    VDict [("pods", VList [VDict [("name", VStr "web-1");
                                  ("status", VStr "Failed")]])])].

Definition bare_serving_batch : dict :=
  [("inference_metrics", VDict [("latency_p95", VInt 20)])].

(** ** The orchestrator *)

(** [s in source.lower()] *)
Definition source_mentions (s source : string) : Prop :=
  str_contains s (str_lower source) = true.

(** A source that mentions github and not jenkins. *)
Definition github_source (source : option string) : Prop :=
  ∃ s, source = Some s ∧ source_mentions "github" s ∧
       ¬ source_mentions "jenkins" s.

(** The pipeline types that make an analysis run. *)
Definition known_type (pipeline_type : string) : Prop :=
  pipeline_type ∈ ["devops"; "mlops"; "both"].

Definition count_of (v : value) : Z :=
  match v with
  | VInt n => n
  | _ => 0
  end.

(** The critical and high counts of the summary of a section, as the
    report reads them. *)
Definition urgent_in (s : option PipelineOrchestrator.section) : Z :=
  match s with
  | Some s =>
      count_of (read_count (PipelineOrchestrator.summary s)
                           "by_severity" "critical") +
      count_of (read_count (PipelineOrchestrator.summary s)
                           "by_severity" "high")
  | None => 0
  end.

Definition found_in (s : option PipelineOrchestrator.section) : Z :=
  match s with
  | Some s => len (PipelineOrchestrator.issues s)
  | None => 0
  end.

(** * Properties *)

(** ** Rational comparisons *)

Lemma Qltb_lt (x y : Q) : Qltb x y = true ↔ (x < y)%Q.
Proof.
  unfold Qltb. rewrite negb_true_iff, <- not_true_iff_false, Qle_bool_iff.
  split; [apply Qnot_le_lt | apply Qlt_not_le].
Qed.

Lemma Qltb_ge (x y : Q) : Qltb x y = false ↔ (y <= x)%Q.
Proof.
  unfold Qltb. rewrite negb_false_iff. apply Qle_bool_iff.
Qed.

Lemma Qltb_proper (a b c d : Q) :
  (a == c)%Q → (b == d)%Q → Qltb a b = Qltb c d.
Proof. intros H1 H2. unfold Qltb. by rewrite H1, H2. Qed.

(** ** The builtins at work *)

Example format_fixed_no_digits : format_fixed 0 650 = "650".
Proof. reflexivity. Qed.

Example format_fixed_rounds_half_even :
  format_fixed 0 2.5 = "2" ∧ format_fixed 0 3.5 = "4" ∧
  format_fixed 2 0.125 = "0.12" ∧ format_fixed 1 (-0.25) = "-0.2".
Proof. repeat split; reflexivity. Qed.

Example format_percent_one_digit : format_percent 1 0.4 = "40.0%".
Proof. reflexivity. Qed.

Example str_title_words :
  str_title "performance" = "Performance" ∧
  str_title "data quality" = "Data Quality".
Proof. split; reflexivity. Qed.

Example str_contains_lowered :
  str_contains "build" (str_lower "High Build Failure Rate") = true ∧
  str_contains "build" "High Build Failure Rate" = false.
Proof. split; reflexivity. Qed.

Example sum_of_mixed_numbers :
  sum [VInt 1; VBool true; VFloat 0.5] = Ok (VFloat 2.5) ∧
  sum [VInt 1; VStr "2"] = Raise TypeError.
Proof. split; reflexivity. Qed.

Example mean_of_integers :
  mean [VInt 1; VInt 3] = Ok (VInt 2) ∧ mean [VInt 1; VInt 2] = Ok (VFloat (3 # 2)) ∧
  mean [] = Raise StatisticsError.
Proof. repeat split; reflexivity. Qed.

Example slow_builds_text :
  description (slow_builds_issue 650 20) =
    "Average build time is 650 seconds, exceeding recommended threshold" ∧
  impact (slow_builds_issue 650 20) =
    "Delayed feedback cycles, reduced developer productivity. Average delay: 350s per build".
Proof. split; reflexivity. Qed.

Example systemic_text :
  title (systemic_issue "performance" 5) = "Systemic Performance Issues" ∧
  description (systemic_issue "performance" 5) =
    "Detected 5 performance issues across pipelines".
Proof. split; reflexivity. Qed.

(** ** Prioritisation *)

Section Prioritization.

Lemma severity_rank_table (x : Issue) :
  severity_rank x =
    if decide (severity x = "critical") then 4
    else if decide (severity x = "high") then 3
    else if decide (severity x = "medium") then 2
    else if decide (severity x = "low") then 1
    else 0.
Proof.
  unfold severity_rank, severity_order.
  destruct (decide (severity x = "critical")) as [->|E1]; [done|].
  destruct (decide (severity x = "high")) as [->|E2]; [done|].
  destruct (decide (severity x = "medium")) as [->|E3]; [done|].
  destruct (decide (severity x = "low")) as [->|E4]; [done|].
  by rewrite !lookup_insert_ne, lookup_singleton_ne by congruence.
Qed.

Lemma severity_rank_recognized (x : Issue) :
  recognized x = true → 1 <= severity_rank x <= 4.
Proof.
  unfold recognized. rewrite bool_decide_eq_true, severity_rank_table.
  rewrite !elem_of_cons, elem_of_nil.
  intros [E|[E|[E|[E|[]]]]]; rewrite E; simpl; lia.
Qed.

Lemma severity_rank_unrecognized (x : Issue) :
  recognized x = false → severity_rank x = 0.
Proof.
  unfold recognized. rewrite bool_decide_eq_false, severity_rank_table.
  rewrite !elem_of_cons, elem_of_nil. intros H.
  repeat (destruct (decide _) as [E|_]; [destruct H; auto|]). done.
Qed.

Lemma key_lt_false (x y : Issue) : key_lt x y = false ↔ precedes x y.
Proof.
  unfold key_lt, precedes.
  destruct (Z.eqb_spec (severity_rank x) (severity_rank y)) as [E|E].
  - rewrite Qltb_ge. split; [auto | intros [H|[_ H]]; [lia | done]].
  - rewrite Z.ltb_ge. split; [intros; left; lia | intros [H|[H _]]; lia].
Qed.

Lemma key_lt_true (x y : Issue) :
  key_lt x y = true → precedes y x ∧ same_key x y = false.
Proof.
  unfold key_lt, precedes, same_key.
  destruct (Z.eqb_spec (severity_rank x) (severity_rank y)) as [E|E].
  - rewrite Qltb_lt. intros H. split.
    + right. split; [done | by apply Qlt_le_weak].
    + simpl. apply not_true_iff_false. rewrite Qeq_bool_iff. intros E'.
      rewrite E' in H. by apply Qlt_irrefl in H.
  - rewrite Z.ltb_lt. intros H. split; [by left | done].
Qed.

Lemma precedes_trans (x y z : Issue) : precedes x y → precedes y z → precedes x z.
Proof.
  unfold precedes. intros [H1|[H1 H1']] [H2|[H2 H2']].
  - left; lia.
  - left; lia.
  - left; lia.
  - right. split; [congruence | by apply (Qle_trans _ (confidence y))].
Qed.

Lemma same_key_trans (k x y : Issue) :
  same_key k x = true → same_key k y = true → same_key x y = true.
Proof.
  unfold same_key. rewrite !andb_true_iff, !Z.eqb_eq, !Qeq_bool_iff.
  intros [H1 H1'] [H2 H2']. split; [congruence | by rewrite <- H1'].
Qed.

Lemma insert_desc_perm (x : Issue) (l : list Issue) :
  Permutation (insert_desc x l) (x :: l).
Proof.
  induction l as [|y l IH]; simpl; [done|].
  destruct (key_lt x y); [|done].
  rewrite IH. apply perm_swap.
Qed.

Lemma insert_desc_sorted (x : Issue) (l : list Issue) :
  StronglySorted precedes l → StronglySorted precedes (insert_desc x l).
Proof.
  induction 1 as [|y l Hl IH Hy]; simpl.
  - repeat constructor.
  - destruct (key_lt x y) eqn:E.
    + constructor; [done|].
      apply key_lt_true in E as [E _].
      rewrite Forall_forall in Hy |- *. intros z Hz.
      rewrite insert_desc_perm in Hz.
      apply elem_of_cons in Hz as [->|Hz]; auto.
    + apply key_lt_false in E.
      constructor; [by constructor|].
      constructor; [done|].
      eapply Forall_impl; [exact Hy|]. intros z Hz. by eapply precedes_trans.
Qed.

Lemma insert_desc_filter (k x : Issue) (l : list Issue) :
  List.filter (same_key k) (insert_desc x l) = List.filter (same_key k) (x :: l).
Proof.
  induction l as [|y l IH]; [done|]. cbn [insert_desc].
  destruct (key_lt x y) eqn:E; [|done].
  cbn [List.filter] in *. rewrite IH.
  destruct (same_key k x) eqn:Ex, (same_key k y) eqn:Ey; try done.
  apply key_lt_true in E as [_ E].
  by rewrite (same_key_trans k x y) in E.
Qed.

Lemma prioritize_perm (issues : list Issue) :
  Permutation (_prioritize_issues issues) issues.
Proof.
  induction issues as [|x l IH]; [done|]. simpl.
  by rewrite insert_desc_perm, IH.
Qed.

Lemma prioritize_sorted (issues : list Issue) :
  StronglySorted precedes (_prioritize_issues issues).
Proof.
  induction issues as [|x l IH]; simpl; [constructor|].
  by apply insert_desc_sorted.
Qed.

Lemma prioritize_stable (k : Issue) (issues : list Issue) :
  List.filter (same_key k) (_prioritize_issues issues) =
  List.filter (same_key k) issues.
Proof.
  induction issues as [|x l IH]; [done|]. cbn [_prioritize_issues foldr].
  rewrite insert_desc_filter. cbn [List.filter].
  fold (_prioritize_issues l). by rewrite IH.
Qed.

Lemma prioritize_sorted_id (issues : list Issue) :
  StronglySorted precedes issues → _prioritize_issues issues = issues.
Proof.
  induction 1 as [|x l Hl IH Hx]; [done|].
  cbn [_prioritize_issues foldr]. fold (_prioritize_issues l). rewrite IH.
  destruct l as [|y l]; [done|]. cbn [insert_desc].
  apply Forall_inv in Hx. apply key_lt_false in Hx. by rewrite Hx.
Qed.

Lemma prioritize_Forall (P : Issue → Prop) (issues : list Issue) :
  Forall P issues → Forall P (_prioritize_issues issues).
Proof. intros H. by rewrite prioritize_perm. Qed.

(** A list has at most one arrangement that is in descending key order
    and keeps exact ties in their original order: whatever stable sorting
    algorithm runs, the result is the one [_prioritize_issues] computes. *)
Lemma stable_sorted_unique (l1 l2 : list Issue) :
  StronglySorted precedes l1 → StronglySorted precedes l2 →
  Permutation l1 l2 →
  (∀ k, List.filter (same_key k) l1 = List.filter (same_key k) l2) →
  l1 = l2.
Proof.
  intros H1. revert l2.
  induction H1 as [|x l1 Hs1 IH Hx]; intros l2 H2 Hp Hf.
  - by apply Permutation_nil in Hp.
  - destruct H2 as [|y l2 Hs2 Hy]; [by symmetry in Hp; apply Permutation_nil_cons in Hp|].
    assert (Hxy : precedes x y).
    { rewrite Forall_forall in Hx.
      assert (Hin : y ∈ x :: l1) by (rewrite Hp; left).
      apply elem_of_cons in Hin as [->|Hin]; [|by auto].
      right. split; [done | apply Qle_refl]. }
    assert (Hyx : precedes y x).
    { rewrite Forall_forall in Hy.
      assert (Hin : x ∈ y :: l2) by (rewrite <- Hp; left).
      apply elem_of_cons in Hin as [->|Hin]; [|by auto].
      right. split; [done | apply Qle_refl]. }
    assert (Exy : same_key x y = true).
    { unfold same_key, precedes in *. apply andb_true_iff.
      rewrite Z.eqb_eq, Qeq_bool_iff.
      destruct Hxy as [?|[? ?]], Hyx as [?|[? ?]]; try lia.
      split; [done | by apply Qle_antisym]. }
    assert (Exx : same_key x x = true).
    { unfold same_key. rewrite Z.eqb_refl. by apply Qeq_bool_iff. }
    pose proof (Hf x) as Hfx. cbn [List.filter] in Hfx.
    rewrite Exx, Exy in Hfx. injection Hfx as <- _.
    f_equal. apply IH; [done | by apply Permutation_cons_inv in Hp |].
    intros k. specialize (Hf k). cbn [List.filter] in Hf.
    destruct (same_key k x); [by injection Hf | done].
Qed.

Lemma insert_desc_app_recognized (x : Issue) (l1 l2 : list Issue) :
  recognized x = true → Forall (λ y, recognized y = false) l2 →
  insert_desc x (l1 ++ l2) = insert_desc x l1 ++ l2.
Proof.
  intros Hx H2. induction l1 as [|a l1 IH]; simpl.
  - destruct H2 as [|b l2 Hb _]; [done|]. simpl.
    apply severity_rank_recognized in Hx.
    apply severity_rank_unrecognized in Hb.
    assert (E : key_lt x b = false); [|by rewrite E].
    apply key_lt_false. left. lia.
  - destruct (key_lt x a); [by rewrite IH | done].
Qed.

Lemma insert_desc_app_unrecognized (x : Issue) (l1 l2 : list Issue) :
  recognized x = false → Forall (λ y, recognized y = true) l1 →
  insert_desc x (l1 ++ l2) = l1 ++ insert_desc x l2.
Proof.
  intros Hx. induction 1 as [|a l1 Ha _ IH]; simpl; [done|].
  apply severity_rank_unrecognized in Hx.
  apply severity_rank_recognized in Ha.
  assert (E : key_lt x a = true); [|by rewrite E, IH].
  unfold key_lt. destruct (Z.eqb_spec (severity_rank x) (severity_rank a)); [lia|].
  apply Z.ltb_lt. lia.
Qed.

Lemma Forall_filter_bool {A} (f : A → bool) (l : list A) :
  Forall (λ y, f y = true) (List.filter f l).
Proof.
  induction l as [|a l IH]; simpl; [constructor|].
  destruct (f a) eqn:E; [by constructor | done].
Qed.

(** C1. For every list of issues, prioritisation returns a permutation of
    the list in descending order of (severity rank, confidence), the rank
    being read from the table critical 4, high 3, medium 2, low 1; issues
    whose keys tie exactly keep their original relative order; and
    prioritising a prioritised list changes nothing. *)
Theorem prioritize_sorted_stable_idempotent (issues : list Issue) :
  (∀ x, severity_rank x = spec_rank (severity x)) ∧
  Permutation (_prioritize_issues issues) issues ∧
  StronglySorted precedes (_prioritize_issues issues) ∧
  (∀ k, List.filter (same_key k) (_prioritize_issues issues) =
        List.filter (same_key k) issues) ∧
  _prioritize_issues (_prioritize_issues issues) = _prioritize_issues issues.
Proof.
  split; [exact severity_rank_table|].
  split; [apply prioritize_perm|].
  split; [apply prioritize_sorted|].
  split; [intros k; apply prioritize_stable|].
  apply prioritize_sorted_id, prioritize_sorted.
Qed.

Lemma filter_all {A} (f : A → bool) (l : list A) :
  forallb f l = true → List.filter f l = l.
Proof.
  induction l as [|a l IH]; simpl; [done|].
  intros [Ha Hl]%andb_true_iff. rewrite Ha. by rewrite IH.
Qed.

Lemma filter_none {A} (f : A → bool) (l : list A) :
  forallb (λ a, negb (f a)) l = true → List.filter f l = [].
Proof.
  induction l as [|a l IH]; simpl; [done|].
  intros [Ha Hl]%andb_true_iff. apply negb_true_iff in Ha. rewrite Ha. auto.
Qed.

Lemma Forall_forallb {A} (f : A → bool) (l : list A) :
  Forall (λ a, f a = true) l → forallb f l = true.
Proof.
  induction 1 as [|a l Ha _ IH]; [done|]. simpl. by rewrite Ha, IH.
Qed.

Lemma prioritize_unrecognized_split (issues : list Issue) :
  _prioritize_issues issues =
    _prioritize_issues (List.filter recognized issues) ++
    _prioritize_issues (List.filter (λ x, negb (recognized x)) issues).
Proof.
  induction issues as [|x l IH]; [done|].
  cbn [_prioritize_issues foldr List.filter].
  fold (_prioritize_issues l). rewrite IH.
  destruct (recognized x) eqn:Hx; cbn [negb].
  - apply insert_desc_app_recognized; [done|].
    apply prioritize_Forall. eapply Forall_impl; [apply Forall_filter_bool|].
    intros y Hy. by apply negb_true_iff.
  - apply insert_desc_app_unrecognized; [done|].
    apply prioritize_Forall, Forall_filter_bool.
Qed.

(** C9. A severity outside critical, high, medium, low has rank 0, and
    prioritisation, which is total, keeps every issue of the list and
    puts every issue of such a severity behind all issues of a
    recognised severity: the result is a rearrangement of the list that
    consists of the recognised issues, in the order prioritisation
    gives them on their own, followed by the unrecognised ones; whatever
    follows an unrecognised issue in the result is unrecognised. *)
Theorem prioritize_unrecognized_last (issues : list Issue) :
  Permutation (_prioritize_issues issues) issues ∧
  StronglySorted precedes (_prioritize_issues issues) ∧
  Forall (λ x, severity_rank x = 0)
         (List.filter (λ x, negb (recognized x)) issues) ∧
  Forall (λ x, 1 <= severity_rank x)
         (List.filter recognized issues) ∧
  _prioritize_issues issues =
    _prioritize_issues (List.filter recognized issues) ++
    _prioritize_issues (List.filter (λ x, negb (recognized x)) issues) ∧
  Permutation (_prioritize_issues (List.filter recognized issues))
              (List.filter recognized issues) ∧
  Permutation (_prioritize_issues (List.filter (λ x, negb (recognized x)) issues))
              (List.filter (λ x, negb (recognized x)) issues) ∧
  List.filter recognized (_prioritize_issues issues) =
    _prioritize_issues (List.filter recognized issues) ∧
  (∀ front x back,
     _prioritize_issues issues = front ++ x :: back →
     recognized x = false → Forall (λ y, recognized y = false) back).
Proof.
  assert (Hr : Forall (λ x, recognized x = true)
                 (_prioritize_issues (List.filter recognized issues)))
    by apply prioritize_Forall, Forall_filter_bool.
  assert (Hu : Forall (λ x, recognized x = false)
                 (_prioritize_issues
                    (List.filter (λ x, negb (recognized x)) issues))).
  { apply prioritize_Forall. eapply Forall_impl; [apply Forall_filter_bool|].
    intros y Hy. by apply negb_true_iff. }
  split; [apply prioritize_perm|].
  split; [apply prioritize_sorted|].
  split.
  { eapply Forall_impl; [apply Forall_filter_bool|].
    intros x Hx. apply severity_rank_unrecognized. by apply negb_true_iff. }
  split.
  { eapply Forall_impl; [apply Forall_filter_bool|].
    intros x Hx. by apply severity_rank_recognized. }
  split; [apply prioritize_unrecognized_split|].
  split; [apply prioritize_perm|].
  split; [apply prioritize_perm|].
  split.
  - rewrite prioritize_unrecognized_split at 1.
    rewrite List.filter_app.
    rewrite (filter_all recognized
               (_prioritize_issues (List.filter recognized issues)))
      by (by apply Forall_forallb).
    rewrite (filter_none recognized
               (_prioritize_issues
                  (List.filter (λ x, negb (recognized x)) issues))).
    + by rewrite app_nil_r.
    + apply Forall_forallb.
      eapply Forall_impl; [exact Hu|]. intros y Hy. by rewrite Hy.
  - intros front x back E Hx.
    rewrite prioritize_unrecognized_split in E.
    revert front E.
    induction Hr as [|r rs Hrec _ IH]; intros front E.
    + cbn [app] in E. rewrite E in Hu.
      apply Forall_app in Hu as [_ Hu]. by apply Forall_cons in Hu as [_ ?].
    + destruct front as [|f front]; cbn [app] in E.
      * injection E as -> _. congruence.
      * injection E as _ E. by apply (IH front).
Qed.

End Prioritization.

(** ** Rounding *)

Section Rounding.





End Rounding.

(** ** Confidence scoring *)

Section Confidence.






Lemma moderate_finite (v : value) : moderate v → finite v.
Proof.
  intros (x & Hx & Hb). destruct v as [|b|n|y| | |]; try done.
  injection Hx as <-. apply Qabs_Qle_condition in Hb as [Hl Hu].
  unfold Qle in Hl, Hu. simpl in Hl, Hu. unfold finite.
  assert (1000000 < float_range) by (by vm_compute). lia.
Qed.




End Confidence.

(** ** The builtins on well-formed data *)

Section Builtins.

Lemma number_numeric (v : value) : numeric v → number v = Ok (num v).
Proof. intros [x Hx]. unfold number, num. by rewrite Hx. Qed.

Lemma as_int_num (v : value) (n : Z) :
  as_int v = Some n → numeric v ∧ (num v == inject_Z n)%Q.
Proof.
  destruct v as [|[]| | | | |]; intros [= <-]; (split; [by eexists | done]).
Qed.

Lemma num_add_numeric (a b : value) :
  numeric a → numeric b →
  ∃ v, num_add a b = Ok v ∧ numeric v ∧ (num v == num a + num b)%Q.
Proof.
  intros Ha Hb. unfold num_add.
  destruct (as_int a) as [x|] eqn:Ea, (as_int b) as [y|] eqn:Eb.
  1: { apply as_int_num in Ea as [_ Ea], Eb as [_ Eb].
       eexists. split; [done|]. split; [by eexists|].
       rewrite Ea, Eb. unfold num. cbn [as_num default].
       by rewrite inject_Z_plus. }
  all: destruct Ha as [p Hp], Hb as [q Hq]; rewrite Hp, Hq;
    eexists; (split; [done|]); (split; [by eexists|]);
    unfold num; rewrite Hp, Hq; reflexivity.
Qed.

Lemma sum_from_numeric (l : list value) (acc : value) :
  numeric acc → Forall numeric l →
  ∃ v, sum_from acc l = Ok v ∧ numeric v ∧
       (num v == num acc + Qsum (map num l))%Q.
Proof.
  intros Hacc Hl. revert acc Hacc.
  induction Hl as [|x l Hx Hl IH]; intros acc Hacc; simpl.
  - exists acc. split; [done|]. split; [done|]. ring.
  - destruct (num_add_numeric acc x Hacc Hx) as (v & Ev & Hv & Hsum).
    rewrite Ev. simpl.
    destruct (IH v Hv) as (w & Ew & Hw & Hsum').
    exists w. split; [done|]. split; [done|].
    rewrite Hsum', Hsum. ring.
Qed.

Lemma sum_numeric (l : list value) :
  Forall numeric l →
  ∃ v, sum l = Ok v ∧ numeric v ∧ (num v == Qsum (map num l))%Q.
Proof.
  intros Hl.
  destruct (sum_from_numeric l (VInt 0)) as (v & Ev & Hv & Hsum);
    [by eexists | done |].
  exists v. split; [done|]. split; [done|]. rewrite Hsum.
  unfold num. simpl. ring.
Qed.

(** A comprehension over records whose condition and expression do not
    raise is a filter followed by a map. *)
Lemma comprehension_records {B} (expr : value → result B)
    (cond : value → result bool) (f : dict → B) (p : dict → bool)
    (records : list dict) :
  (∀ d, cond (VDict d) = Ok (p d)) →
  Forall (λ d, p d = true → expr (VDict d) = Ok (f d)) records →
  comprehension expr cond (map VDict records) =
  Ok (map f (List.filter p records)).
Proof.
  intros Hc. induction 1 as [|d l Hd _ IH]; simpl; [done|].
  rewrite Hc. simpl. destruct (p d); [|done].
  rewrite Hd by done. simpl. by rewrite IH.
Qed.

End Builtins.

(** ** Build performance *)

Section BuildPerformance.

Lemma build_durations (builds : list dict) :
  well_formed_builds builds →
  comprehension (λ b, get b "duration" (VInt 0)) (status_is "success")
    (map VDict builds) =
  Ok (map duration_of (List.filter succeeded builds)).
Proof.
  intros H. apply comprehension_records; [done|].
  eapply Forall_impl; [exact H|]. done.
Qed.

Lemma build_failures (builds : list dict) :
  comprehension Ok (status_is "failed") (map VDict builds) =
  Ok (map VDict (List.filter has_failed builds)).
Proof. apply comprehension_records; [done|]. by apply Forall_true. Qed.

Lemma well_formed_successful (builds : list dict) :
  well_formed_builds builds →
  Forall numeric (map duration_of (List.filter succeeded builds)).
Proof.
  induction 1 as [|d l Hd _ IH]; simpl; [constructor|].
  destruct (succeeded d) eqn:E; [|done]. constructor; auto.
Qed.

Lemma len_map {A B} (f : A → B) (l : list A) : len (map f l) = len l.
Proof. unfold len. by rewrite length_map. Qed.

Lemma len_pos {A} (l : list A) : l ≠ [] → 0 < len l.
Proof. destruct l; [done|]. unfold len. simpl. lia. Qed.

(** The build-performance check on well-formed records. *)
Lemma analyze_build_performance_spec (builds : list dict) :
  well_formed_builds builds →
  ∃ avg, (avg == average (successful_durations builds))%Q ∧
    _analyze_build_performance (VList (map VDict builds)) =
    Ok ((if bool_decide (successful_durations builds ≠ []) &&
            Qltb 600 (average (successful_durations builds))
         then [slow_builds_issue avg (len (successful_durations builds))]
         else []) ++
        (if Qltb 0.15 (build_failure_rate builds)
         then [build_failure_issue (build_failure_rate builds)
                 (failed_count builds) (len builds)]
         else [])).
Proof.
  intros Hwf. unfold _analyze_build_performance.
  destruct builds as [|b builds'] eqn:Eb.
  { exists 0%Q. split; [done|]. done. }
  rewrite <- Eb in *. assert (Hne : builds ≠ []) by (by rewrite Eb).
  replace (truthy (VList (map VDict builds))) with true by (by rewrite Eb).
  cbn [negb iter mbind result_bind].
  rewrite build_durations by done. cbn [mbind result_bind].
  rewrite build_failures. cbn [mbind result_bind].
  rewrite !len_map.
  assert (Hpos : (0 <? len builds) = true) by (apply Z.ltb_lt; by apply len_pos).
  rewrite Hpos. fold (failed_count builds). fold (build_failure_rate builds).
  unfold successful_durations.
  destruct (List.filter succeeded builds) as [|d ds] eqn:Ed.
  { exists 0%Q. split; [done|]. simpl.
    by destruct (Qltb 0.15 (build_failure_rate builds)). }
  rewrite <- Ed.
  destruct (sum_numeric (map duration_of (List.filter succeeded builds)))
    as (total & Et & Ht & Hsum); [by apply well_formed_successful|].
  replace (map duration_of (List.filter succeeded builds))
    with (duration_of d :: map duration_of ds) at 1 by (by rewrite Ed).
  cbn [mbind result_bind]. rewrite Et. cbn [mbind result_bind].
  unfold truediv. rewrite (number_numeric total Ht). cbn [mbind result_bind].
  rewrite !len_map.
  assert (Hn : (len (List.filter succeeded builds) =? 0) = false).
  { apply Z.eqb_neq. rewrite Ed. unfold len. simpl. lia. }
  rewrite Hn. cbn [mbind result_bind].
  exists (num total / inject_Z (len (List.filter succeeded builds)))%Q.
  assert (Havg : (num total / inject_Z (len (List.filter succeeded builds)) ==
                  average (map (λ d, num (duration_of d))
                               (List.filter succeeded builds)))%Q).
  { unfold average. rewrite len_map, Hsum, map_map. reflexivity. }
  split; [exact Havg|].
  rewrite bool_decide_true by (by rewrite Ed). cbn [andb].
  unfold slow_builds_threshold.
  rewrite (Qltb_proper 600 _ 600 _ (Qeq_refl _) Havg).
  rewrite Ed. cbn [map].
  destruct (Qltb 600 _); cbn [mbind result_bind];
    by destruct (Qltb 0.15 (build_failure_rate builds)).
Qed.






End BuildPerformance.

(** ** Test flakiness *)

Section TestReliability.

Lemma ratio_pos_den (f t : Z) : 0 < t → (ratio f t == f # Z.to_pos t)%Q.
Proof.
  intros Ht. unfold ratio.
  destruct t as [|t|t]; try lia.
  unfold Qeq, Qdiv, Qmult, Qinv, inject_Z. simpl. lia.
Qed.

Lemma ratio_gt (a : positive) (b : positive) (f t : Z) :
  0 < t → (Z.pos a # b < ratio f t)%Q ↔ Z.pos a * t < f * Z.pos b.
Proof.
  intros Ht. rewrite (ratio_pos_den f t Ht). unfold Qlt. simpl.
  rewrite Z2Pos.id by done. lia.
Qed.

Lemma ratio_lt (a : positive) (b : positive) (f t : Z) :
  0 < t → (ratio f t < Z.pos a # b)%Q ↔ f * Z.pos b < Z.pos a * t.
Proof.
  intros Ht. rewrite (ratio_pos_den f t Ht). unfold Qlt. simpl.
  rewrite Z2Pos.id by done. lia.
Qed.

(** A test is classified flaky exactly when it has at least two recorded
    runs and a failure ratio strictly between 0.1 and 0.9. *)
Lemma is_flaky_spec (passed failed : Z) :
  is_flaky passed failed = true ↔
  2 <= passed + failed ∧
  (0.1 < ratio failed (passed + failed))%Q ∧
  (ratio failed (passed + failed) < 0.9)%Q.
Proof.
  unfold is_flaky. rewrite !andb_true_iff, !Z.ltb_lt, !Qltb_lt. split.
  - intros (((H1 & H2) & H3) & H4 & H5). split; [lia | done].
  - intros (H1 & H2 & H3).
    assert (Ht : 0 < passed + failed) by lia.
    pose proof H2 as H2'. pose proof H3 as H3'.
    apply (ratio_gt 1 10 _ _ Ht) in H2'.
    apply (ratio_lt 9 10 _ _ Ht) in H3'.
    repeat split; try done; lia.
Qed.

Lemma distinct_elem (s : string) (l : list string) : s ∈ distinct l ↔ s ∈ l.
Proof.
  induction l as [|a l IH]; simpl; [done|].
  rewrite !elem_of_cons, list_elem_of_In, filter_In, <- list_elem_of_In, IH.
  rewrite negb_true_iff, String.eqb_neq.
  destruct (decide (s = a)); tauto.
Qed.

Lemma distinct_NoDup (l : list string) : NoDup (distinct l).
Proof.
  induction l as [|a l IH]; simpl; constructor.
  - rewrite list_elem_of_In, filter_In, String.eqb_refl. by intros [_ ?].
  - apply NoDup_ListNoDup, List.NoDup_filter. by apply NoDup_ListNoDup.
Qed.

Lemma filter_snoc {A} (f : A → bool) (l : list A) (x : A) :
  List.filter f (l ++ [x]) = List.filter f l ++ (if f x then [x] else []).
Proof. by rewrite List.filter_app. Qed.

Lemma elem_of_filter_bool {A} (f : A → bool) (l : list A) (x : A) :
  x ∈ List.filter f l ↔ x ∈ l ∧ f x = true.
Proof. by rewrite !list_elem_of_In, filter_In. Qed.

Lemma distinct_snoc (l : list string) (s : string) :
  distinct (l ++ [s]) =
  if decide (s ∈ distinct l) then distinct l else distinct l ++ [s].
Proof.
  induction l as [|a l IH]; simpl; [done|]. rewrite IH.
  destruct (decide (s ∈ distinct l)) as [Hin|Hin];
    destruct (decide (s ∈ a :: _)) as [Hin'|Hin']; [done| | |].
  - destruct Hin'. destruct (String.eqb_spec s a) as [->|Hne]; [left|right].
    apply elem_of_filter_bool. split; [done|].
    by apply negb_true_iff, String.eqb_neq.
  - apply elem_of_cons in Hin' as [->|Hin'].
    + by rewrite filter_snoc, String.eqb_refl, app_nil_r.
    + apply elem_of_filter_bool in Hin' as [? _]. done.
  - rewrite filter_snoc.
    destruct (String.eqb_spec s a) as [->|Hne]; [destruct Hin'; left | done].
Qed.

Lemma entries_ext (cnt cnt' : string → Z * Z) (ns : list string) :
  (∀ s, s ∈ ns → cnt' s = cnt s) → entries cnt' ns = entries cnt ns.
Proof.
  intros H. unfold entries. apply map_ext_in. intros s Hs.
  by rewrite H by (by apply list_elem_of_In).
Qed.

(** Recording one execution of [s] in a table with distinct names. *)
Lemma record_entries (cnt cnt' : string → Z * Z) (s : string) (b : bool)
    (ns : list string) :
  NoDup ns →
  (∀ s', s' ≠ s → cnt' s' = cnt s') →
  cnt' s = bump_count b (cnt s) →
  (s ∉ ns → cnt s = (0, 0)) →
  record_result (VStr s) b (entries cnt ns) =
  entries cnt' (if decide (s ∈ ns) then ns else ns ++ [s]).
Proof.
  intros Hnd Hother Hs Hfresh. induction Hnd as [|a ns Ha Hnd IH]; simpl.
  - rewrite Hs, Hfresh by apply not_elem_of_nil. by destruct b.
  - destruct (cnt a) as [p f] eqn:Ea.
    destruct (String.eqb_spec a s) as [->|Hne].
    + rewrite decide_True by left. simpl. rewrite Hs, Ea.
      rewrite (entries_ext cnt cnt' ns); [by destruct b|].
      intros s' Hs'. apply Hother. by intros ->.
    + rewrite IH by (intros H; apply Hfresh; rewrite elem_of_cons;
                     intros [->|?]; done).
      destruct (decide (s ∈ ns)) as [Hin|Hin].
      * rewrite decide_True by (by right). simpl. by rewrite Hother, Ea.
      * rewrite decide_False by (rewrite elem_of_cons; intros [->|?]; done).
        simpl. by rewrite Hother, Ea.
Qed.

Lemma len_app {A} (l1 l2 : list A) : len (l1 ++ l2) = len l1 + len l2.
Proof. unfold len. rewrite length_app. lia. Qed.

Lemma counts_snoc (tests : list dict) (x : dict) (s : string) :
  counts (tests ++ [x]) s =
  if named s x then bump_count (passed x) (counts tests s) else counts tests s.
Proof.
  unfold counts, passes, failures, runs_of. rewrite filter_snoc.
  destruct (named s x); [|by rewrite app_nil_r].
  rewrite !filter_snoc, !len_app. unfold bump_count.
  destruct (passed x); simpl; f_equal; unfold len; simpl; lia.
Qed.

Lemma counts_fresh (tests : list dict) (s : string) :
  s ∉ test_names tests → counts tests s = (0, 0).
Proof.
  unfold test_names. rewrite distinct_elem. intros H.
  unfold counts, passes, failures, runs_of.
  assert (E : List.filter (named s) tests = []); [|by rewrite E].
  induction tests as [|d l IH]; simpl in *; [done|].
  unfold named at 1.
  destruct (recorded_name d) as [s'|] eqn:Ed; simpl in H.
  - rewrite not_elem_of_cons in H. destruct H as [Hne Hl].
    rewrite bool_decide_false by congruence. auto.
  - rewrite bool_decide_false by done. auto.
Qed.

Lemma spec_table_recorded (tests : list dict) (x : dict) (s : string) :
  recorded_name x = Some s →
  record_result (VStr s) (passed x) (spec_table tests) = spec_table (tests ++ [x]).
Proof.
  intros Hx. unfold spec_table, test_names.
  rewrite omap_app. simpl. rewrite Hx. simpl. rewrite distinct_snoc.
  apply record_entries.
  - apply distinct_NoDup.
  - intros s' Hne. rewrite counts_snoc. unfold named.
    by rewrite bool_decide_false by congruence.
  - rewrite counts_snoc. unfold named. by rewrite bool_decide_true.
  - apply counts_fresh.
Qed.

Lemma spec_table_skipped (tests : list dict) (x : dict) :
  recorded_name x = None → spec_table (tests ++ [x]) = spec_table tests.
Proof.
  intros Hx. unfold spec_table, test_names.
  rewrite omap_app. simpl. rewrite Hx. simpl. rewrite app_nil_r.
  apply entries_ext. intros s _. rewrite counts_snoc. unfold named.
  by rewrite bool_decide_false by congruence.
Qed.

Lemma tally_spec (pre rest : list dict) :
  string_named rest →
  tally (spec_table pre) (map VDict rest) = Ok (spec_table (pre ++ rest)).
Proof.
  intros H. revert pre. induction H as [|x rest Hx _ IH]; intros pre.
  - by rewrite app_nil_r.
  - cbn [map tally get mbind result_bind]. fold (name_of x).
    replace (pre ++ x :: rest) with ((pre ++ [x]) ++ rest)
      by (by rewrite <- app_assoc).
    destruct (truthy (name_of x)) eqn:Et.
    + destruct (Hx eq_refl) as [s Hs]. rewrite Hs in *.
      cbn [hashable mbind result_bind]. fold (status_of x). fold (passed x).
      rewrite spec_table_recorded; [apply IH|].
      unfold recorded_name. rewrite Hs. simpl in Et.
      by destruct (String.eqb s "").
    + rewrite <- IH. f_equal. symmetry. apply spec_table_skipped.
      unfold recorded_name. destruct (name_of x); try done.
      simpl in Et. by destruct (String.eqb s "").
Qed.

Lemma flaky_of_entries (cnt : string → Z * Z) (ns : list string) :
  flaky_of (entries cnt ns) =
  map (λ s, (VStr s, ratio (cnt s).2 ((cnt s).1 + (cnt s).2)))
      (List.filter (λ s, is_flaky (cnt s).1 (cnt s).2) ns).
Proof.
  induction ns as [|s ns IH]; [done|].
  cbn [entries map flaky_of List.filter]. fold (entries cnt ns). rewrite IH.
  destruct (cnt s) as [p f] eqn:E. cbn [fst snd].
  destruct (is_flaky p f); [|done]. cbn [map]. by rewrite E.
Qed.

Lemma strings_of_strings (l : list string) : strings_of (map VStr l) = Ok l.
Proof. induction l as [|s l IH]; simpl; [done|]. by rewrite IH. Qed.

(** The test-reliability check on well-formed records. *)
Lemma analyze_test_reliability_spec (tests : list dict) :
  string_named tests →
  _analyze_test_reliability (VList (map VDict tests)) =
  Ok (match flaky_names tests with
      | [] => []
      | _ =>
          [flaky_tests_issue
             (map (λ s, (VStr s, failure_ratio tests s)) (flaky_names tests))
             (str_join ", " (take 3 (flaky_names tests)))]
      end).
Proof.
  intros H. unfold _analyze_test_reliability. cbn [iter mbind result_bind].
  change (@nil (value * (Z * Z))) with (spec_table []).
  rewrite tally_spec by done. cbn [mbind result_bind app].
  unfold spec_table. rewrite flaky_of_entries. cbn [counts fst snd].
  fold (flaky_names tests).
  destruct (flaky_names tests) as [|s l] eqn:E; [done|]. rewrite <- E.
  replace (map _ (flaky_names tests)) with
    (map (λ s, (VStr s, failure_ratio tests s)) (flaky_names tests)) by done.
  rewrite E at 1. cbn [map].
  unfold join. rewrite firstn_map, map_map. cbn [fst].
  rewrite strings_of_strings. cbn [mbind result_bind]. by rewrite E.
Qed.

(** C4. On well-formed test records the flakiness check groups the
    executions by test name, counting passes and failures per name in
    order of first occurrence; a test is flaky exactly when it has at
    least two runs and a failure ratio strictly between 0.1 and 0.9; when
    there is a flaky test exactly one high/reliability issue of confidence
    0.85 is returned, whose recommendation lists the first three flaky
    names, and otherwise none. A test with 6 passes and 4 failures is
    flaky and yields the issue; a test with 10 passes and no failure, or
    the reverse, is not. *)
Theorem test_flakiness_check (tests : list dict) (Hwf : string_named tests) :
  (∀ p f, is_flaky p f = true ↔
          2 <= p + f ∧ (0.1 < ratio f (p + f))%Q ∧ (ratio f (p + f) < 0.9)%Q) ∧
  tally [] (map VDict tests) = Ok (spec_table tests) ∧
  _analyze_test_reliability (VList (map VDict tests)) =
    Ok (match flaky_names tests with
        | [] => []
        | _ =>
            [flaky_tests_issue
               (map (λ s, (VStr s, failure_ratio tests s)) (flaky_names tests))
               (str_join ", " (take 3 (flaky_names tests)))]
        end) ∧
  (∀ flaky names,
     severity (flaky_tests_issue flaky names) = "high" ∧
     category (flaky_tests_issue flaky names) = "reliability" ∧
     confidence (flaky_tests_issue flaky names) = 0.85%Q ∧
     recommendation (flaky_tests_issue flaky names) =
       "Investigate and fix flaky tests: " +:+ names +:+
       (if 3 <? len flaky then "..." else "") +:+
       ". Common causes: timing issues, shared state, external dependencies") ∧
  is_flaky 6 4 = true ∧ is_flaky 10 0 = false ∧ is_flaky 0 10 = false ∧
  _analyze_test_reliability (VList (map VDict six_four)) =
    Ok [flaky_tests_issue [(VStr "test_login", 0.4%Q)] "test_login"] ∧
  _analyze_test_reliability (VList (map VDict ten_zero)) = Ok [].
Proof.
  split; [exact is_flaky_spec|].
  split; [exact (tally_spec [] tests Hwf)|].
  split; [by apply analyze_test_reliability_spec|].
  split; [done|].
  repeat split; vm_compute; reflexivity.
Qed.

Lemma test_flakiness_check_witness :
  string_named six_four ∧
  _analyze_test_reliability (VList (map VDict six_four)) =
    Ok [flaky_tests_issue
          (map (λ s, (VStr s, failure_ratio six_four s)) ["test_login"])
          "test_login"].
Proof.
  assert (H : string_named six_four).
  { unfold string_named, six_four. apply Forall_app.
    split; apply Forall_replicate; intros _; by eexists. }
  split; [exact H|].
  destruct (test_flakiness_check six_four H) as (_ & _ & Hc & _).
  exact Hc.
Defined.

End TestReliability.

(** ** The correlator *)

Section Correlator.

Lemma is_build_failure_spec (i : Issue) :
  is_build_failure i = true ↔ build_kind i.
Proof.
  unfold is_build_failure, build_kind, title_mentions. cbn [existsb].
  rewrite andb_true_iff, orb_false_r, orb_true_iff, !String.eqb_eq. done.
Qed.

Lemma filter_nil_not_Exists {A} (f : A → bool) (P : A → Prop) (l : list A) :
  (∀ x, f x = true ↔ P x) → List.filter f l = [] ↔ ¬ Exists P l.
Proof.
  intros H. induction l as [|a l IH]; simpl.
  - split; [intros _ E; inversion E | done].
  - rewrite Exists_cons. destruct (f a) eqn:E.
    + split; [done|]. intros []. left. by apply H.
    + rewrite IH. split; [|tauto].
      intros Hl [Ha|Hl']; [|done]. apply H in Ha. congruence.
Qed.

(** C6. The cascading-failure check returns exactly one issue, critical,
    of category reliability and confidence 0.85, whose metadata records
    how many issues of each kind there are, when the list holds at least
    one build-titled issue of high or critical severity and at least one
    deployment-titled issue; it returns nothing when either kind is
    missing. *)
Theorem detect_cascading_failures_spec (issues : list Issue) :
  let builds := len (List.filter is_build_failure issues) in
  let deployments := len (List.filter is_deployment_failure issues) in
  _detect_cascading_failures issues =
    (if decide (Exists build_kind issues ∧ Exists deployment_kind issues)
     then [cascading_issue builds deployments]
     else []) ∧
  severity (cascading_issue builds deployments) = "critical" ∧
  category (cascading_issue builds deployments) = "reliability" ∧
  confidence (cascading_issue builds deployments) = 0.85%Q ∧
  metadata (cascading_issue builds deployments) =
    VDict [("build_failures", VInt builds);
           ("deployment_failures", VInt deployments)] ∧
  builds = len (List.filter (λ i, bool_decide (build_kind i)) issues) ∧
  deployments = len (List.filter (λ i, bool_decide (deployment_kind i)) issues).
Proof.
  intros builds deployments. split; [|repeat split].
  - unfold _detect_cascading_failures. subst builds deployments.
    pose proof (filter_nil_not_Exists is_build_failure build_kind issues
                  is_build_failure_spec) as Hb.
    pose proof (filter_nil_not_Exists is_deployment_failure deployment_kind
                  issues (λ i, reflexivity _)) as Hd.
    destruct (List.filter is_build_failure issues) as [|b bs];
      [rewrite decide_False; [done | intros [? _]; by apply Hb]|].
    destruct (List.filter is_deployment_failure issues) as [|d ds];
      [rewrite decide_False; [done | intros [_ ?]; by apply Hd]|].
    rewrite decide_True; [done|]. split.
    + destruct (decide (Exists build_kind issues)) as [|Hn]; [done|].
      by apply Hb in Hn.
    + destruct (decide (Exists deployment_kind issues)) as [|Hn]; [done|].
      by apply Hd in Hn.
  - subst builds. f_equal. apply filter_ext. intros i.
    apply eq_true_iff_eq. rewrite bool_decide_eq_true.
    apply is_build_failure_spec.
  - subst deployments. f_equal. apply filter_ext. intros i.
    apply eq_true_iff_eq. by rewrite bool_decide_eq_true.
Qed.

Lemma counted_ext (cnt cnt' : string → Z) (cs : list string) :
  (∀ c, c ∈ cs → cnt' c = cnt c) → counted cnt' cs = counted cnt cs.
Proof.
  intros H. unfold counted. apply map_ext_in. intros c Hc.
  by rewrite H by (by apply list_elem_of_In).
Qed.

Lemma bump_counted (cnt cnt' : string → Z) (c : string) (cs : list string) :
  NoDup cs →
  (∀ c', c' ≠ c → cnt' c' = cnt c') →
  cnt' c = cnt c + 1 →
  (c ∉ cs → cnt c = 0) →
  bump c (counted cnt cs) =
  counted cnt' (if decide (c ∈ cs) then cs else cs ++ [c]).
Proof.
  intros Hnd Hother Hc Hfresh. induction Hnd as [|a cs Ha Hnd IH]; simpl.
  - by rewrite Hc, Hfresh by apply not_elem_of_nil.
  - destruct (String.eqb_spec a c) as [->|Hne].
    + rewrite decide_True by left. simpl. rewrite Hc.
      rewrite (counted_ext cnt cnt' cs); [done|].
      intros c' Hc'. apply Hother. by intros ->.
    + rewrite IH by (intros H; apply Hfresh; rewrite elem_of_cons;
                     intros [->|?]; done).
      destruct (decide (c ∈ cs)) as [Hin|Hin].
      * rewrite decide_True by (by right). simpl. by rewrite Hother.
      * rewrite decide_False by (rewrite elem_of_cons; intros [->|?]; done).
        simpl. by rewrite Hother.
Qed.

Lemma count_in_snoc (issues : list Issue) (x : Issue) (c : string) :
  count_in c (issues ++ [x]) =
  count_in c issues + (if String.eqb (category x) c then 1 else 0).
Proof.
  unfold count_in. rewrite filter_snoc, len_app.
  by destruct (String.eqb (category x) c).
Qed.

Lemma count_in_fresh (issues : list Issue) (c : string) :
  c ∉ categories issues → count_in c issues = 0.
Proof.
  unfold categories. rewrite distinct_elem. intros H. unfold count_in.
  assert (E : List.filter (λ i, String.eqb (category i) c) issues = []);
    [|by rewrite E].
  induction issues as [|i l IH]; simpl in *; [done|].
  rewrite not_elem_of_cons in H. destruct H as [Hne Hl].
  destruct (String.eqb_spec (category i) c); [congruence | auto].
Qed.

Lemma category_counts_from (pre rest : list Issue) :
  foldl (λ counts issue, bump (category issue) counts)
        (counted (λ c, count_in c pre) (categories pre)) rest =
  counted (λ c, count_in c (pre ++ rest)) (categories (pre ++ rest)).
Proof.
  revert pre. induction rest as [|x rest IH]; intros pre; simpl.
  - by rewrite app_nil_r.
  - replace (pre ++ x :: rest) with ((pre ++ [x]) ++ rest)
      by (by rewrite <- app_assoc).
    rewrite <- IH. f_equal. unfold categories at 2.
    rewrite map_app. simpl. rewrite distinct_snoc.
    apply bump_counted.
    + apply distinct_NoDup.
    + intros c' Hne. rewrite count_in_snoc.
      destruct (String.eqb_spec (category x) c'); [congruence | lia].
    + by rewrite count_in_snoc, String.eqb_refl.
    + apply count_in_fresh.
Qed.

Lemma category_counts_spec (issues : list Issue) :
  category_counts issues =
  counted (λ c, count_in c issues) (categories issues).
Proof. apply (category_counts_from [] issues). Qed.

Lemma detect_systemic_closed (issues : list Issue) :
  _detect_systemic_issues issues =
  map (λ c, systemic_issue c (count_in c issues))
      (List.filter (λ c, 5 <=? count_in c issues) (categories issues)).
Proof.
  unfold _detect_systemic_issues. rewrite category_counts_spec.
  generalize (categories issues). intros cs.
  induction cs as [|c cs IH]; [done|].
  cbn [counted map omap list_omap List.filter].
  fold (counted (λ c, count_in c issues) cs).
  change (list_omap ?f ?l) with (omap f l). rewrite IH.
  by destruct (5 <=? count_in c issues).
Qed.

Lemma NoDup_count (c : string) (cs : list string) :
  NoDup cs →
  length (List.filter (λ c', String.eqb c' c) cs) =
  if decide (c ∈ cs) then 1%nat else 0%nat.
Proof.
  induction 1 as [|a cs Ha Hnd IH]; simpl; [done|].
  destruct (String.eqb_spec a c) as [->|Hne].
  - rewrite decide_True by left. simpl. rewrite IH.
    by rewrite decide_False.
  - rewrite IH. destruct (decide (c ∈ cs)).
    + by rewrite decide_True by (by right).
    + by rewrite decide_False by (rewrite elem_of_cons; intros [->|?]; done).
Qed.

Lemma count_in_pos_category (issues : list Issue) (c : string) :
  0 < count_in c issues → c ∈ categories issues.
Proof.
  intros H. destruct (decide (c ∈ categories issues)) as [|Hn]; [done|].
  apply count_in_fresh in Hn. lia.
Qed.

(** C7. The systemic check counts the issues of each category over the
    whole list and returns, for every category counted 5 times or more,
    exactly one issue: of high severity, of that category, of confidence
    0.75; each such category gets its own issue, and a category counted
    fewer than 5 times gets none. Five issues of category performance
    yield the single systemic issue for performance. *)
Theorem detect_systemic_issues_spec (issues : list Issue) :
  _detect_systemic_issues issues =
    map (λ c, systemic_issue c (count_in c issues))
        (List.filter (λ c, 5 <=? count_in c issues) (categories issues)) ∧
  (∀ c, length (List.filter (λ i, String.eqb (category i) c)
                            (_detect_systemic_issues issues)) =
        if decide (5 <= count_in c issues) then 1%nat else 0%nat) ∧
  Forall (λ i, severity i = "high" ∧ confidence i = 0.75%Q)
         (_detect_systemic_issues issues) ∧
  _detect_systemic_issues five_performance = [systemic_issue "performance" 5].
Proof.
  split; [apply detect_systemic_closed|]. split; [|split].
  - intros c. rewrite detect_systemic_closed.
    set (cs := List.filter _ (categories issues)).
    assert (Hnd : NoDup cs).
    { apply NoDup_ListNoDup, List.NoDup_filter, NoDup_ListNoDup, distinct_NoDup. }
    assert (E : List.filter (λ i, String.eqb (category i) c)
                  (map (λ c, systemic_issue c (count_in c issues)) cs) =
                map (λ c, systemic_issue c (count_in c issues))
                  (List.filter (λ c', String.eqb c' c) cs)).
    { clear Hnd. induction cs as [|a cs IH]; simpl; [done|].
      destruct (String.eqb a c); simpl; by rewrite IH. }
    rewrite E, length_map, NoDup_count by done.
    subst cs. destruct (decide (5 <= count_in c issues)) as [H5|H5].
    + rewrite decide_True; [done|]. apply elem_of_filter_bool.
      split; [apply count_in_pos_category; lia | by apply Z.leb_le].
    + rewrite decide_False; [done|]. rewrite elem_of_filter_bool.
      intros [_ H]. by apply Z.leb_le in H.
  - rewrite detect_systemic_closed. apply Forall_forall. intros i Hi.
    apply list_elem_of_In, in_map_iff in Hi as (c & <- & _). done.
  - vm_compute. reflexivity.
Qed.

End Correlator.

(** ** Model performance *)

Section ModelPerformance.

Lemma bind_ok {A B} (m : result A) (f : A → result B) (b : B) :
  m ≫= f = Ok b → ∃ a, m = Ok a ∧ f a = Ok b.
Proof. destruct m as [a|e]; [by exists a | done]. Qed.

Lemma with_keys_length (items : list value) (keyed : list (sort_key * value)) :
  with_keys items = Ok keyed → length keyed = length items.
Proof.
  revert keyed. induction items as [|x items IH]; intros keyed; simpl.
  - by intros [= <-].
  - intros (ts & _ & H)%bind_ok. apply bind_ok in H as (k & _ & H).
    apply bind_ok in H as (r & Hr & [= <-]). simpl. by rewrite (IH r).
Qed.

Lemma insert_asc_length (x : sort_key * value) (l s : list (sort_key * value)) :
  insert_asc x l = Ok s → length s = S (length l).
Proof.
  revert s. induction l as [|y l IH]; intros s; simpl.
  - by intros [= <-].
  - intros (c & _ & H)%bind_ok. destruct c.
    + apply bind_ok in H as (r & Hr & [= <-]). simpl. by rewrite (IH r).
    + by injection H as <-.
Qed.

Lemma sort_asc_length (l s : list (sort_key * value)) :
  sort_asc l = Ok s → length s = length l.
Proof.
  revert s. induction l as [|x l IH]; intros s; simpl.
  - by intros [= <-].
  - intros (r & Hr & H)%bind_ok. apply insert_asc_length in H.
    by rewrite H, (IH r).
Qed.

Lemma sorted_by_timestamp_length (items sorted : list value) :
  sorted_by_timestamp items = Ok sorted → length sorted = length items.
Proof.
  unfold sorted_by_timestamp.
  intros (keyed & Hk & H)%bind_ok. apply bind_ok in H as (s & Hs & [= <-]).
  rewrite length_map, (sort_asc_length _ _ Hs). by apply with_keys_length.
Qed.

(** Sorting anything but records raises: the key function calls [get]. *)
Lemma with_keys_records (items : list value) (keyed : list (sort_key * value)) :
  with_keys items = Ok keyed → Forall (λ v, ∃ d, v = VDict d) items.
Proof.
  revert keyed. induction items as [|x items IH]; intros keyed; simpl.
  - constructor.
  - intros (ts & Hts & H)%bind_ok. apply bind_ok in H as (k & _ & H).
    apply bind_ok in H as (r & Hr & _).
    constructor; [|by eapply IH].
    destruct x; try done. by eexists.
Qed.

(** With at most five points the window before the most recent five is
    empty and the trend comparison is skipped. *)
Lemma degradation_check_short (sorted : list value) :
  (length sorted <= 5)%nat → degradation_check sorted = Ok [].
Proof.
  intros H. unfold degradation_check.
  destruct (2 <=? len sorted); [|done].
  assert (E10 : (10 <=? len sorted) = false) by (apply Z.leb_gt; unfold len; lia).
  rewrite E10. unfold but_last_n.
  replace (length sorted - 5)%nat with 0%nat by lia. by rewrite take_0.
Qed.

Lemma degradation_check_window (sorted : list value) (issues : list Issue) :
  degradation_check sorted = Ok issues → issues ≠ [] → (6 <= length sorted)%nat.
Proof.
  intros H Hne.
  destruct (decide (length sorted <= 5)%nat) as [Hs|Hs]; [|lia].
  rewrite degradation_check_short in H by done. by injection H as <-.
Qed.

Lemma latest_check_titles (sorted : list value) (issues : list Issue) :
  latest_check sorted = Ok issues → Forall (λ i, ¬ is_degradation i) issues.
Proof.
  unfold latest_check. destruct (last sorted) as [m|]; [|done].
  intros (accuracy & _ & H)%bind_ok. apply bind_ok in H as (f1_score & _ & H).
  apply bind_ok in H as (f1 & _ & H).
  destruct (Qltb f1 f1_score_threshold); injection H as <-;
    repeat constructor. done.
Qed.

Lemma analyze_model_performance_degradation (model_metrics : value)
    (issues : list Issue) :
  _analyze_model_performance model_metrics = Ok issues →
  Exists is_degradation issues →
  ∃ l, model_metrics = VList l ∧ (6 <= length l)%nat.
Proof.
  unfold _analyze_model_performance. intros H Hex.
  destruct (truthy model_metrics); cbn [negb] in H;
    [|injection H as <-; by apply Exists_nil in Hex].
  apply bind_ok in H as (n & Hn & H).
  destruct (n <? 2); [injection H as <-; by apply Exists_nil in Hex|].
  apply bind_ok in H as (items & Hitems & H).
  apply bind_ok in H as (sorted & Hsorted & H).
  apply bind_ok in H as (degradation & Hd & H).
  apply bind_ok in H as (latest & Hl & [= <-]).
  apply Exists_app in Hex as [Hex|Hex].
  2: { apply latest_check_titles in Hl. apply Exists_exists in Hex as (i & Hi & Ei).
       rewrite Forall_forall in Hl. by destruct (Hl i Hi). }
  assert (Hlen : (6 <= length items)%nat).
  { rewrite <- (sorted_by_timestamp_length _ _ Hsorted).
    apply (degradation_check_window _ _ Hd). intros ->. by apply Exists_nil in Hex. }
  assert (Hrec : Forall (λ v, ∃ d, v = VDict d) items).
  { unfold sorted_by_timestamp in Hsorted.
    apply bind_ok in Hsorted as (keyed & Hk & _). by eapply with_keys_records. }
  destruct model_metrics; try done; simpl in Hitems; injection Hitems as <-.
  - destruct (String.list_ascii_of_string s) as [|c cs]; [simpl in Hlen; lia|].
    apply Forall_inv in Hrec as [d Hd']. done.
  - eexists. split; [reflexivity | exact Hlen].
  - destruct d as [|[k v] d]; [simpl in Hlen; lia|].
    apply Forall_inv in Hrec as [d' Hd']. done.
Qed.

(** Case analysis of a computation that is known to return. *)
Ltac crack :=
  repeat first
    [ progress simplify_eq
    | match goal with
      | H : mbind _ ?m = Ok _ |- _ =>
          destruct m eqn:?; cbn [mbind result_bind] in H
      | H : (if ?b then _ else _) = Ok _ |- _ => destruct b eqn:?
      | H : match ?l with [] => _ | _ :: _ => _ end = Ok _ |- _ =>
          destruct l eqn:?
      end ].

Ltac titles :=
  repeat match goal with
         | |- context [if ?b then _ else _] => destruct b
         end;
  cbn [app]; repeat constructor; done.

Lemma analyze_training_titles (v : value) (issues : list Issue) :
  _analyze_training v = Ok issues → Forall (λ i, ¬ is_degradation i) issues.
Proof. unfold _analyze_training. intros H. crack; titles. Qed.

Lemma analyze_data_quality_titles (v : value) (issues : list Issue) :
  _analyze_data_quality v = Ok issues → Forall (λ i, ¬ is_degradation i) issues.
Proof. unfold _analyze_data_quality. intros H. crack; titles. Qed.

Lemma analyze_inference_titles (v : value) (issues : list Issue) :
  _analyze_inference v = Ok issues → Forall (λ i, ¬ is_degradation i) issues.
Proof. unfold _analyze_inference. intros H. crack; titles. Qed.

Lemma analyze_experiments_titles (v : value) (issues : list Issue) :
  _analyze_experiments v = Ok issues → Forall (λ i, ¬ is_degradation i) issues.
Proof. unfold _analyze_experiments. intros H. crack; titles. Qed.

(** What [analyze] returns is a rearrangement of what the five sub-checks
    return. *)
Lemma mlops_analyze_ok (data : dict) (issues : list Issue) :
  MLOpsAgent.analyze data = Ok issues →
  ∃ performance training quality inference experiments,
    _analyze_model_performance (dict_get data "model_metrics" (VList [])) =
      Ok performance ∧
    _analyze_training (dict_get data "training_runs" (VList [])) = Ok training ∧
    _analyze_data_quality (dict_get data "data_metrics" (VDict [])) = Ok quality ∧
    _analyze_inference (dict_get data "inference_metrics" (VDict [])) =
      Ok inference ∧
    _analyze_experiments (dict_get data "experiments" (VList [])) =
      Ok experiments ∧
    Permutation issues
      (performance ++ training ++ quality ++ inference ++ experiments).
Proof.
  unfold MLOpsAgent.analyze. intros H.
  apply bind_ok in H as (performance & Hp & H).
  apply bind_ok in H as (training & Ht & H).
  apply bind_ok in H as (quality & Hq & H).
  apply bind_ok in H as (inference & Hi & H).
  apply bind_ok in H as (experiments & He & [= <-]).
  exists performance, training, quality, inference, experiments.
  repeat (split; [done|]). apply prioritize_perm.
Qed.

Lemma mlops_analyze_degradation (data : dict) (issues : list Issue) :
  MLOpsAgent.analyze data = Ok issues →
  Exists is_degradation issues →
  ∃ l, dict_get data "model_metrics" (VList []) = VList l ∧ (6 <= length l)%nat.
Proof.
  intros H Hex.
  apply mlops_analyze_ok in H as (p & t & q & i & e & Hp & Ht & Hq & Hi & He & Hperm).
  rewrite Hperm in Hex.
  apply analyze_training_titles in Ht.
  apply analyze_data_quality_titles in Hq.
  apply analyze_inference_titles in Hi.
  apply analyze_experiments_titles in He.
  assert (Hrest : Forall (λ i, ¬ is_degradation i) (t ++ q ++ i ++ e)).
  { by repeat (apply Forall_app; split). }
  apply Exists_app in Hex as [Hex|Hex].
  - by apply (analyze_model_performance_degradation _ p).
  - apply Exists_exists in Hex as (x & Hx & Ex).
    rewrite Forall_forall in Hrest. by destruct (Hrest x Hx).
Qed.

(** C10. With two to five metric points the accuracy-degradation issue is
    never returned, by the model-performance check or by analyze, however
    far the accuracy falls: the window of points before the most recent
    five is empty and the trend comparison is skipped. Whenever the issue
    is returned there are at least six points, and with six it can be. *)
Theorem degradation_needs_six_points (data : dict) (points : list value)
    (Hsection : dict_get data "model_metrics" (VList []) = VList points)
    (Hlen : (2 <= length points <= 5)%nat) :
  Forall (λ i, ¬ is_degradation i) (emitted (MLOpsAgent.analyze data)) ∧
  Forall (λ i, ¬ is_degradation i)
         (emitted (_analyze_model_performance (VList points))) ∧
  (∀ sorted, sorted_by_timestamp points = Ok sorted →
             but_last_n 5 sorted = [] ∧ degradation_check sorted = Ok []) ∧
  (∀ data' issues,
     MLOpsAgent.analyze data' = Ok issues → Exists is_degradation issues →
     ∃ l, dict_get data' "model_metrics" (VList []) = VList l ∧
          (6 <= length l)%nat) ∧
  _analyze_model_performance (VList five_points) = Ok [] ∧
  Exists is_degradation (emitted (_analyze_model_performance (VList six_points))).
Proof.
  split; [|split; [|split; [|split; [|split]]]].
  - destruct (MLOpsAgent.analyze data) as [issues|] eqn:E; [|constructor].
    simpl. apply Forall_forall. intros i Hi Ei.
    destruct (mlops_analyze_degradation data issues E) as (l & Hl & H6).
    { apply Exists_exists. by exists i. }
    rewrite Hsection in Hl. injection Hl as <-. lia.
  - destruct (_analyze_model_performance (VList points)) as [issues|] eqn:E;
      [|constructor].
    simpl. apply Forall_forall. intros i Hi Ei.
    destruct (analyze_model_performance_degradation _ issues E) as (l & Hl & H6).
    { apply Exists_exists. by exists i. }
    injection Hl as <-. lia.
  - intros sorted Hs. apply sorted_by_timestamp_length in Hs.
    split; [|apply degradation_check_short; lia].
    unfold but_last_n. replace (length sorted - 5)%nat with 0%nat by lia.
    apply take_0.
  - exact mlops_analyze_degradation.
  - vm_compute. reflexivity.
  - vm_compute. apply Exists_cons_hd. reflexivity.
Qed.

Lemma degradation_needs_six_points_witness :
  let data := [("model_metrics", VList five_points)] in
  dict_get data "model_metrics" (VList []) = VList five_points ∧
  (2 <= length five_points <= 5)%nat ∧
  is_ok (MLOpsAgent.analyze data) = true ∧
  Forall (λ i, ¬ is_degradation i) (emitted (MLOpsAgent.analyze data)).
Proof.
  assert (H1 : dict_get [("model_metrics", VList five_points)] "model_metrics"
                 (VList []) = VList five_points) by reflexivity.
  assert (H2 : (2 <= length five_points <= 5)%nat) by (simpl; lia).
  split; [exact H1|]. split; [exact H2|]. split; [by vm_compute|].
  exact (proj1 (degradation_needs_six_points _ _ H1 H2)).
Defined.

(** *** The latest point *)

Lemma with_keys_spec (metrics : list dict) :
  Forall well_formed_point metrics →
  with_keys (map VDict metrics) = Ok (map keyed metrics).
Proof.
  induction 1 as [|d l [[s Hs] _] _ IH]; simpl; [done|].
  fold (timestamp_of d). unfold keyed at 1, ts. rewrite Hs. simpl.
  by rewrite IH.
Qed.

Lemma insert_asc_spec (x : dict) (l : list dict) :
  insert_asc (keyed x) (map keyed l) = Ok (map keyed (insert_ts x l)).
Proof.
  induction l as [|y l IH]; simpl; [done|].
  destruct (String.ltb (ts y) (ts x)); simpl; [by rewrite IH | done].
Qed.

Lemma sort_asc_spec (l : list dict) :
  sort_asc (map keyed l) = Ok (map keyed (sort_ts l)).
Proof.
  induction l as [|x l IH]; simpl; [done|].
  rewrite IH. simpl. apply insert_asc_spec.
Qed.

Lemma sorted_by_timestamp_spec (metrics : list dict) :
  Forall well_formed_point metrics →
  sorted_by_timestamp (map VDict metrics) = Ok (map VDict (sort_ts metrics)).
Proof.
  intros H. unfold sorted_by_timestamp. rewrite with_keys_spec by done.
  simpl. rewrite sort_asc_spec. simpl. by rewrite map_map.
Qed.

Lemma insert_ts_perm (x : dict) (l : list dict) :
  Permutation (insert_ts x l) (x :: l).
Proof.
  induction l as [|y l IH]; simpl; [done|].
  destruct (String.ltb (ts y) (ts x)); [|done].
  rewrite IH. apply perm_swap.
Qed.

Lemma sort_ts_perm (l : list dict) : Permutation (sort_ts l) l.
Proof.
  induction l as [|x l IH]; simpl; [done|].
  by rewrite insert_ts_perm, IH.
Qed.

Lemma string_ltb_leb (a b : string) : String.ltb a b = true → String.leb a b = true.
Proof. unfold String.ltb, String.leb. by destruct (String.compare a b). Qed.

Lemma string_ltb_false (a b : string) :
  String.ltb a b = false → String.leb b a = true.
Proof.
  unfold String.ltb, String.leb. rewrite (String.compare_antisym a b).
  by destruct (String.compare b a).
Qed.


Lemma string_leb_trans (a b c : string) :
  String.leb a b = true → String.leb b c = true → String.leb a c = true.
Proof.
  unfold String.leb.
  destruct (String.compare a b) eqn:Eab; [| |done].
  { apply String.compare_eq_iff in Eab as ->. done. }
  destruct (String.compare b c) eqn:Ebc; [| |done].
  { apply String.compare_eq_iff in Ebc as ->. by rewrite Eab. }
  intros _ _.
  apply String_as_OT.cmp_lt in Eab, Ebc.
  pose proof (String_as_OT.lt_trans _ _ _ Eab Ebc) as H.
  apply String_as_OT.cmp_lt in H. unfold String_as_OT.cmp in H. by rewrite H.
Qed.

Lemma insert_ts_sorted (x : dict) (l : list dict) :
  StronglySorted not_later l → StronglySorted not_later (insert_ts x l).
Proof.
  induction 1 as [|y l Hl IH Hy]; simpl.
  - repeat constructor.
  - destruct (String.ltb (ts y) (ts x)) eqn:E.
    + constructor; [done|].
      rewrite Forall_forall in Hy |- *. intros z Hz.
      rewrite insert_ts_perm in Hz.
      apply elem_of_cons in Hz as [->|Hz]; [by apply string_ltb_leb | auto].
    + apply string_ltb_false in E.
      constructor; [by constructor|].
      constructor; [done|].
      eapply Forall_impl; [exact Hy|]. intros z Hz.
      by eapply string_leb_trans.
Qed.

Lemma sort_ts_sorted (l : list dict) : StronglySorted not_later (sort_ts l).
Proof.
  induction l as [|x l IH]; simpl; [constructor|]. by apply insert_ts_sorted.
Qed.
















End ModelPerformance.

(** ** Malformed and missing input *)

Section Robustness.

Lemma truthy_records (l : list dict) :
  truthy (VList (map VDict l)) = bool_decide (l ≠ []).
Proof. by destruct l. Qed.

Lemma comprehension_select (p : dict → bool) (cond : value → result bool)
    (l : list dict) :
  (∀ d, cond (VDict d) = Ok (p d)) →
  comprehension Ok cond (map VDict l) = Ok (map VDict (List.filter p l)).
Proof. intros H. apply comprehension_records; [done|]. by apply Forall_true. Qed.

Lemma comprehension_field (field : string) (dflt : value) (l : list dict) :
  comprehension (λ v, get v field dflt) always (map VDict l) =
  Ok (map (λ d, dict_get d field dflt) l).
Proof.
  rewrite (comprehension_records _ _ (λ d, dict_get d field dflt) (λ _, true));
    [|done | by apply Forall_true].
  by rewrite filter_all by (by apply forallb_forall).
Qed.




(** *** Deployments *)


(** *** Resource usage *)



(** *** Security scans *)



(** *** Cluster health *)

Lemma names_of_records (l : list dict) :
  names_of (map VDict l) = Ok (map (λ d, dict_get d "name" VNone) l).
Proof. apply comprehension_field. Qed.









(** *** The whole batch *)


(** [analyze] returns only when each of the six sub-checks returns: an
    exception raised by a sub-check is not absorbed. *)
Lemma devops_analyze_ok (repr : value → string) (data : dict)
    (issues : list Issue) :
  DevOpsAgent.analyze repr data = Ok issues →
  ∃ builds tests deployments resources security cluster,
    _analyze_build_performance (dict_get data "builds" (VList [])) = Ok builds ∧
    _analyze_test_reliability (dict_get data "tests" (VList [])) = Ok tests ∧
    _analyze_deployments (dict_get data "deployments" (VList [])) =
      Ok deployments ∧
    _analyze_resource_usage (dict_get data "resources" (VDict [])) =
      Ok resources ∧
    _analyze_security (dict_get data "security_scans" (VList [])) =
      Ok security ∧
    _analyze_kubernetes repr (dict_get data "kubernetes" (VDict [])) =
      Ok cluster ∧
    Permutation issues
      (builds ++ tests ++ deployments ++ resources ++ security ++ cluster).
Proof.
  unfold DevOpsAgent.analyze. intros H.
  apply bind_ok in H as (b & Hb & H).
  apply bind_ok in H as (t & Ht & H).
  apply bind_ok in H as (d & Hd & H).
  apply bind_ok in H as (r & Hr & H).
  apply bind_ok in H as (s & Hs & H).
  apply bind_ok in H as (k & Hk & [= <-]).
  exists b, t, d, r, s, k. repeat (split; [done|]). apply prioritize_perm.
Qed.







End Robustness.

(** * Further properties of the analyzers *)

(** ** Deployment reliability *)

Section Deployments.

Lemma ratio_zero (t : Z) : (ratio 0 t == 0)%Q.
Proof. unfold ratio, Qdiv. by rewrite Qmult_0_l. Qed.

Lemma len_nonneg {A} (l : list A) : 0 <= len l.
Proof. unfold len. lia. Qed.

Lemma len_filter_le {A} (f : A → bool) (l : list A) :
  len (List.filter f l) <= len l.
Proof.
  unfold len. apply inj_le. induction l as [|a l IH]; simpl; [done|].
  destruct (f a); simpl; lia.
Qed.

Lemma len_zero_nil {A} (l : list A) : len l = 0 → l = [].
Proof. destruct l; [done|]. unfold len. simpl. lia. Qed.

Lemma deployment_rate_spec (failed recent : Z) :
  0 <= failed <= recent →
  Qltb 0.1 (ratio failed recent) = true ↔ recent < 10 * failed.
Proof.
  intros H. rewrite Qltb_lt. destruct (decide (recent = 0)) as [E|E].
  - assert (failed = 0) as -> by lia.
    rewrite E, ratio_zero. split; [lra | lia].
  - rewrite (ratio_gt 1 10 failed recent) by lia. lia.
Qed.

Lemma analyze_deployments_closed (deployments : list dict) :
  _analyze_deployments (VList (map VDict deployments)) =
    Ok (if Qltb 0.1 (ratio (len (failed_recent deployments))
                           (len (recent_deployments deployments)))
        then [deployment_failure_issue
                (ratio (len (failed_recent deployments))
                       (len (recent_deployments deployments)))
                (len (failed_recent deployments))
                (len (recent_deployments deployments))]
        else []).
Proof.
  unfold _analyze_deployments.
  destruct (decide (deployments = [])) as [->|Hne]; [by vm_compute|].
  rewrite truthy_records, bool_decide_true by done.
  cbn [negb iter mbind result_bind].
  rewrite (comprehension_select timestamped (field_truthy "timestamp")) by done.
  cbn [mbind result_bind].
  rewrite (comprehension_select has_failed (status_is "failed")) by done.
  cbn [mbind result_bind]. rewrite !len_map.
  fold (recent_deployments deployments). fold (failed_recent deployments).
  destruct (failed_recent deployments) as [|f fs] eqn:Ef.
  2: { cbn [map]. by destruct (Qltb _ _). }
  cbn [map]. change (len (@nil dict)) with 0.
  destruct (Qltb 0.1 (ratio 0 _)) eqn:Eq; [|done].
  apply Qltb_lt in Eq. rewrite ratio_zero in Eq. lra.
Qed.

(** X1. The deployment check on any list of records: only the records with
    a timestamp count, and the critical issue is returned exactly when
    more than a tenth of them failed. *)
Theorem analyze_deployments_spec (deployments : list dict) :
  let recent := len (recent_deployments deployments) in
  let failed := len (failed_recent deployments) in
  _analyze_deployments (VList (map VDict deployments)) =
    Ok (if Qltb 0.1 (ratio failed recent)
        then [deployment_failure_issue (ratio failed recent) failed recent]
        else []) ∧
  (Qltb 0.1 (ratio failed recent) = true ↔ recent < 10 * failed) ∧
  failed <= recent.
Proof.
  intros recent failed.
  assert (Hle : failed <= recent) by apply len_filter_le.
  split; [apply analyze_deployments_closed|]. split; [|done].
  apply deployment_rate_spec.
  pose proof (len_nonneg (failed_recent deployments)). subst failed. lia.
Qed.

End Deployments.

(** ** Resource pressure *)

Section ResourceUsage.

Lemma max_from_spec (l : list value) (best : value) :
  numeric best → Forall numeric l →
  ∃ m, max_from best l = Ok m ∧ (m = best ∨ m ∈ l) ∧
       (num best <= num m)%Q ∧ Forall (λ x, (num x <= num m)%Q) l.
Proof.
  intros Hb Hl. revert best Hb.
  induction Hl as [|x l Hx _ IH]; intros best Hb; simpl.
  - exists best. repeat split; [by left | apply Qle_refl | constructor].
  - rewrite !number_numeric by done. simpl.
    destruct (Qltb (num best) (num x)) eqn:E.
    + apply Qltb_lt in E.
      destruct (IH x Hx) as (m & Hm & Hin & Hle & Hall).
      exists m. split; [done|]. split; [|split].
      * right. destruct Hin as [->|Hin]; [left | by right].
      * apply Qlt_le_weak in E. by apply (Qle_trans _ (num x)).
      * by constructor.
    + apply Qltb_ge in E.
      destruct (IH best Hb) as (m & Hm & Hin & Hle & Hall).
      exists m. split; [done|]. split; [|split].
      * destruct Hin as [->|Hin]; [by left | right; by right].
      * done.
      * constructor; [by apply (Qle_trans _ (num best)) | done].
Qed.

Lemma max_spec (l : list value) :
  l ≠ [] → Forall numeric l →
  ∃ m, max l = Ok m ∧ m ∈ l ∧ Forall (λ x, (num x <= num m)%Q) l.
Proof.
  intros Hne Hl. destruct Hl as [|x l Hx Hl]; [done|]. simpl.
  rewrite number_numeric by done. simpl.
  destruct (max_from_spec l x Hx Hl) as (m & Hm & Hin & Hle & Hall).
  exists m. split; [done|]. split.
  - destruct Hin as [->|Hin]; [left | by right].
  - by constructor.
Qed.

Lemma usage_check_spec (d : dict) (field : string) (limit : Q)
    (issue : value → Q → Q → Issue) (l : list value) :
  dict_get d field (VList []) = VList l → Forall numeric l →
  ∃ issues, usage_check (VDict d) field limit issue = Ok issues ∧
            usage_outcome l limit issue issues.
Proof.
  intros Hl Hnum. unfold usage_check. cbn [get mbind result_bind].
  rewrite Hl. destruct l as [|x l'] eqn:El.
  { exists []. split; [done|]. left. by split. }
  rewrite <- El in *. assert (Hne : l ≠ []) by (by rewrite El).
  replace (truthy (VList l)) with true by (by rewrite El).
  cbn [iter mbind result_bind].
  destruct (sum_numeric l Hnum) as (total & Ht & Nt & Hsum).
  rewrite Ht. cbn [mbind result_bind].
  unfold truediv. rewrite (number_numeric total Nt). cbn [mbind result_bind].
  replace (len l =? 0) with false
    by (symmetry; apply Z.eqb_neq; pose proof (len_pos l Hne); lia).
  cbn [mbind result_bind].
  destruct (max_spec l Hne Hnum) as (m & Hm & Hin & Hall).
  rewrite Hm. cbn [mbind result_bind].
  assert (Nm : numeric m).
  { rewrite Forall_forall in Hnum. by apply Hnum. }
  rewrite (number_numeric m Nm). cbn [mbind result_bind].
  destruct (Qltb limit (num m)) eqn:E.
  - apply Qltb_lt in E. eexists. split; [done|]. right.
    exists m, (num total / inject_Z (len l))%Q. repeat split; try done.
    unfold average. by rewrite Hsum, len_map.
  - apply Qltb_ge in E. exists []. split; [done|]. left. split; [done|].
    eapply Forall_impl; [exact Hall|]. intros y Hy.
    by apply (Qle_trans _ (num m)).
Qed.



End ResourceUsage.

(** ** Security scans *)

Section Security.

Lemma records_of_records (l : list dict) : records_of (VList (map VDict l)) = l.
Proof.
  unfold records_of. induction l as [|d l IH]; [done|].
  cbn [map omap list_omap]. f_equal. exact IH.
Qed.

Lemma scan_security_spec (scans : list dict) :
  Forall well_formed_scan scans →
  scan_security (map VDict scans) = Ok (flat_map scan_issues scans).
Proof.
  induction 1 as [|scan scans (vs & Hvs & Hwf) _ IH]; [done|].
  cbn [map scan_security get mbind result_bind flat_map]. rewrite Hvs.
  cbn [iter mbind result_bind].
  rewrite (comprehension_select is_critical (field_is "severity" "critical") vs)
    by done.
  cbn [mbind result_bind].
  rewrite (comprehension_select is_high (field_is "severity" "high") vs) by done.
  cbn [mbind result_bind]. rewrite IH.
  unfold scan_issues, critical_of, high_of, vulnerabilities_of.
  rewrite Hvs, records_of_records, !len_map.
  assert (Hcve : Forall (λ d, cve_of d = VStr (cve_text d))
                        (List.filter is_critical vs)).
  { rewrite Forall_forall in Hwf |- *. intros d Hd.
    apply elem_of_filter_bool in Hd as [Hd Hcrit].
    destruct (Hwf d Hd Hcrit) as [s Hs]. unfold cve_text. by rewrite Hs. }
  destruct (List.filter is_critical vs) as [|c cs];
    [cbn [map mbind result_bind]; by rewrite app_assoc|].
  cbn [map]. change (VDict c :: map VDict cs) with (map VDict (c :: cs)).
  rewrite firstn_map, (comprehension_field "cve"). cbn [mbind result_bind].
  unfold join.
  replace (map (λ d, dict_get d "cve" (VStr "Unknown")) (take 3 (c :: cs)))
    with (map VStr (map cve_text (take 3 (c :: cs)))).
  2: { rewrite map_map. apply Forall_take with (n := 3%nat) in Hcve.
       induction Hcve as [|x l Hx _ IHl]; simpl; [done|].
       rewrite IHl. f_equal. symmetry. exact Hx. }
  rewrite strings_of_strings. cbn [mbind result_bind].
  by rewrite app_assoc.
Qed.

(** X3. The security check on well-formed scans: the issues of the scans in
    order; a scan yields its critical issue exactly when it has a
    critical vulnerability, and its high-severity issue exactly when it
    has six or more high-severity vulnerabilities. *)
Theorem analyze_security_spec (scans : list dict)
    (Hwf : Forall well_formed_scan scans) :
  _analyze_security (VList (map VDict scans)) =
    Ok (flat_map scan_issues scans) ∧
  Forall (λ scan,
            (length (scan_issues scan) <= 2)%nat ∧
            (Exists (λ i, severity i = "critical") (scan_issues scan) ↔
             critical_of scan ≠ []) ∧
            (Exists (λ i, severity i = "high") (scan_issues scan) ↔
             6 <= len (high_of scan))) scans.
Proof.
  split.
  - unfold _analyze_security. cbn [iter mbind result_bind].
    by apply scan_security_spec.
  - apply Forall_forall. intros scan _. unfold scan_issues.
    destruct (critical_of scan) as [|c cs] eqn:Ec;
      destruct (5 <? len (high_of scan)) eqn:Eh;
      [apply Z.ltb_lt in Eh | apply Z.ltb_ge in Eh
       | apply Z.ltb_lt in Eh | apply Z.ltb_ge in Eh];
      cbn [app length]; (split; [lia|]); split; split; intros H;
      try done; try lia;
      repeat match goal with
             | H : Exists _ (_ :: _) |- _ => apply Exists_cons in H as [H|H]
             | H : Exists _ [] |- _ => by apply Exists_nil in H
             end; try done; try lia.
    all: try (apply Exists_cons; by left).
    all: try (apply Exists_cons; right; apply Exists_cons; by left).
Qed.

Lemma analyze_security_spec_witness :
  Forall well_formed_scan [sample_scan] ∧
  _analyze_security (VList (map VDict [sample_scan])) =
    Ok (flat_map scan_issues [sample_scan]).
Proof.
  assert (H : Forall well_formed_scan [sample_scan]).
  { repeat constructor. exists sample_vulnerabilities. split; [reflexivity|].
    repeat constructor; intros _; by eexists. }
  split; [exact H|]. exact (proj1 (analyze_security_spec [sample_scan] H)).
Defined.

End Security.

(** ** Cluster health *)

Section Cluster.

Lemma scan_replicas_spec (l : list dict) (failed under : list value) :
  Forall well_formed_replicas l →
  scan_replicas failed under (map VDict l) =
  Ok (failed ++ names (List.filter unavailable l),
      under ++ names (List.filter underscaled l)).
Proof.
  intros H. revert failed under.
  induction H as [|d l [Hd Ha] _ IH]; intros failed under.
  { simpl. by rewrite !app_nil_r. }
  cbn [map scan_replicas get mbind result_bind List.filter].
  rewrite (number_numeric _ Hd). cbn [mbind result_bind].
  unfold unavailable, underscaled.
  fold (desired_of d). fold (available_of d).
  destruct (Qltb 0 (desired_of d)); cbn [andb]; [|apply IH].
  rewrite (number_numeric _ Ha). cbn [mbind result_bind].
  fold (available_of d).
  destruct (Qltb (available_of d) (desired_of d)); cbn [andb]; [|apply IH].
  destruct (Qeq_bool (available_of d) 0); cbn [negb];
    rewrite IH; unfold names; cbn [map]; by rewrite <- app_assoc.
Qed.

(** X4. The replica check on well-formed deployments: the deployments that
    want replicas and have none are reported as unavailable, those with
    some replicas but fewer than wanted as under-scaled, each list in
    input order; no deployment is in both, and one that wants no replica
    or has all it wants is in neither. *)
Theorem check_deployments_spec (repr : value → string) (d : dict)
    (l : list dict)
    (Hl : dict_get d "deployments" (VList []) = VList (map VDict l))
    (Hwf : Forall well_formed_replicas l) :
  check_deployments repr (VDict d) =
    Ok ((match List.filter unavailable l with
         | [] => []
         | _ => [zero_availability_issue repr (names (List.filter unavailable l))]
         end) ++
        (match List.filter underscaled l with
         | [] => []
         | _ => [underscaled_issue (names (List.filter underscaled l))]
         end)) ∧
  Forall (λ dep,
            (unavailable dep = true ↔
             (0 < desired_of dep)%Q ∧ (available_of dep == 0)%Q) ∧
            (underscaled dep = true ↔
             (0 < desired_of dep)%Q ∧ (available_of dep < desired_of dep)%Q ∧
             ¬ (available_of dep == 0)%Q)) l.
Proof.
  split.
  - unfold check_deployments. cbn [get mbind result_bind]. rewrite Hl.
    destruct l as [|x l'] eqn:El; [done|]. rewrite <- El in *.
    replace (truthy (VList (map VDict l))) with true by (by rewrite El).
    cbn [iter mbind result_bind].
    rewrite (scan_replicas_spec l [] [] Hwf). cbn [mbind result_bind app].
    unfold names.
    destruct (List.filter unavailable l), (List.filter underscaled l); done.
  - apply Forall_forall. intros dep _. unfold unavailable, underscaled.
    rewrite !andb_true_iff, negb_true_iff, !Qltb_lt, Qeq_bool_iff.
    rewrite <- not_true_iff_false, Qeq_bool_iff.
    split; split.
    + by intros [[? ?] ?].
    + intros [H0 E]. repeat split; [done | by rewrite E | done].
    + by intros [[? ?] ?].
    + by intros (? & ? & ?).
Qed.

Lemma check_deployments_spec_witness :
  Forall well_formed_replicas sample_deployments ∧
  ∀ repr,
    check_deployments repr
      (VDict [("deployments", VList (map VDict sample_deployments))]) =
    Ok [zero_availability_issue repr [VStr "api"];
        underscaled_issue [VStr "web"]].
Proof.
  assert (H : Forall well_formed_replicas sample_deployments).
  { repeat constructor; by eexists. }
  split; [exact H|]. intros repr.
  exact (proj1 (check_deployments_spec repr
                  [("deployments", VList (map VDict sample_deployments))]
                  sample_deployments eq_refl H)).
Defined.

(** X5. The pod check and the node check on any records. A pod whose status
    is CrashLoopBackOff, Error or Failed has failed: one critical issue
    counts the failed pods and names the first five. More than three
    pending pods give one issue of high severity. A node whose status
    is not Ready, or absent, is unhealthy: one critical issue names the
    unhealthy nodes and gives the number of nodes. *)
Theorem check_pods_nodes_spec (d : dict) (pods nodes : list dict)
    (Hpods : dict_get d "pods" (VList []) = VList (map VDict pods))
    (Hnodes : dict_get d "nodes" (VList []) = VList (map VDict nodes)) :
  check_pods (VDict d) = Ok (pod_issues pods) ∧
  check_nodes (VDict d) = Ok (node_issues nodes).
Proof.
  split.
  - unfold check_pods, pod_issues. cbn [get mbind result_bind]. rewrite Hpods.
    destruct (decide (pods = [])) as [->|Hne]; [done|].
    rewrite truthy_records, bool_decide_true by done.
    cbn [iter mbind result_bind].
    rewrite (comprehension_select pod_failed
               (λ p, st ← get p "status" VNone;
                     Ok (existsb (eq_str st)
                           ["CrashLoopBackOff"; "Error"; "Failed"]))
               pods)
      by (intros; reflexivity).
    cbn [mbind result_bind].
    rewrite (comprehension_select is_pending (status_is "Pending") pods)
      by (intros; reflexivity).
    cbn [mbind result_bind]. rewrite len_map.
    destruct (List.filter pod_failed pods) as [|f fs]; [done|].
    cbn [map]. change (VDict f :: map VDict fs) with (map VDict (f :: fs)).
    rewrite firstn_map, names_of_records. reflexivity.
  - unfold check_nodes, node_issues. cbn [get mbind result_bind].
    rewrite Hnodes.
    destruct (decide (nodes = [])) as [->|Hne]; [done|].
    rewrite truthy_records, bool_decide_true by done.
    cbn [iter mbind result_bind].
    rewrite (comprehension_select not_ready
               (λ n, st ← get n "status" VNone; Ok (negb (eq_str st "Ready")))
               nodes)
      by (intros; reflexivity).
    cbn [mbind result_bind]. rewrite len_map.
    destruct (List.filter not_ready nodes) as [|f fs]; [done|].
    cbn [map]. change (VDict f :: map VDict fs) with (map VDict (f :: fs)).
    rewrite names_of_records. reflexivity.
Qed.

Lemma check_pods_nodes_spec_witness :
  check_pods (VDict sample_cluster) =
    Ok [pod_failures_issue [VDict (pod "b" "Error")] [VStr "b"]] ∧
  check_nodes (VDict sample_cluster) =
    Ok [unhealthy_nodes_issue [VDict (pod "n2" "NotReady")] [VStr "n2"] 2].
Proof.
  exact (check_pods_nodes_spec sample_cluster
           [pod "a" "Running"; pod "b" "Error"; pod "c" "Pending"]
           [pod "n1" "Ready"; pod "n2" "NotReady"] eq_refl eq_refl).
Defined.

Ltac crack_pairs :=
  repeat first
    [ progress simplify_eq
    | match goal with
      | H : mbind _ ?m = Ok _ |- _ =>
          destruct m eqn:?; cbn [mbind result_bind] in H
      | H : (if ?b then _ else _) = Ok _ |- _ => destruct b eqn:?
      | H : match ?l with [] => _ | _ :: _ => _ end = Ok _ |- _ =>
          destruct l eqn:?
      | H : (let (_, _) := ?p in _) = Ok _ |- _ => destruct p eqn:?
      end ].

Ltac bounded :=
  repeat match goal with
         | |- context [if ?b then _ else _] => destruct b
         | |- context [match ?l with [] => _ | _ :: _ => _ end] => destruct l
         end;
  cbn [app length]; (split; [lia|]); repeat constructor; by left.

Lemma check_pods_bound (v : value) (issues : list Issue) :
  check_pods v = Ok issues →
  (length issues <= 2)%nat ∧ Forall cluster_issue issues.
Proof. unfold check_pods. intros H. crack_pairs; bounded. Qed.

Lemma check_nodes_bound (v : value) (issues : list Issue) :
  check_nodes v = Ok issues →
  (length issues <= 1)%nat ∧ Forall cluster_issue issues.
Proof. unfold check_nodes. intros H. crack_pairs; bounded. Qed.

Lemma check_deployments_bound (repr : value → string) (v : value)
    (issues : list Issue) :
  check_deployments repr v = Ok issues →
  (length issues <= 2)%nat ∧ Forall cluster_issue issues.
Proof. unfold check_deployments. intros H. crack_pairs; bounded. Qed.

Lemma check_resource_usage_bound (v : value) (issues : list Issue) :
  check_resource_usage v = Ok issues →
  (length issues <= 2)%nat ∧ Forall cluster_issue issues.
Proof. unfold check_resource_usage. intros H. crack_pairs; bounded. Qed.

Lemma check_pvcs_bound (v : value) (issues : list Issue) :
  check_pvcs v = Ok issues →
  (length issues <= 1)%nat ∧ Forall cluster_issue issues.
Proof. unfold check_pvcs. intros H. crack_pairs; bounded. Qed.

Lemma check_service_mesh_bound (v : value) (issues : list Issue) :
  check_service_mesh v = Ok issues →
  (length issues <= 1)%nat ∧ Forall cluster_issue issues.
Proof.
  unfold check_service_mesh. intros H. crack_pairs.
  all: repeat match goal with
              | |- context [if ?b then _ else _] => destruct b
              end; cbn [length]; (split; [lia|]); repeat constructor; by right.
Qed.

Lemma analyze_kubernetes_issues (repr : value → string) (v : value)
    (issues : list Issue) :
  _analyze_kubernetes repr v = Ok issues →
  (length issues <= 9)%nat ∧ Forall cluster_issue issues.
Proof.
  intros H. unfold _analyze_kubernetes in H.
  destruct (truthy v); cbn [negb] in H;
    [|injection H as <-; split; [simpl; lia | constructor]].
  apply bind_ok in H as (p & Hp & H). apply bind_ok in H as (n & Hn & H).
  apply bind_ok in H as (d & Hd & H). apply bind_ok in H as (u & Hu & H).
  apply bind_ok in H as (c & Hc & H). apply bind_ok in H as (m & Hm & [= <-]).
  apply check_pods_bound in Hp as [? ?].
  apply check_nodes_bound in Hn as [? ?].
  apply check_deployments_bound in Hd as [? ?].
  apply check_resource_usage_bound in Hu as [? ?].
  apply check_pvcs_bound in Hc as [? ?].
  apply check_service_mesh_bound in Hm as [? ?].
  split.
  - rewrite !length_app. lia.
  - by repeat (apply Forall_app; split).
Qed.

(** X6. Whatever the cluster data, the cluster check returns at most nine
    issues, and each of them names Kubernetes in its affected component
    or is the service-mesh issue. *)
Theorem analyze_kubernetes_bound (repr : value → string) (v : value) :
  (length (emitted (_analyze_kubernetes repr v)) <= 9)%nat ∧
  Forall cluster_issue (emitted (_analyze_kubernetes repr v)).
Proof.
  destruct (_analyze_kubernetes repr v) as [issues|] eqn:H;
    [|split; [simpl; lia | constructor]].
  by apply (analyze_kubernetes_issues repr v).
Qed.

End Cluster.

(** ** The accuracy trend *)

Section Trend.











Lemma string_leb_antisym (a b : string) :
  String.leb a b = true → String.leb b a = true → a = b.
Proof.
  unfold String.leb. rewrite (String.compare_antisym a b).
  destruct (String.compare b a) eqn:E; cbn [CompOpp]; try done.
  intros _ _. by apply String.compare_eq_iff in E.
Qed.

Lemma sorted_ts_unique (l1 l2 : list dict) :
  StronglySorted not_later l1 → StronglySorted not_later l2 →
  Permutation l1 l2 → NoDup (map ts l1) → l1 = l2.
Proof.
  intros H1. revert l2.
  induction H1 as [|a l1 Hl1 IH Ha]; intros l2 H2 Hp Hnd.
  { by apply Permutation_nil in Hp. }
  destruct H2 as [|b l2 Hl2 Hb].
  { symmetry in Hp. by apply Permutation_nil in Hp. }
  cbn [map] in Hnd. apply NoDup_cons in Hnd as [Hfresh Hnd].
  assert (a = b) as <-.
  { assert (Hin : a ∈ b :: l2) by (rewrite <- Hp; left).
    assert (Hin' : b ∈ a :: l1) by (rewrite Hp; left).
    apply elem_of_cons in Hin as [E|Hin]; [done|].
    apply elem_of_cons in Hin' as [E|Hin']; [done|].
    rewrite Forall_forall in Ha, Hb.
    pose proof (string_leb_antisym _ _ (Ha b Hin') (Hb a Hin)) as E.
    destruct Hfresh. rewrite E.
    apply list_elem_of_In, in_map. by apply list_elem_of_In. }
  f_equal. apply IH; [done | by apply Permutation_cons_inv in Hp | done].
Qed.

(** X8. The trend analysis does not depend on the order in which the points
    of a well-formed history arrive, provided that their timestamps are
    pairwise distinct: the points are put in timestamp order first. *)
Theorem model_performance_order_independent (metrics metrics' : list dict)
    (Hperm : Permutation metrics metrics')
    (Hdistinct : NoDup (map ts metrics))
    (Hwf : Forall well_formed_point metrics) :
  sorted_by_timestamp (map VDict metrics') =
    Ok (map VDict (sort_ts metrics)) ∧
  StronglySorted not_later (sort_ts metrics) ∧
  _analyze_model_performance (VList (map VDict metrics')) =
    _analyze_model_performance (VList (map VDict metrics)).
Proof.
  assert (Hwf' : Forall well_formed_point metrics') by (by rewrite <- Hperm).
  assert (E : sort_ts metrics' = sort_ts metrics).
  { apply sorted_ts_unique; [apply sort_ts_sorted | apply sort_ts_sorted | |].
    - by rewrite !sort_ts_perm.
    - by rewrite sort_ts_perm, <- Hperm. }
  split; [by rewrite sorted_by_timestamp_spec, E|].
  split; [apply sort_ts_sorted|].
  unfold _analyze_model_performance. rewrite !truthy_records.
  cbn [py_len iter mbind result_bind]. rewrite !len_map.
  rewrite !sorted_by_timestamp_spec, E by done.
  replace (len metrics') with (len metrics)
    by (unfold len; by rewrite Hperm).
  destruct (decide (metrics = [])) as [->|Hne].
  - apply Permutation_nil in Hperm as ->. reflexivity.
  - assert (Hne' : metrics' ≠ []).
    { intros ->. symmetry in Hperm. by apply Permutation_nil in Hperm. }
    rewrite (bool_decide_true (metrics ≠ [])) by done.
    rewrite (bool_decide_true (metrics' ≠ [])) by done.
    reflexivity.
Qed.

Lemma model_performance_order_independent_witness :
  _analyze_model_performance (VList (map VDict (rev falling_history))) =
  _analyze_model_performance (VList (map VDict falling_history)).
Proof.
  apply (model_performance_order_independent falling_history
           (rev falling_history)).
  - apply Permutation_rev.
  - apply (bool_decide_unpack _). by vm_compute.
  - repeat constructor; by eexists.
Defined.

End Trend.

(** ** Model serving *)

Section Serving.




Lemma missing_inference_low_throughput (data : dict) (issues : list Issue) :
  lookup_key "inference_metrics" data = None →
  MLOpsAgent.analyze data = Ok issues →
  low_throughput_issue (VInt 0) 0 ∈ issues.
Proof.
  intros Hmissing Hok.
  apply mlops_analyze_ok in Hok
    as (p & t & q & i & e & _ & _ & _ & Hi & _ & Hperm).
  unfold dict_get in Hi. rewrite Hmissing in Hi. cbn [default] in Hi.
  injection Hi as <-. rewrite Hperm.
  do 3 (apply elem_of_app; right). apply elem_of_app. left. by left.
Qed.

(** X10. A batch without an inference section: the analysis, when it
    returns, reports a low inference throughput of 0 requests per
    second. *)
Theorem missing_inference_reported (data : dict) (issues : list Issue)
    (Hmissing : lookup_key "inference_metrics" data = None)
    (Hok : MLOpsAgent.analyze data = Ok issues) :
  low_throughput_issue (VInt 0) 0 ∈ issues.
Proof. by apply (missing_inference_low_throughput data). Qed.

Lemma missing_inference_reported_witness :
  MLOpsAgent.analyze [] = Ok [low_throughput_issue (VInt 0) 0] ∧
  low_throughput_issue (VInt 0) 0 ∈ [low_throughput_issue (VInt 0) 0].
Proof.
  assert (H : MLOpsAgent.analyze [] = Ok [low_throughput_issue (VInt 0) 0])
    by reflexivity.
  split; [exact H|].
  exact (missing_inference_reported [] _ eq_refl H).
Defined.

End Serving.

(** ** Data quality *)

Section DataQuality.



End DataQuality.

(** ** Experiment tracking *)

Section Experiments.

(** X12. The experiment check on any list of records: an experiment whose
    tags are absent or empty is untagged, and the issue is returned
    exactly when more than three tenths of the experiments are
    untagged. *)
Theorem analyze_experiments_spec (experiments : list dict) :
  let total := len experiments in
  let bare := len (untagged_experiments experiments) in
  _analyze_experiments (VList (map VDict experiments)) =
    Ok (if Qltb 0.3 (ratio bare total) then [untagged_issue bare total] else []) ∧
  (Qltb 0.3 (ratio bare total) = true ↔ 3 * total < 10 * bare) ∧
  bare <= total.
Proof.
  intros total bare.
  assert (Hle : bare <= total) by apply len_filter_le.
  assert (Hiff : Qltb 0.3 (ratio bare total) = true ↔ 3 * total < 10 * bare).
  { rewrite Qltb_lt. destruct (decide (total = 0)) as [E|E].
    - assert (bare = 0) as ->
        by (pose proof (len_nonneg (untagged_experiments experiments)); lia).
      rewrite E, ratio_zero. split; [lra | lia].
    - pose proof (len_nonneg experiments).
      rewrite (ratio_gt 3 10 bare total) by lia. lia. }
  split; [|done].
  unfold _analyze_experiments.
  destruct (decide (experiments = [])) as [->|Hne]; [by vm_compute|].
  rewrite truthy_records, bool_decide_true by done.
  cbn [negb iter mbind result_bind].
  rewrite (comprehension_select untagged
             (λ e, tags ← get e "tags" VNone; Ok (negb (truthy tags))))
    by done.
  cbn [mbind result_bind]. rewrite !len_map.
  reflexivity.
Qed.

End Experiments.

(** ** Training runs *)

Section Training.








End Training.

(** ** Correlation across pipelines *)

Section Correlation.

Lemma is_resource_issue_spec (i : Issue) :
  is_resource_issue i = true ↔ resource_kind i.
Proof.
  unfold is_resource_issue, resource_kind, title_mentions. cbn [existsb].
  rewrite andb_true_iff, String.eqb_eq, !Exists_cons, Exists_nil.
  rewrite !orb_true_iff. intuition discriminate.
Qed.

(** X14. The bottleneck check returns one issue of high severity, which
    counts the resource issues, exactly when two or more performance
    issues name a resource (cpu, memory, resource or gpu) in their
    title; the letter case of the title does not matter. The GPU issue
    of the training check is of category cost and is never counted. *)
Theorem detect_resource_bottlenecks_spec (issues : list Issue) :
  let n := len (List.filter is_resource_issue issues) in
  _detect_resource_bottlenecks issues =
    (if decide (2 <= n) then [bottleneck_issue n] else []) ∧
  n = len (List.filter (λ i, bool_decide (resource_kind i)) issues) ∧
  severity (bottleneck_issue n) = "high" ∧
  category (bottleneck_issue n) = "performance" ∧
  metadata (bottleneck_issue n) = VDict [("resource_issue_count", VInt n)] ∧
  (∀ u util, is_resource_issue (low_gpu_issue u util) = false).
Proof.
  intros n. split; [|repeat split].
  - unfold _detect_resource_bottlenecks. fold n.
    destruct (Z.leb_spec 2 n).
    + by rewrite decide_True.
    + by rewrite decide_False by lia.
  - subst n. f_equal. apply filter_ext. intros i.
    apply eq_true_iff_eq. rewrite bool_decide_eq_true.
    apply is_resource_issue_spec.
Qed.

Lemma count_in_nonneg (c : string) (issues : list Issue) : 0 <= count_in c issues.
Proof. apply len_nonneg. Qed.

Lemma count_in_cons (c : string) (i : Issue) (issues : list Issue) :
  count_in c (i :: issues) =
  count_in c issues + (if String.eqb (category i) c then 1 else 0).
Proof.
  unfold count_in. cbn [List.filter].
  destruct (String.eqb (category i) c); [|lia].
  unfold len. cbn [length]. lia.
Qed.

Lemma total_count_cons (cs : list string) (i : Issue) (issues : list Issue) :
  NoDup cs →
  total_count cs (i :: issues) =
  total_count cs issues + (if decide (category i ∈ cs) then 1 else 0).
Proof.
  induction 1 as [|c cs Hc _ IH]; [done|].
  cbn [total_count foldr]. fold (total_count cs (i :: issues)).
  fold (total_count cs issues). rewrite IH, count_in_cons.
  destruct (String.eqb_spec (category i) c) as [E|E].
  - destruct (decide (category i ∈ cs)) as [Hin|_];
      [by rewrite E in Hin|].
    destruct (decide (category i ∈ c :: cs)) as [_|Hn]; [lia|].
    destruct Hn. rewrite E. left.
  - destruct (decide (category i ∈ cs)) as [Hin|Hin].
    + destruct (decide (category i ∈ c :: cs)) as [_|Hn]; [lia|].
      destruct Hn. by right.
    + destruct (decide (category i ∈ c :: cs)) as [Hn|_]; [|lia].
      apply elem_of_cons in Hn as [?|?]; done.
Qed.

Lemma total_count_le (cs : list string) (issues : list Issue) :
  NoDup cs → total_count cs issues <= len issues.
Proof.
  intros Hnd. induction issues as [|i issues IH].
  - assert (E : total_count cs [] = 0); [|by rewrite E].
    clear Hnd. induction cs as [|c cs IHc]; [done|].
    cbn [total_count foldr]. fold (total_count cs []). by rewrite IHc.
  - rewrite total_count_cons by done.
    unfold len in *. cbn [length]. destruct (decide _); lia.
Qed.

Lemma systemic_count (cs : list string) (issues : list Issue) :
  5 * len (List.filter (λ c, 5 <=? count_in c issues) cs) <=
  total_count cs issues.
Proof.
  induction cs as [|c cs IH]; [done|].
  cbn [List.filter total_count foldr]. fold (total_count cs issues).
  pose proof (count_in_nonneg c issues).
  destruct (Z.leb_spec 5 (count_in c issues)); [|lia].
  unfold len in *. cbn [length]. lia.
Qed.

Lemma detect_systemic_bound (issues : list Issue) :
  5 * len (_detect_systemic_issues issues) <= len issues.
Proof.
  rewrite detect_systemic_closed, len_map.
  etransitivity; [apply systemic_count|].
  apply total_count_le, distinct_NoDup.
Qed.

Lemma detect_cascading_bound (issues : list Issue) :
  len (_detect_cascading_failures issues) <= 1 ∧
  Forall (λ i, severity i = "critical") (_detect_cascading_failures issues).
Proof.
  unfold _detect_cascading_failures.
  destruct (List.filter is_build_failure issues);
    [by split; [|constructor]|].
  destruct (List.filter is_deployment_failure issues);
    [by split; [|constructor]|].
  split; [done|]. by repeat constructor.
Qed.

Lemma detect_bottlenecks_bound (issues : list Issue) :
  len (_detect_resource_bottlenecks issues) <= 1 ∧
  Forall (λ i, severity i = "high") (_detect_resource_bottlenecks issues).
Proof.
  unfold _detect_resource_bottlenecks.
  destruct (2 <=? _); (split; [done|]); by repeat constructor.
Qed.

Lemma cross_pipeline_length (issues : list Issue) :
  len (detect_cross_pipeline_issues issues) <= 2 + len issues `div` 5.
Proof.
  destruct (detect_cascading_bound issues) as [Hc _].
  destruct (detect_bottlenecks_bound issues) as [Hb _].
  pose proof (detect_systemic_bound issues) as Hs.
  unfold detect_cross_pipeline_issues. rewrite !len_app.
  assert (len (_detect_systemic_issues issues) <= len issues `div` 5)
    by (apply Z.div_le_lower_bound; lia).
  lia.
Qed.

(** X15. The correlator on [n] issues returns at most [2 + n / 5] issues:
    one for cascading failures, one for resource constraints and one
    for each category counted five times or more. Each is of critical
    or high severity, and no issue is made up from an empty list. *)
Theorem detect_cross_pipeline_issues_bound (issues : list Issue) :
  len (detect_cross_pipeline_issues issues) <= 2 + len issues `div` 5 ∧
  Forall (λ i, severity i = "critical" ∨ severity i = "high")
         (detect_cross_pipeline_issues issues) ∧
  detect_cross_pipeline_issues [] = [].
Proof.
  destruct (detect_cascading_bound issues) as [_ Sc].
  destruct (detect_bottlenecks_bound issues) as [_ Sb].
  split; [apply cross_pipeline_length|]. split; [|done].
  unfold detect_cross_pipeline_issues.
  repeat (apply Forall_app; split).
  - eapply Forall_impl; [exact Sc|]. intros i Hi. by left.
  - eapply Forall_impl; [exact Sb|]. intros i Hi. by right.
  - rewrite detect_systemic_closed. apply Forall_forall. intros i Hi.
    apply list_elem_of_In, in_map_iff in Hi as (c & <- & _). by right.
Qed.

End Correlation.

(** ** From the analysis to the correlator *)

Section AnalysisCorrelation.

Lemma cascading_fires (issues : list Issue) (x y : Issue) :
  x ∈ issues → is_build_failure x = true →
  y ∈ issues → is_deployment_failure y = true →
  ∃ b d, 0 < b ∧ 0 < d ∧
         _detect_cascading_failures issues = [cascading_issue b d].
Proof.
  intros Hx Bx Hy Dy. unfold _detect_cascading_failures.
  assert (Hb : x ∈ List.filter is_build_failure issues)
    by (by apply elem_of_filter_bool).
  assert (Hd : y ∈ List.filter is_deployment_failure issues)
    by (by apply elem_of_filter_bool).
  destruct (List.filter is_build_failure issues) as [|b bs] eqn:Eb;
    [by apply elem_of_nil in Hb|].
  destruct (List.filter is_deployment_failure issues) as [|d ds] eqn:Ed;
    [by apply elem_of_nil in Hd|].
  eexists _, _. split; [|split; [|reflexivity]]; unfold len; cbn [length]; lia.
Qed.

Lemma filter_length_perm {A} (f : A → bool) (l l' : list A) :
  Permutation l l' → length (List.filter f l) = length (List.filter f l').
Proof.
  induction 1 as [|a l l' _ IH|a b l|l l' l'' _ IH1 _ IH2]; simpl.
  - done.
  - destruct (f a); simpl; by rewrite IH.
  - by destruct (f a), (f b).
  - by rewrite IH1.
Qed.

Lemma filter_two {A} (f : A → bool) (l pre post : list A) (x y : A) :
  Permutation l (pre ++ [x; y] ++ post) → f x = true → f y = true →
  2 <= len (List.filter f l).
Proof.
  intros Hp Hx Hy. unfold len.
  rewrite (filter_length_perm f _ _ Hp).
  rewrite !List.filter_app, !length_app. cbn [List.filter].
  rewrite Hx, Hy. cbn [length]. lia.
Qed.

(** X16. A batch in which more than 15% of the builds and more than 10% of
    the time-stamped deployments failed: whatever the other issues, the
    correlator reports cascading failures on the issues of the
    analysis. *)
Theorem cascading_from_analysis (repr : value → string) (data : dict)
    (issues others : list Issue) (builds deployments : list dict)
    (Hb : dict_get data "builds" (VList []) = VList (map VDict builds))
    (Hwf : well_formed_builds builds)
    (Hd : dict_get data "deployments" (VList []) =
          VList (map VDict deployments))
    (Hbuilds : 15 * len builds < 100 * failed_count builds)
    (Hdeployments : len (recent_deployments deployments) <
                    10 * len (failed_recent deployments))
    (Hok : DevOpsAgent.analyze repr data = Ok issues) :
  ∃ b d, 0 < b ∧ 0 < d ∧
         cascading_issue b d ∈ detect_cross_pipeline_issues (issues ++ others).
Proof.
  apply devops_analyze_ok in Hok
    as (bi & ti & di & ri & si & ki & Hbi & _ & Hdi & _ & _ & _ & Hperm).
  rewrite Hb in Hbi. rewrite Hd in Hdi.
  destruct (analyze_build_performance_spec builds Hwf) as (avg & _ & Hspec).
  rewrite Hspec in Hbi. injection Hbi as <-.
  rewrite analyze_deployments_closed in Hdi. injection Hdi as <-.
  assert (Rb : Qltb 0.15 (build_failure_rate builds) = true).
  { apply Qltb_lt. unfold build_failure_rate.
    pose proof (len_nonneg builds).
    assert (failed_count builds <= len builds) by apply len_filter_le.
    apply (ratio_gt 15 100); lia. }
  assert (Rd : Qltb 0.1 (ratio (len (failed_recent deployments))
                               (len (recent_deployments deployments))) = true).
  { apply deployment_rate_spec; [|done].
    pose proof (len_nonneg (failed_recent deployments)).
    pose proof (len_filter_le has_failed (recent_deployments deployments)).
    unfold failed_recent in *. lia. }
  rewrite Rb in Hperm. rewrite Rd in Hperm.
  destruct (cascading_fires (issues ++ others)
              (build_failure_issue (build_failure_rate builds)
                 (failed_count builds) (len builds))
              (deployment_failure_issue
                 (ratio (len (failed_recent deployments))
                        (len (recent_deployments deployments)))
                 (len (failed_recent deployments))
                 (len (recent_deployments deployments))))
    as (b & d & Pb & Pd & E).
  - apply elem_of_app. left. rewrite Hperm.
    apply elem_of_app. left. apply elem_of_app. right. by left.
  - reflexivity.
  - apply elem_of_app. left. rewrite Hperm.
    do 2 (apply elem_of_app; right). apply elem_of_app. left. by left.
  - reflexivity.
  - exists b, d. split; [done|]. split; [done|].
    unfold detect_cross_pipeline_issues. rewrite E. by left.
Qed.

Lemma cascading_from_analysis_witness :
  ∃ b d, 0 < b ∧ 0 < d ∧
    cascading_issue b d ∈
    detect_cross_pipeline_issues
      (emitted (DevOpsAgent.analyze (λ _, "") failing_batch) ++ []).
Proof.
  apply (cascading_from_analysis (λ _, "") failing_batch _ []
           failing_builds failing_deployments).
  - reflexivity.
  - repeat constructor; intros _; by eexists.
  - reflexivity.
  - by vm_compute.
  - by vm_compute.
  - by vm_compute.
Defined.

(** X17. A batch whose CPU samples exceed 90 somewhere and whose memory
    samples exceed 85 somewhere: whatever the other issues, the
    correlator reports system-wide resource constraints on the issues
    of the analysis. *)
Theorem bottleneck_from_analysis (repr : value → string) (data : dict)
    (issues others : list Issue) (resources : dict) (cpu memory : list value)
    (Hr : dict_get data "resources" (VDict []) = VDict resources)
    (Hcpu : dict_get resources "cpu_usage" (VList []) = VList cpu)
    (Hmemory : dict_get resources "memory_usage" (VList []) = VList memory)
    (Ncpu : Forall numeric cpu) (Nmemory : Forall numeric memory)
    (Xcpu : Exists (λ x, (90 < num x)%Q) cpu)
    (Xmemory : Exists (λ x, (85 < num x)%Q) memory)
    (Hok : DevOpsAgent.analyze repr data = Ok issues) :
  ∃ n, 2 <= n ∧
       bottleneck_issue n ∈ detect_cross_pipeline_issues (issues ++ others).
Proof.
  apply devops_analyze_ok in Hok
    as (bi & ti & di & ri & si & ki & _ & _ & _ & Hri & _ & _ & Hperm).
  rewrite Hr in Hri.
  destruct (usage_check_spec resources "cpu_usage" 90 high_cpu_issue cpu
              Hcpu Ncpu) as (c & Hc & Oc).
  destruct (usage_check_spec resources "memory_usage" 85 high_memory_issue
              memory Hmemory Nmemory) as (m & Hm & Om).
  unfold _analyze_resource_usage in Hri. rewrite Hc, Hm in Hri.
  injection Hri as <-.
  destruct Oc as [[_ Hall]|(mc & ac & -> & _)].
  { apply Exists_exists in Xcpu as (x & Hx & Hlt).
    rewrite Forall_forall in Hall. specialize (Hall x Hx). lra. }
  destruct Om as [[_ Hall]|(mm & am & -> & _)].
  { apply Exists_exists in Xmemory as (x & Hx & Hlt).
    rewrite Forall_forall in Hall. specialize (Hall x Hx). lra. }
  exists (len (List.filter is_resource_issue (issues ++ others))).
  assert (H2 : 2 <= len (List.filter is_resource_issue (issues ++ others))).
  { apply (filter_two _ _ (bi ++ ti ++ di)
             ((si ++ ki) ++ others)
             (high_cpu_issue mc (num mc) ac)
             (high_memory_issue mm (num mm) am));
      [|reflexivity|reflexivity].
    rewrite Hperm, <- !app_assoc. cbn [app]. reflexivity. }
  split; [done|].
  unfold detect_cross_pipeline_issues, _detect_resource_bottlenecks.
  apply Z.leb_le in H2. rewrite H2.
  apply elem_of_app. right. apply elem_of_app. left. by left.
Qed.

Lemma bottleneck_from_analysis_witness :
  ∃ n, 2 <= n ∧
    bottleneck_issue n ∈
    detect_cross_pipeline_issues
      (emitted (DevOpsAgent.analyze (λ _, "") loaded_batch) ++ []).
Proof.
  apply (bottleneck_from_analysis (λ _, "") loaded_batch _ []
           loaded_resources [VInt 95; VInt 50] [VInt 60; VInt 90]).
  - reflexivity.
  - reflexivity.
  - reflexivity.
  - repeat constructor; by eexists.
  - repeat constructor; by eexists.
  - left. by vm_compute.
  - right. left. by vm_compute.
  - by vm_compute.
Defined.

End AnalysisCorrelation.

(** ** Serialisation of issues *)

Section Serialisation.

(** X18. Round trip: the constructor applied to the dict of an issue never
    raises and gives back the issue, with every field unchanged except
    that a metadata which was absent or empty is now the empty dict;
    serialising again gives the same dict. Two issues have the same
    dict exactly when they agree up to such a metadata. *)
Theorem to_dict_round_trip (i : Issue) :
  Issue_init (to_dict i) = Ok (object_of (normalised i)) ∧
  to_dict (normalised i) = to_dict i ∧
  (∀ j, to_dict i = to_dict j ↔ normalised i = normalised j).
Proof.
  split; [reflexivity|]. split.
  - unfold to_dict, normalised. cbn [severity category title description
      affected_component impact recommendation confidence metadata].
    repeat f_equal. destruct (truthy (metadata i)) eqn:E; [by rewrite E | done].
  - intros j. unfold to_dict, normalised. split.
    + intros [= -> -> -> -> -> -> -> -> ->]. reflexivity.
    + intros [= -> -> -> -> -> -> -> -> ->]. reflexivity.
Qed.

Lemma map_injective {A B} (f : A → B) (l l' : list A) :
  (∀ x y, f x = f y → x = y) → map f l = map f l' → l = l'.
Proof.
  intros Hf. revert l'. induction l as [|x l IH]; intros [|y l'] H;
    try done.
  cbn [map] in H. injection H as Hxy Hl. f_equal; [by apply Hf | by apply IH].
Qed.

(** X19. The dict of a suggestion holds each field under its name, and no
    two suggestions have the same dict. *)
Theorem optimization_to_dict_spec (o : Optimization.t) :
  dict_get (Optimization.to_dict o) "title" VNone =
    VStr (Optimization.title o) ∧
  dict_get (Optimization.to_dict o) "priority" (VInt 5) =
    VInt (Optimization.priority o) ∧
  dict_get (Optimization.to_dict o) "implementation_effort" VNone =
    VStr (Optimization.implementation_effort o) ∧
  (∀ o', Optimization.to_dict o = Optimization.to_dict o' ↔ o = o').
Proof.
  repeat (split; [reflexivity|]).
  intros o'. split; [|by intros ->].
  destruct o, o'. unfold Optimization.to_dict.
  cbn [Optimization.type Optimization.title Optimization.description
       Optimization.estimated_impact Optimization.implementation_effort
       Optimization.priority Optimization.steps Optimization.metrics_impact].
  intros [= -> -> -> -> -> -> Hs Hm]. f_equal.
  - apply (map_injective VStr); [|done]. by intros x y [= ->].
  - apply (map_injective (λ kx : string * Q, (kx.1, VFloat kx.2))); [|done].
    intros [k x] [k' x']. cbn [fst snd]. by intros [= -> ->].
Qed.

End Serialisation.

(** ** Summaries *)

Section Summary.

Lemma counts_dict_stored (k : string) (counts : list (string * Z)) :
  dict_get (map (λ kn, (kn.1, VInt kn.2)) counts) k (VInt 0) =
  VInt (stored k counts).
Proof.
  unfold dict_get. induction counts as [|[k' n] counts IH]; [done|].
  cbn [map lookup_key stored fst snd].
  by destruct (String.eqb k k').
Qed.

Lemma stored_increment (k k' : string) (counts : list (string * Z)) :
  stored k' (increment k counts) =
  stored k' counts + (if String.eqb k k' then 1 else 0).
Proof.
  induction counts as [|[k0 n] counts IH]; cbn [increment stored].
  - rewrite String.eqb_sym. by destruct (String.eqb k k').
  - destruct (String.eqb_spec k0 k) as [->|Hne]; cbn [stored].
    + destruct (String.eqb_spec k' k) as [->|Hne'].
      * by rewrite String.eqb_refl.
      * rewrite (proj2 (String.eqb_neq k k')) by done. lia.
    + destruct (String.eqb_spec k' k0) as [->|Hne'].
      * rewrite (proj2 (String.eqb_neq k k0)) by done. lia.
      * exact IH.
Qed.

Lemma summary_counts (issues : list Issue)
    (by_severity by_category : list (string * Z)) (k : string) :
  let '(s, c) :=
    foldl (λ '(by_severity, by_category) issue,
             (increment (severity issue) by_severity,
              increment (category issue) by_category))
          (by_severity, by_category) issues in
  stored k s = stored k by_severity + len (with_severity k issues) ∧
  stored k c = stored k by_category + len (with_category k issues).
Proof.
  revert by_severity by_category.
  induction issues as [|i issues IH]; intros by_severity by_category.
  - cbn [foldl]. unfold len. simpl. lia.
  - cbn [foldl].
    specialize (IH (increment (severity i) by_severity)
                   (increment (category i) by_category)).
    destruct (foldl _ _ issues) as [s c]. destruct IH as [IHs IHc].
    rewrite IHs, IHc, !stored_increment.
    unfold with_severity, with_category, len. cbn [List.filter].
    split.
    + destruct (String.eqb (severity i) k); cbn [length]; lia.
    + destruct (String.eqb (category i) k); cbn [length]; lia.
Qed.

Lemma generate_summary_closed (issues : list Issue) :
  dict_get (_generate_summary issues) "total" VNone = VInt (len issues) ∧
  (∀ s, read_count (_generate_summary issues) "by_severity" s =
        VInt (len (with_severity s issues))) ∧
  (∀ c, read_count (_generate_summary issues) "by_category" c =
        VInt (len (with_category c issues))).
Proof.
  destruct issues as [|i issues]; [done|].
  unfold _generate_summary.
  set (l := i :: issues).
  assert (H := λ k, summary_counts l [] [] k).
  destruct (foldl _ _ l) as [s c].
  split; [reflexivity|]. split; intros k; destruct (H k) as [Hs Hc].
  - unfold read_count.
    change (dict_get _ "by_severity" (VDict [])) with (counts_dict s).
    unfold counts_dict. rewrite counts_dict_stored, Hs. f_equal.
  - unfold read_count.
    change (dict_get _ "by_category" (VDict [])) with (counts_dict c).
    unfold counts_dict. rewrite counts_dict_stored, Hc. f_equal.
Qed.

(** X20. The summary of a list of issues holds the number of issues and, as
    the report reads them, the number of issues of each severity and of
    each category; a severity or category that does not occur reads as
    0. *)
Theorem generate_summary_spec (issues : list Issue) :
  dict_get (_generate_summary issues) "total" VNone = VInt (len issues) ∧
  (∀ s, read_count (_generate_summary issues) "by_severity" s =
        VInt (len (with_severity s issues))) ∧
  (∀ c, read_count (_generate_summary issues) "by_category" c =
        VInt (len (with_category c issues))).
Proof. apply generate_summary_closed. Qed.

End Summary.

(** ** Optimization suggestions *)

Section Suggestions.

Lemma insert_by_priority_perm (x : Optimization.t) (l : list Optimization.t) :
  Permutation (Optimization.insert_by_priority x l) (x :: l).
Proof.
  induction l as [|y l IH]; simpl; [done|].
  destruct (_ <? _); [|done]. rewrite IH. apply perm_swap.
Qed.

Lemma sorted_by_priority_perm (l : list Optimization.t) :
  Permutation (Optimization.sorted_by_priority l) l.
Proof.
  induction l as [|x l IH]; [done|]. simpl.
  by rewrite insert_by_priority_perm, IH.
Qed.

Lemma insert_by_priority_sorted (x : Optimization.t) (l : list Optimization.t) :
  StronglySorted by_priority l →
  StronglySorted by_priority (Optimization.insert_by_priority x l).
Proof.
  induction 1 as [|y l Hl IH Hy]; simpl; [by repeat constructor|].
  destruct (Z.ltb_spec (Optimization.priority y) (Optimization.priority x)).
  - constructor; [done|]. rewrite insert_by_priority_perm.
    constructor; [unfold by_priority; lia | done].
  - constructor; [by constructor|].
    constructor; [done|].
    eapply Forall_impl; [exact Hy|]. unfold by_priority. intros z Hz. lia.
Qed.

Lemma sorted_by_priority_sorted (l : list Optimization.t) :
  StronglySorted by_priority (Optimization.sorted_by_priority l).
Proof.
  induction l as [|x l IH]; simpl; [constructor|].
  by apply insert_by_priority_sorted.
Qed.

Lemma insert_by_priority_filter (p : Z) (x : Optimization.t)
    (l : list Optimization.t) :
  List.filter (same_priority p) (Optimization.insert_by_priority x l) =
  List.filter (same_priority p) (x :: l).
Proof.
  induction l as [|y l IH]; [done|]. cbn [Optimization.insert_by_priority].
  destruct (Z.ltb_spec (Optimization.priority y) (Optimization.priority x));
    [|done].
  cbn [List.filter] in *. rewrite IH. unfold same_priority.
  destruct (Z.eqb_spec (Optimization.priority y) p),
           (Z.eqb_spec (Optimization.priority x) p); try done. lia.
Qed.

(** X21. The final ordering of the suggestions of either agent: a stable
    sort by ascending priority. *)
Theorem sorted_by_priority_spec (optimizations : list Optimization.t) :
  Permutation (Optimization.sorted_by_priority optimizations) optimizations ∧
  StronglySorted by_priority (Optimization.sorted_by_priority optimizations) ∧
  (∀ p, List.filter (same_priority p)
          (Optimization.sorted_by_priority optimizations) =
        List.filter (same_priority p) optimizations).
Proof.
  split; [apply sorted_by_priority_perm|].
  split; [apply sorted_by_priority_sorted|].
  intros p. induction optimizations as [|x l IH]; [done|].
  cbn [Optimization.sorted_by_priority foldr].
  fold (Optimization.sorted_by_priority l).
  rewrite insert_by_priority_filter. cbn [List.filter]. by rewrite IH.
Qed.

Lemma filter_existsb {A B} (f : A → bool) (l : list A) (a b : B) :
  match List.filter f l with [] => a | _ :: _ => b end =
  if existsb f l then b else a.
Proof.
  induction l as [|x l IH]; [done|]. cbn [List.filter existsb].
  by destruct (f x).
Qed.







(** X23. The suggestions for an ML pipeline, in the order in which they are
    returned: the call never raises, automated retraining and cost
    optimization are always suggested and come last, and between two
    and five suggestions are made. *)
Theorem mlops_optimize_spec (data : dict) (issues : list Issue) :
  MLOpsAgent.optimize data issues = mlops_plan data issues ∧
  (2 <= length (MLOpsAgent.optimize data issues) <= 5)%nat ∧
  automated_retraining ∈ MLOpsAgent.optimize data issues ∧
  last (MLOpsAgent.optimize data issues) = Some training_and_inference_costs.
Proof.
  assert (H : MLOpsAgent.optimize data issues = mlops_plan data issues).
  { unfold MLOpsAgent.optimize, mlops_plan. rewrite !filter_existsb.
    by destruct (truthy _), (existsb is_inference_issue issues),
                (existsb is_quality_issue issues). }
  split; [exact H|]. rewrite H. unfold mlops_plan.
  destruct (truthy _), (existsb is_inference_issue issues),
           (existsb is_quality_issue issues); cbn [when app length last];
    (split; [lia|]); (split; [|done]); set_solver.
Qed.

End Suggestions.

(** ** From the analysis to the suggestions *)

Section AnalysisSuggestions.

Lemma existsb_normalised (f : Issue → bool) (issues : list Issue) :
  (∀ i, f (normalised i) = f i) →
  existsb f (map normalised issues) = existsb f issues.
Proof.
  intros H. induction issues as [|i issues IH]; [done|].
  cbn [map existsb]. by rewrite H, IH.
Qed.

(** X24. The suggestions do not depend on the metadata of the issues: the
    issues rebuilt from their dicts lead to the same suggestions as the
    issues of the analysis. *)
Theorem optimize_after_round_trip (data : dict) (issues : list Issue) :
  DevOpsAgent.optimize data (map normalised issues) =
    DevOpsAgent.optimize data issues ∧
  MLOpsAgent.optimize data (map normalised issues) =
    MLOpsAgent.optimize data issues.
Proof.
  split.
  - unfold DevOpsAgent.optimize. rewrite !filter_existsb.
    by rewrite !existsb_normalised by done.
  - unfold MLOpsAgent.optimize. rewrite !filter_existsb.
    by rewrite !existsb_normalised by done.
Qed.

Lemma missing_throughput_low_throughput (m : dict) (issues : list Issue) :
  lookup_key "throughput" m = None →
  _analyze_inference (VDict m) = Ok issues →
  low_throughput_issue (VInt 0) 0 ∈ issues.
Proof.
  intros Hm H. unfold _analyze_inference in H.
  cbn [get mbind result_bind] in H.
  apply bind_ok in H as (latency & _ & H).
  assert (E : dict_get m "throughput" (VInt 0) = VInt 0)
    by (unfold dict_get; by rewrite Hm).
  rewrite E in H. cbn [number as_num mbind result_bind] in H.
  apply bind_ok in H as (errors & _ & [= <-]).
  apply elem_of_app. right. left.
Qed.

(** X25. An ML batch whose inference section is absent, or present without
    a throughput: when the analysis returns, the first suggestion made
    from its issues is to optimize the model for inference. *)
Theorem missing_throughput_optimized (data m : dict) (issues : list Issue)
    (Hsection : dict_get data "inference_metrics" (VDict []) = VDict m)
    (Hmissing : lookup_key "throughput" m = None)
    (Hok : MLOpsAgent.analyze data = Ok issues) :
  head (MLOpsAgent.optimize data issues) = Some model_for_inference.
Proof.
  apply mlops_analyze_ok in Hok
    as (p & t & q & i & e & _ & _ & _ & Hi & _ & Hperm).
  rewrite Hsection in Hi.
  apply (missing_throughput_low_throughput m i Hmissing) in Hi.
  assert (Hin : low_throughput_issue (VInt 0) 0 ∈ issues).
  { rewrite Hperm. do 3 (apply elem_of_app; right).
    apply elem_of_app. by left. }
  assert (E : existsb is_inference_issue issues = true).
  { apply existsb_exists. exists (low_throughput_issue (VInt 0) 0).
    split; [by apply list_elem_of_In | reflexivity]. }
  unfold MLOpsAgent.optimize. rewrite !filter_existsb, E.
  by destruct (truthy _), (existsb is_quality_issue issues).
Qed.

Lemma missing_throughput_optimized_witness :
  head (MLOpsAgent.optimize bare_serving_batch
          (emitted (MLOpsAgent.analyze bare_serving_batch))) =
  Some model_for_inference.
Proof.
  apply (missing_throughput_optimized bare_serving_batch
           [("latency_p95", VInt 20)]).
  - reflexivity.
  - reflexivity.
  - by vm_compute.
Defined.

(** X26. A delivery batch whose cluster check reports an issue other than
    the service-mesh one: the suggestions made from the issues of the
    analysis include the three cluster suggestions, and the last
    suggestion is the one on deployment speed. *)
Theorem cluster_issues_optimized (repr : value → string) (data : dict)
    (issues : list Issue) (optimizations : list Optimization.t)
    (Hcluster : Exists (λ i, title i ≠ "High Service Mesh Error Rate")
                  (emitted (_analyze_kubernetes repr
                              (dict_get data "kubernetes" (VDict [])))))
    (Hok : DevOpsAgent.analyze repr data = Ok issues)
    (Hopt : DevOpsAgent.optimize data issues = Ok optimizations) :
  kubernetes_best_practices ∈ optimizations ∧
  kubernetes_resource_utilization ∈ optimizations ∧
  kubernetes_deployment_speed ∈ optimizations ∧
  last optimizations = Some kubernetes_deployment_speed.
Proof.
  apply devops_analyze_ok in Hok
    as (bi & ti & di & ri & si & ki & _ & _ & _ & _ & _ & Hk & Hperm).
  rewrite Hk in Hcluster. cbn [emitted] in Hcluster.
  apply analyze_kubernetes_issues in Hk as [_ Hk].
  apply Exists_exists in Hcluster as (k & Hin & Ht).
  rewrite Forall_forall in Hk. destruct (Hk k Hin) as [Hc|]; [|done].
  assert (E : existsb (component_has "kubernetes") issues = true).
  { apply existsb_exists. exists k. split; [|exact Hc].
    apply list_elem_of_In. rewrite Hperm.
    do 5 (apply elem_of_app; right). done. }
  unfold DevOpsAgent.optimize in Hopt.
  apply bind_ok in Hopt as (bo & Hbo & [= <-]).
  rewrite !filter_existsb, E.
  assert (Hb : bo = [] ∨ ∃ avg, bo = [build_caching avg]).
  { destruct (truthy _); [|injection Hbo as <-; by left].
    apply bind_ok in Hbo as (bs & _ & Hbo).
    apply bind_ok in Hbo as (total & _ & Hbo).
    apply bind_ok in Hbo as (avg & _ & Hbo).
    destruct (Qltb 300 avg); injection Hbo as <-; [right; by eexists | by left]. }
  destruct Hb as [->|[avg ->]];
    destruct (existsb is_test_issue issues),
             (existsb (title_has "deployment") issues),
             (existsb is_performance_issue issues);
    cbn; repeat split; set_solver.
Qed.

Lemma cluster_issues_optimized_witness :
  kubernetes_best_practices ∈
    [kubernetes_best_practices; kubernetes_resource_utilization;
     kubernetes_deployment_speed] ∧
  kubernetes_resource_utilization ∈
    [kubernetes_best_practices; kubernetes_resource_utilization;
     kubernetes_deployment_speed] ∧
  kubernetes_deployment_speed ∈
    [kubernetes_best_practices; kubernetes_resource_utilization;
     kubernetes_deployment_speed] ∧
  last [kubernetes_best_practices; kubernetes_resource_utilization;
        kubernetes_deployment_speed] = Some kubernetes_deployment_speed.
Proof.
  apply (cluster_issues_optimized (λ _, "") failed_pod_batch
           (emitted (DevOpsAgent.analyze (λ _, "") failed_pod_batch))).
  - vm_compute. left. discriminate.
  - by vm_compute.
  - by vm_compute.
Defined.

End AnalysisSuggestions.

(** ** The orchestrator *)

Section Orchestration.

(** X27. The collector of the delivery data is the GitHub Actions collector
    when the source mentions github and not jenkins, in any letter
    case, and the Jenkins collector otherwise: a source that mentions
    gitlab is given the type gitlab, which the factory does not know. *)
Theorem devops_collector_spec (source : option string) :
  (github_source source →
   PipelineOrchestrator.devops_collector source =
   CollectorFactory.GitHubActionsCollector) ∧
  (¬ github_source source →
   PipelineOrchestrator.devops_collector source =
   CollectorFactory.JenkinsCollector) ∧
  (∀ s, source = Some s → source_mentions "gitlab" s →
        ¬ source_mentions "jenkins" s → ¬ source_mentions "github" s →
        PipelineOrchestrator._determine_collector_type source = "gitlab") ∧
  CollectorFactory.create_collector "gitlab" =
    CollectorFactory.JenkinsCollector ∧
  "gitlab" ∉ CollectorFactory.get_available_collectors.
Proof.
  unfold PipelineOrchestrator.devops_collector,
    PipelineOrchestrator._determine_collector_type, github_source,
    source_mentions.
  split; [|split; [|split; [|split; [reflexivity|]]]].
  4: { apply (bool_decide_unpack _). by vm_compute. }
  - intros (s & -> & Hg & Hj).
    destruct (String.eqb_spec s "") as [->|Hne]; [by vm_compute in Hg|].
    apply not_true_is_false in Hj. by rewrite Hj, Hg.
  - intros Hn. destruct source as [s|]; [|reflexivity].
    destruct (String.eqb_spec s "") as [->|Hne]; [reflexivity|].
    destruct (str_contains "jenkins" (str_lower s)) eqn:Ej; [reflexivity|].
    destruct (str_contains "github" (str_lower s)) eqn:Eg.
    + destruct Hn. exists s. rewrite Ej, Eg. by repeat split.
    + by destruct (str_contains "gitlab" (str_lower s)).
  - intros s -> Hl Hj Hg.
    destruct (String.eqb_spec s "") as [->|Hne]; [by vm_compute in Hl|].
    apply not_true_is_false in Hj, Hg. by rewrite Hj, Hg, Hl.
Qed.

Lemma urgent_dicts (found : list Issue) :
  len (List.filter PipelineOrchestrator.is_urgent (map to_dict found)) =
  len (with_severity "critical" found) + len (with_severity "high" found).
Proof.
  unfold with_severity, len.
  induction found as [|i found IH]; [done|].
  cbn [map List.filter].
  replace (PipelineOrchestrator.is_urgent (to_dict i))
    with (String.eqb (severity i) "critical" || String.eqb (severity i) "high")
    by (unfold PipelineOrchestrator.is_urgent; cbn; by rewrite orb_false_r).
  destruct (String.eqb_spec (severity i) "critical") as [E|E].
  - rewrite E. cbn [orb String.eqb Ascii.eqb Bool.eqb length]. lia.
  - cbn [orb]. destruct (String.eqb (severity i) "high"); cbn [length]; lia.
Qed.

Lemma report_urgent (data : dict) (found : list Issue) :
  len (List.filter PipelineOrchestrator.is_urgent
         (PipelineOrchestrator.issues (PipelineOrchestrator.report data found))) =
  urgent_in (Some (PipelineOrchestrator.report data found)).
Proof.
  unfold urgent_in, PipelineOrchestrator.report.
  cbn [PipelineOrchestrator.issues PipelineOrchestrator.summary].
  destruct (generate_summary_closed found) as (_ & Hs & _).
  rewrite !Hs. cbn [count_of]. apply urgent_dicts.
Qed.

(** X28. What [analyze_pipelines] returns. An analysis runs exactly when the
    pipeline type asks for it, so that a type other than devops, mlops
    and both yields a result without any issue and without an error.
    The total of each summary is the number of issues stored beside it;
    the issues an alert is raised for are as many as the critical and
    high counts of the two summaries; and the cross-pipeline issues are
    at most two more than a fifth of the issues found. *)
Theorem analyze_pipelines_spec (repr : value → string) (pipeline_type : string)
    (devops_data mlops_data : dict) (r : PipelineOrchestrator.results)
    (Hok : PipelineOrchestrator.analyze_pipelines repr pipeline_type
             devops_data mlops_data = Ok r) :
  (is_Some (PipelineOrchestrator.devops r) ↔
   pipeline_type = "devops" ∨ pipeline_type = "both") ∧
  (is_Some (PipelineOrchestrator.mlops r) ↔
   pipeline_type = "mlops" ∨ pipeline_type = "both") ∧
  (¬ known_type pipeline_type →
   PipelineOrchestrator.cross_pipeline_issues r = []) ∧
  (∀ s, PipelineOrchestrator.devops r = Some s ∨
        PipelineOrchestrator.mlops r = Some s →
        dict_get (PipelineOrchestrator.summary s) "total" VNone =
        VInt (len (PipelineOrchestrator.issues s))) ∧
  len (PipelineOrchestrator.critical_issues r) =
    urgent_in (PipelineOrchestrator.devops r) +
    urgent_in (PipelineOrchestrator.mlops r) ∧
  len (PipelineOrchestrator.cross_pipeline_issues r) <=
    2 + (found_in (PipelineOrchestrator.devops r) +
         found_in (PipelineOrchestrator.mlops r)) `div` 5.
Proof.
  unfold PipelineOrchestrator.analyze_pipelines in Hok.
  apply bind_ok in Hok as (d & Hd & Hok).
  apply bind_ok in Hok as (m & Hm & [= <-]).
  cbn [PipelineOrchestrator.devops PipelineOrchestrator.mlops
       PipelineOrchestrator.cross_pipeline_issues].
  cbn [existsb] in Hd, Hm. rewrite orb_false_r in Hd, Hm.
  assert (Dd : is_Some d ↔ pipeline_type = "devops" ∨ pipeline_type = "both").
  { rewrite <- !String.eqb_eq, <- orb_true_iff. revert Hd.
    destruct (String.eqb pipeline_type "devops" || _); intros Hd.
    - apply bind_ok in Hd as (? & _ & [= <-]). by split.
    - injection Hd as <-. split; [by intros [? ?] | done]. }
  assert (Dm : is_Some m ↔ pipeline_type = "mlops" ∨ pipeline_type = "both").
  { rewrite <- !String.eqb_eq, <- orb_true_iff. revert Hm.
    destruct (String.eqb pipeline_type "mlops" || _); intros Hm.
    - apply bind_ok in Hm as (? & _ & [= <-]). by split.
    - injection Hm as <-. split; [by intros [? ?] | done]. }
  split; [by rewrite fmap_is_Some|]. split; [by rewrite fmap_is_Some|].
  split; [|split; [|split]].
  - intros Hk. destruct d as [d|].
    { destruct Hk. unfold known_type.
      destruct (proj1 Dd (mk_is_Some _ _ eq_refl)) as [->| ->];
        repeat constructor. }
    destruct m as [m|]; [|done].
    destruct Hk. unfold known_type.
    destruct (proj1 Dm (mk_is_Some _ _ eq_refl)) as [->| ->];
      repeat constructor.
  - intros s [H|H].
    + destruct d as [d|]; [|done]. injection H as <-.
      cbn [PipelineOrchestrator.report PipelineOrchestrator.summary
           PipelineOrchestrator.issues].
      rewrite len_map. apply generate_summary_closed.
    + destruct m as [m|]; [|done]. injection H as <-.
      cbn [PipelineOrchestrator.report PipelineOrchestrator.summary
           PipelineOrchestrator.issues].
      rewrite len_map. apply generate_summary_closed.
  - unfold PipelineOrchestrator.critical_issues.
    cbn [PipelineOrchestrator.devops PipelineOrchestrator.mlops].
    rewrite len_app.
    destruct d as [d|], m as [m|];
      cbn [fmap option_fmap option_map default from_option id];
      rewrite ?report_urgent; reflexivity.
  - rewrite len_map.
    etransitivity; [apply cross_pipeline_length|].
    rewrite len_app.
    destruct d as [d|], m as [m|];
      cbn [fmap option_fmap option_map default from_option id found_in
           PipelineOrchestrator.report PipelineOrchestrator.issues];
      rewrite ?len_map; reflexivity.
Qed.

Lemma analyze_pipelines_spec_witness :
  ∃ r, PipelineOrchestrator.analyze_pipelines (λ _, "") "DevOps"
         failing_batch [] = Ok r ∧
       PipelineOrchestrator.devops r = None ∧
       PipelineOrchestrator.mlops r = None ∧
       PipelineOrchestrator.cross_pipeline_issues r = [].
Proof.
  eexists. split; [reflexivity|]. split; [reflexivity|].
  split; [reflexivity|].
  refine (proj1 (proj2 (proj2 (analyze_pipelines_spec (λ _, "") "DevOps"
            failing_batch [] _ eq_refl))) _).
  unfold known_type. rewrite !elem_of_cons, elem_of_nil.
  intros [?|[?|[?|[]]]]; discriminate.
Defined.

End Orchestration.
